(** * Mizan decision engine: valuation, position sizing, verdict aggregation
      and pipeline confidence, embedded from the Python sources.

    Conventions of the embedding.

    - Python values that travel through the gate envelopes ([dict[str, Any]])
      are values of [pyval]; a dict is an association list in insertion order.
    - Python [float]s are modelled as exact rationals ([Q]).  Binary64
      rounding error, infinities and NaN are outside the model; [round] is
      the decimal round-half-to-even that Python's [round(x, n)] performs.
    - Strings are byte strings; [upper]/[lower] act on ASCII letters.
    - Exceptions are values of [exn] in the error monad [Exc]; a [try/except
      Exception] block is [try_except].
    - What the process environment and the language runtime supply (the two
      configuration constants, the textual rendering and parsing of floats,
      the LLM-backed advisory helpers, the clock) is a field of [Runtime].
    - The model call of gates 1, 3 and 4 ([llm.invoke] and the parsing of its
      answer) is a field of [Llm]: the parsed answer, or an exception, as a
      function of the values the prompt is built from.
    - [structured_log] only writes to the logger and is not modelled. *)

From Stdlib Require Import ZArith QArith Qminmax Lqa Lia String Ascii List Bool DecimalString.
Import ListNotations.
Open Scope string_scope.
Open Scope Z_scope.

(** ** Python values *)

Set Warnings "-register-all".

Inductive pyval : Type :=
| VNone
| VBool (b : bool)
| VInt (z : Z)
| VFloat (q : Q)
| VStr (s : string)
| VList (l : list pyval)
| VDict (d : list (string * pyval)).

Definition dict : Type := list (string * pyval).

Inductive exn_kind := AttributeError | KeyError | TypeError | ValueError | ZeroDivisionError.

Record exn := Raise { exn_type : exn_kind; exn_message : string }.

(** The error monad of a [try] block. *)
Definition Exc (A : Type) : Type := (exn + A)%type.

Definition ret {A} (a : A) : Exc A := inr a.
Definition raise {A} (k : exn_kind) (msg : string) : Exc A := inl (Raise k msg).
Definition bind {A B} (m : Exc A) (k : A -> Exc B) : Exc B :=
  match m with inl e => inl e | inr a => k a end.
Definition try_except {A} (body : Exc A) (handler : exn -> A) : A :=
  match body with inl e => handler e | inr a => a end.

Declare Scope exc_scope.
Delimit Scope exc_scope with exc.
Notation "x <- m ;; k" := (bind m (fun x => k))
  (at level 61, m at next level, right associativity) : exc_scope.
Notation "' pat <- m ;; k" := (bind m (fun x => match x with pat => k end))
  (at level 61, pat pattern, m at next level, right associativity) : exc_scope.

Module Py.

(** [d.get(k)] and [d.get(k, default)], [d[k]], [d[k] = v]. *)
Fixpoint assoc (k : string) (d : dict) : option pyval :=
  match d with
  | [] => None
  | (k', v) :: d' => if String.eqb k k' then Some v else assoc k d'
  end.

Definition get (d : dict) (k : string) : pyval :=
  match assoc k d with Some v => v | None => VNone end.

Definition get_or (d : dict) (k : string) (default : pyval) : pyval :=
  match assoc k d with Some v => v | None => default end.

Definition item (d : dict) (k : string) : Exc pyval :=
  match assoc k d with
  | Some v => ret v
  | None => raise KeyError ("'" ++ k ++ "'")
  end.

Fixpoint set (d : dict) (k : string) (v : pyval) : dict :=
  match d with
  | [] => [(k, v)]
  | (k', v') :: d' => if String.eqb k k' then (k, v) :: d' else (k', v') :: set d' k v
  end.

Definition contains_key (d : dict) (k : string) : bool :=
  match assoc k d with Some _ => true | None => false end.

(** [x.get(k, default)] on a value that need not be a dict. *)
Definition attr_get (x : pyval) (k : string) (default : pyval) : Exc pyval :=
  match x with
  | VDict d => ret (get_or d k default)
  | _ => raise AttributeError "object has no attribute 'get'"
  end.

(** [x[k]] on a value that need not be a dict. *)
Definition subscript (x : pyval) (k : string) : Exc pyval :=
  match x with
  | VDict d => item d k
  | _ => raise TypeError "object is not subscriptable"
  end.

Definition is_none (v : pyval) : bool :=
  match v with VNone => true | _ => false end.

Definition is_dict (v : pyval) : bool :=
  match v with VDict _ => true | _ => false end.

(** [isinstance(v, (int, float))]; [bool] is a subclass of [int]. *)
Definition is_int_or_float (v : pyval) : bool :=
  match v with VBool _ | VInt _ | VFloat _ => true | _ => false end.

(** Truth value testing, [bool(v)]. *)
Definition truthy (v : pyval) : bool :=
  match v with
  | VNone => false
  | VBool b => b
  | VInt z => negb (z =? 0)
  | VFloat q => negb (Qeq_bool q 0)
  | VStr s => negb (String.eqb s "")
  | VList l => match l with [] => false | _ => true end
  | VDict d => match d with [] => false | _ => true end
  end.

(** [a or b]: the first operand when it is truthy, else the second. *)
Definition or_ (a b : pyval) : pyval := if truthy a then a else b.

(** [v == "literal"]. *)
Definition eq_str (v : pyval) (s : string) : bool :=
  match v with VStr t => String.eqb t s | _ => false end.

(** Float comparisons (no NaN in the model). *)
Definition le (a b : Q) : bool := Qle_bool a b.
Definition ge (a b : Q) : bool := Qle_bool b a.
Definition lt (a b : Q) : bool := negb (Qle_bool b a).
Definition gt (a b : Q) : bool := negb (Qle_bool a b).
Definition ne (a b : Q) : bool := negb (Qeq_bool a b).

(** Two-argument [min]/[max]: the first argument wins ties. *)
Definition min (a b : Q) : Q := if lt b a then b else a.
Definition max (a b : Q) : Q := if gt b a then b else a.

(** [min(iterable)]; [ValueError] on an empty one. *)
Definition min_of (l : list Q) : Exc Q :=
  match l with
  | [] => raise ValueError "min() arg is an empty sequence"
  | x :: xs => ret (fold_left min xs x)
  end.

Definition abs (a : Q) : Q := if lt a 0 then Qopp a else a.

(** [round(x, digits)]: decimal rounding, ties to the even digit. *)
Definition round_half_even (q : Q) : Z :=
  let n := Qnum q in
  let d := Zpos (Qden q) in
  let fl := n / d in
  match (2 * (n mod d)) ?= d with
  | Lt => fl
  | Gt => fl + 1
  | Eq => if Z.even fl then fl else fl + 1
  end.

Definition pow10 (digits : nat) : Q := inject_Z (10 ^ Z.of_nat digits).

Definition round (x : Q) (digits : nat) : Q :=
  Qred (inject_Z (round_half_even (x * pow10 digits)) / pow10 digits).

(** ASCII case mapping, [str.upper] and [str.lower]. *)
Definition upper_ascii (c : ascii) : ascii :=
  let n := nat_of_ascii c in
  if (andb (Nat.leb 97 n) (Nat.leb n 122)) then ascii_of_nat (n - 32) else c.

Definition lower_ascii (c : ascii) : ascii :=
  let n := nat_of_ascii c in
  if (andb (Nat.leb 65 n) (Nat.leb n 90)) then ascii_of_nat (n + 32) else c.

Fixpoint map_string (f : ascii -> ascii) (s : string) : string :=
  match s with
  | EmptyString => EmptyString
  | String c s' => String (f c) (map_string f s')
  end.

Definition upper (s : string) : string := map_string upper_ascii s.
Definition lower (s : string) : string := map_string lower_ascii s.

Definition startswith (s p : string) : bool := String.prefix p s.

(** [sub in s]. *)
Definition contains (s sub : string) : bool :=
  match String.index 0 sub s with Some _ => true | None => false end.

(** [sep.join(l)]. *)
Definition join (sep : string) (l : list string) : string := String.concat sep l.

Definition str_of_Z (z : Z) : string := NilZero.string_of_int (Z.to_int z).

Definition of_float (o : option Q) : pyval :=
  match o with Some q => VFloat q | None => VNone end.

Definition of_str (o : option string) : pyval :=
  match o with Some s => VStr s | None => VNone end.

Definition str_list (l : list string) : pyval := VList (map VStr l).

Definition float_dict (l : list (string * Q)) : dict :=
  map (fun kv => (fst kv, VFloat (snd kv))) l.

(** [d[k]] on a dict literal with values of one type. *)
Fixpoint lookup {A} (k : string) (d : list (string * A)) : Exc A :=
  match d with
  | [] => raise KeyError ("'" ++ k ++ "'")
  | (k', v) :: d' => if String.eqb k k' then ret v else lookup k d'
  end.

(** [x in collection] for strings. *)
Definition mem (x : string) (l : list string) : bool := existsb (String.eqb x) l.

End Py.

(** ** What the runtime supplies *)

Class Runtime := {
  (** [float(os.getenv("REQUIRED_MARGIN_OF_SAFETY", "0.30"))] *)
  env_required_margin : Q;
  (** [float(os.getenv("VALUATION_MULTIPLE", "10"))] *)
  env_valuation_multiple : Q;
  (** [format(x, spec)]; the empty spec is [str(x)] *)
  format_float : string -> Q -> string;
  (** [float(s)] on a string, [None] when it raises [ValueError] *)
  parse_float : string -> option Q;
  (** [int(s)] on a string *)
  parse_int : string -> option Z;
  (** [str(v)] of a list or a dict *)
  repr_container : pyval -> string;
  (** the LLM-backed supervisor of gate 2, given the finished [data] *)
  valuation_supervisor : dict -> dict;
  (** the LLM-backed overlay of gate 5, given the finished numbers *)
  sizing_agent : Q -> string -> list (string * Q) -> Q -> Q -> Q -> string -> Q -> option dict;
  (** [datetime.now(timezone.utc).isoformat()] *)
  clock : string
}.

Module PyRt.
Section WithRuntime.
Context {R : Runtime}.

(** [str(v)]. *)
Definition str (v : pyval) : string :=
  match v with
  | VNone => "None"
  | VBool true => "True"
  | VBool false => "False"
  | VInt z => Py.str_of_Z z
  | VFloat q => format_float "" q
  | VStr s => s
  | VList _ | VDict _ => repr_container v
  end.

(** [float(v)]. *)
Definition float (v : pyval) : Exc Q :=
  match v with
  | VBool b => ret (if b then 1%Q else 0%Q)
  | VInt z => ret (inject_Z z)
  | VFloat q => ret q
  | VStr s =>
      match parse_float s with
      | Some q => ret q
      | None => raise ValueError ("could not convert string to float: '" ++ s ++ "'")
      end
  | _ => raise TypeError "float() argument must be a string or a real number"
  end.

(** [float(x)] on an argument annotated [float | None]. *)
Definition float_opt (o : option Q) : Exc Q :=
  match o with
  | Some q => ret q
  | None => raise TypeError "float() argument must be a string or a real number, not 'NoneType'"
  end.

(** [int(v)]; a float is truncated towards zero. *)
Definition int (v : pyval) : Exc Z :=
  match v with
  | VBool b => ret (if b then 1 else 0)
  | VInt z => ret z
  | VFloat q => ret (Z.quot (Qnum q) (Zpos (Qden q)))
  | VStr s =>
      match parse_int s with
      | Some z => ret z
      | None => raise ValueError ("invalid literal for int() with base 10: '" ++ s ++ "'")
      end
  | _ => raise TypeError "int() argument must be a string, a bytes-like object or a real number"
  end.

End WithRuntime.
End PyRt.

(** ** response_utils.py *)

Module ResponseUtils.
Section WithRuntime.
Context {R : Runtime}.
Open Scope exc_scope.

Definition utc_timestamp : string := clock.

Definition build_diagnostics (inputs_used : list string)
    (missing_inputs : option (list string)) (binding_constraint : option string) : dict :=
  [ ("inputs_used", Py.str_list inputs_used);
    ("missing_inputs", Py.str_list (match missing_inputs with Some l => l | None => [] end));
    ("binding_constraint", Py.of_str binding_constraint) ].

Definition clamp_confidence (confidence : Z) : Z := Z.max 0 (Z.min 100 confidence).

Definition ok_response (gate : string) (data : dict) (inputs_used : list string)
    (confidence : Z) (one_liner : string) (binding_constraint : option string)
    (missing_inputs : option (list string)) : dict :=
  [ ("status", VStr "OK");
    ("gate", VStr gate);
    ("data", VDict data);
    ("confidence", VInt (clamp_confidence confidence));
    ("one_liner", Py.or_ (VStr one_liner) (Py.get_or data "one_liner" (VStr "")));
    ("diagnostics", VDict (build_diagnostics inputs_used
        (Some (match missing_inputs with Some l => l | None => [] end))
        binding_constraint)) ].

Definition partial_response (gate : string) (data : dict) (inputs_used : list string)
    (missing_inputs : list string) (confidence : Z) (one_liner : string)
    (binding_constraint : option string) : dict :=
  [ ("status", VStr "PARTIAL");
    ("gate", VStr gate);
    ("data", VDict data);
    ("confidence", VInt (clamp_confidence confidence));
    ("one_liner", VStr one_liner);
    ("diagnostics", VDict (build_diagnostics inputs_used (Some missing_inputs)
        binding_constraint)) ].

Definition error_response (gate code message : string) (inputs_used : list string)
    (missing_inputs : option (list string)) (binding_constraint : option string) : dict :=
  [ ("status", VStr "ERROR");
    ("gate", VStr gate);
    ("data", VDict []);
    ("confidence", VInt 0);
    ("one_liner", VStr message);
    ("error", VDict [ ("code", VStr code); ("message", VStr message) ]);
    ("diagnostics", VDict (build_diagnostics inputs_used
        (Some (match missing_inputs with Some l => l | None => [] end))
        binding_constraint)) ].

Definition skipped_response (gate : string) (data : dict) (inputs_used : list string)
    (reason : string) (missing_inputs : option (list string))
    (binding_constraint : option string) : dict :=
  [ ("status", VStr "SKIPPED");
    ("gate", VStr gate);
    ("data", VDict data);
    ("confidence", VInt 0);
    ("one_liner", VStr reason);
    ("diagnostics", VDict (build_diagnostics inputs_used
        (Some (match missing_inputs with Some l => l | None => [] end))
        binding_constraint)) ].

(** [[key for key, value in values.items() if value is None]] *)
Definition missing_required_fields (values : dict) : list string :=
  map fst (filter (fun kv => Py.is_none (snd kv)) values).

Definition round_float (value : Q) (digits : nat) : Q := Py.round value digits.

Definition format_compact_number (value : option Q) : option string :=
  match value with
  | None => None
  | Some num =>
      let abs_num := Py.abs num in
      if Py.ge abs_num 1000000000 then
        Some (format_float "" (round_float (num / 1000000000) 2) ++ "B")
      else if Py.ge abs_num 1000000 then
        Some (format_float "" (round_float (num / 1000000) 2) ++ "M")
      else if Py.ge abs_num 1000 then
        Some (format_float "" (round_float (num / 1000) 2) ++ "k")
      else Some (format_float "" (round_float num 2))
  end.

Definition format_decimal_with_percent_label (value : option Q) (digits : nat) : option string :=
  match value with
  | None => None
  | Some v =>
      let decimal_value := round_float v digits in
      let percent_value := round_float (v * 100) 2 in
      Some (format_float "" decimal_value ++ " (" ++ format_float "" percent_value ++ "%)")
  end.

(** The local helper [_find_gate_data] of [compute_pipeline_confidence]. *)
Fixpoint _find_gate_data (gate_results : list dict) (prefix : string) : dict :=
  match gate_results with
  | [] => []
  | result :: rest =>
      let gate_name := Py.lower (PyRt.str (Py.get_or result "gate" (VStr ""))) in
      if Py.startswith gate_name prefix then
        match Py.get result "data" with
        | VDict data => data
        | _ => _find_gate_data rest prefix
        end
      else _find_gate_data rest prefix
  end.

(** [any(bool(result.get("diagnostics", {}).get("missing_inputs", [])) for ...)];
    the generator stops at the first true element. *)
Fixpoint any_missing_inputs (gate_results : list dict) : Exc bool :=
  match gate_results with
  | [] => ret false
  | result :: rest =>
      m <- Py.attr_get (Py.get_or result "diagnostics" (VDict [])) "missing_inputs" (VList []) ;;
      if Py.truthy m then ret true else any_missing_inputs rest
  end.

Definition compute_pipeline_confidence (gate_results : list dict) : Exc Z :=
  match gate_results with
  | [] => ret 0
  | _ =>
      let gate2 := _find_gate_data gate_results "gate 2" in
      let gate3 := _find_gate_data gate_results "gate 3" in
      let gate4 := _find_gate_data gate_results "gate 4" in
      let confidence := 50 in
      let margin_of_safety := Py.get gate2 "margin_of_safety" in
      c1 <- (if Py.is_int_or_float margin_of_safety then
               m <- PyRt.float margin_of_safety ;;
               ret (if Py.lt m (-1.0) then confidence + 20 else confidence)
             else ret confidence) ;;
      let impairment_risk := Py.upper (PyRt.str (Py.get_or gate4 "risk_level" (VStr ""))) in
      let c2 := if String.eqb impairment_risk "LOW" then c1 + 10 else c1 in
      let market_structure := Py.upper (PyRt.str (Py.get_or gate3 "classification" (VStr ""))) in
      let c3 := if String.eqb market_structure "HEADWIND" then c2 - 10 else c2 in
      key_data_missing <- any_missing_inputs gate_results ;;
      let c4 := if key_data_missing then c3 - 10 else c3 in
      ret (Z.max 0 (Z.min 100 c4))
  end.

End WithRuntime.
End ResponseUtils.

(** ** gates/gate2_valuation.py *)

Module Gate2.

(** The arithmetic of the [try] block runs in [Traced]: the error monad
    together with the list of divisors of the divisions executed so far, in
    execution order ([/] is the only operation of the block that can raise
    on floats). *)
Definition Traced (A : Type) : Type := list Q -> Exc A * list Q.

Definition tret {A} (a : A) : Traced A := fun log => (ret a, log).
Definition tbind {A B} (m : Traced A) (k : A -> Traced B) : Traced B :=
  fun log => match m log with
             | (inl e, log') => (inl e, log')
             | (inr a, log') => k a log'
             end.
Definition lift {A} (m : Exc A) : Traced A := fun log => (m, log).
Definition div (a b : Q) : Traced Q :=
  fun log =>
    if Qeq_bool b 0
    then (raise ZeroDivisionError "float division by zero", (log ++ [b])%list)
    else (ret (a / b)%Q, (log ++ [b])%list).
Definition ttry_except {A} (body : Traced A) (handler : exn -> A) : A * list Q :=
  match body [] with
  | (inl e, log) => (handler e, log)
  | (inr a, log) => (a, log)
  end.

Declare Scope traced_scope.
Delimit Scope traced_scope with traced.
Notation "x <~ m ;; k" := (tbind m (fun x => k))
  (at level 61, m at next level, right associativity) : traced_scope.

Section WithRuntime.
Context {R : Runtime}.
Open Scope traced_scope.

Definition GATE_NAME : string := "Gate 2 – Valuation".
Definition REQUIRED_MARGIN : Q := env_required_margin.
Definition VALUATION_MULTIPLE : Q := env_valuation_multiple.

Definition _valuation_band (margin_of_safety : Q) : string :=
  if Py.ge margin_of_safety 0.50 then "DEEP_VALUE"
  else if Py.ge margin_of_safety 0.0 then "FAIR"
  else "EXPENSIVE".

Definition valuation_policy (net_debt : Q) : Q * Q :=
  let multiple := VALUATION_MULTIPLE in
  let required_margin := REQUIRED_MARGIN in
  if Py.le net_debt 0
  then ((multiple + 2.0)%Q, Py.max 0.20 (required_margin - 0.05))
  else (multiple, required_margin).

Definition _display_margin_of_safety (margin_of_safety : option Q) : option string :=
  match margin_of_safety with
  | None => None
  | Some m =>
      let display_mos := Py.min (Py.max m (-5.0)) 5.0 in
      if Py.le display_mos (-1.0) then Some "< -100% (Very expensive)"
      else if Py.ge display_mos 1.0 then Some "> 100%"
      else ResponseUtils.format_decimal_with_percent_label (Some display_mos) 4
  end.

Definition _run_valuation_supervisor (data : dict) : dict := valuation_supervisor data.

Definition inputs_used : list string :=
  [ "market_price"; "net_income"; "free_cashflow"; "total_debt"; "cash";
    "shares_outstanding"; "REQUIRED_MARGIN_OF_SAFETY"; "VALUATION_MULTIPLE";
    "valuation_policy(net_debt)" ].

Definition units : dict :=
  [ ("owner_earnings", VStr "USD");
    ("net_debt", VStr "USD");
    ("effective_net_debt", VStr "USD");
    ("intrinsic_equity", VStr "USD");
    ("intrinsic_price", VStr "USD_per_share");
    ("market_price", VStr "USD_per_share");
    ("margin_of_safety", VStr "decimal");
    ("required_margin", VStr "decimal") ].

(** The local variables of [calculate_valuation] once the branch on
    [intrinsic_price] is done. *)
Record locals := {
  owner_earnings : Q;
  owner_earnings_source : string;
  net_debt : Q;
  multiple_used : Q;
  required_margin_used : Q;
  effective_net_debt : Q;
  intrinsic_equity : Q;
  intrinsic_price : Q;
  margin_of_safety : option Q;
  passes : bool;
  valuation_band : string;
  one_liner : string;
  gate_confidence : Z
}.

(** The body of the [try] block up to the construction of [data]. *)
Definition compute_locals (market_price net_income free_cashflow total_debt cash
    shares_outstanding : option Q) : Traced locals :=
  oe <~ match free_cashflow with
        | None =>
            ni <~ lift (PyRt.float_opt net_income) ;;
            tret (ni, "NET_INCOME")
        | Some _ =>
            ni <~ lift (PyRt.float_opt net_income) ;;
            fcf <~ lift (PyRt.float_opt free_cashflow) ;;
            tret (Py.min ni fcf, if Py.le ni fcf then "NET_INCOME" else "FREE_CASH_FLOW")
        end ;;
  td <~ lift (PyRt.float_opt total_debt) ;;
  c <~ lift (PyRt.float_opt cash) ;;
  let net_debt := (td - c)%Q in
  let '(multiple_used, required_margin_used) := valuation_policy net_debt in
  let effective_net_debt := Py.max 0.0 net_debt in
  let intrinsic_equity := (fst oe * multiple_used - effective_net_debt)%Q in
  so <~ lift (PyRt.float_opt shares_outstanding) ;;
  intrinsic_price <~ div intrinsic_equity so ;;
  if Py.le intrinsic_price 0 then
    tret {| owner_earnings := fst oe; owner_earnings_source := snd oe;
            net_debt := net_debt; multiple_used := multiple_used;
            required_margin_used := required_margin_used;
            effective_net_debt := effective_net_debt;
            intrinsic_equity := intrinsic_equity; intrinsic_price := intrinsic_price;
            margin_of_safety := None; passes := false; valuation_band := "IMPAIRED";
            one_liner := "FAIL — Intrinsic value is non-positive (IMPAIRED)";
            gate_confidence := 90 |}
  else
    mp <~ lift (PyRt.float_opt market_price) ;;
    margin_of_safety <~ div (intrinsic_price - mp) intrinsic_price ;;
    let passes := Py.ge margin_of_safety required_margin_used in
    let valuation_band := _valuation_band margin_of_safety in
    let mos_pct := (margin_of_safety * 100)%Q in
    let req_pct := (required_margin_used * 100)%Q in
    one_liner <~ (if passes then
        tret ("PASS — " ++ valuation_band ++ " with MOS " ++ format_float ".1f" mos_pct
              ++ "% (required " ++ format_float ".0f" req_pct ++ "%)")
      else
        mp' <~ lift (PyRt.float_opt market_price) ;;
        price_ratio <~ (if Py.ne intrinsic_price 0 then div mp' intrinsic_price else tret 0%Q) ;;
        tret ("FAIL — Price is " ++ format_float ".1f" price_ratio
              ++ "x intrinsic value (MOS " ++ format_float "+.1f" mos_pct
              ++ "% vs required " ++ format_float ".0f" req_pct ++ "%)")) ;;
    tret {| owner_earnings := fst oe; owner_earnings_source := snd oe;
            net_debt := net_debt; multiple_used := multiple_used;
            required_margin_used := required_margin_used;
            effective_net_debt := effective_net_debt;
            intrinsic_equity := intrinsic_equity; intrinsic_price := intrinsic_price;
            margin_of_safety := Some margin_of_safety; passes := passes;
            valuation_band := valuation_band; one_liner := one_liner;
            gate_confidence := 85 |}.

(** The values the block above gives to [owner_earnings], [net_debt] and
    [intrinsic_price], written as functions of the (present) inputs; lemma
    [compute_locals_value] below checks them against [compute_locals]. *)
Definition owner_earnings_of (net_income : Q) (free_cashflow : option Q) : Q :=
  match free_cashflow with
  | None => net_income
  | Some fcf => Py.min net_income fcf
  end.

Definition owner_earnings_source_of (net_income : Q) (free_cashflow : option Q) : string :=
  match free_cashflow with
  | None => "NET_INCOME"
  | Some fcf => if Py.le net_income fcf then "NET_INCOME" else "FREE_CASH_FLOW"
  end.

Definition intrinsic_equity_of (net_income : Q) (free_cashflow : option Q)
    (total_debt cash : Q) : Q :=
  let net_debt := (total_debt - cash)%Q in
  (owner_earnings_of net_income free_cashflow * fst (valuation_policy net_debt)
   - Py.max 0.0 net_debt)%Q.

Definition intrinsic_price_of (net_income : Q) (free_cashflow : option Q)
    (total_debt cash shares_outstanding : Q) : Q :=
  (intrinsic_equity_of net_income free_cashflow total_debt cash / shares_outstanding)%Q.

(** The [data] dict literal. *)
Definition build_data (market_price : Q) (l : locals) : dict :=
  [ ("owner_earnings", VFloat (ResponseUtils.round_float (owner_earnings l) 2));
    ("owner_earnings_source_used", VStr (owner_earnings_source l));
    ("net_debt", VFloat (ResponseUtils.round_float (net_debt l) 2));
    ("effective_net_debt", VFloat (ResponseUtils.round_float (effective_net_debt l) 2));
    ("intrinsic_equity", VFloat (ResponseUtils.round_float (intrinsic_equity l) 2));
    ("intrinsic_price", VFloat (ResponseUtils.round_float (intrinsic_price l) 2));
    ("market_price", VFloat (ResponseUtils.round_float market_price 2));
    ("margin_of_safety",
       match margin_of_safety l with Some m => VFloat (ResponseUtils.round_float m 4) | None => VNone end);
    ("required_margin", VFloat (ResponseUtils.round_float (required_margin_used l) 4));
    ("valuation_anchor", VDict
       [ ("multiple_used", VFloat (ResponseUtils.round_float (multiple_used l) 4));
         ("required_margin_used", VFloat (ResponseUtils.round_float (required_margin_used l) 4));
         ("policy", VStr "NET_DEBT_ADJUSTED") ]);
    ("valuation_band", VStr (valuation_band l));
    ("pass", VBool (passes l));
    ("passes", VBool (passes l));
    ("one_liner", VStr (one_liner l));
    ("owner_earnings_source", VStr (owner_earnings_source l));
    ("units", VDict units);
    ("display", VDict
       [ ("owner_earnings", Py.of_str (ResponseUtils.format_compact_number (Some (owner_earnings l))));
         ("net_debt", Py.of_str (ResponseUtils.format_compact_number (Some (net_debt l))));
         ("intrinsic_equity", Py.of_str (ResponseUtils.format_compact_number (Some (intrinsic_equity l))));
         ("intrinsic_price", VStr (format_float ".2f" (ResponseUtils.round_float (intrinsic_price l) 2)));
         ("market_price", VStr (format_float ".2f" (ResponseUtils.round_float market_price 2)));
         ("margin_of_safety", Py.of_str (_display_margin_of_safety (margin_of_safety l)));
         ("required_margin", Py.of_str
            (ResponseUtils.format_decimal_with_percent_label (Some (required_margin_used l)) 4)) ]) ].

Definition try_block (market_price net_income free_cashflow total_debt cash
    shares_outstanding : option Q) : Traced dict :=
  l <~ compute_locals market_price net_income free_cashflow total_debt cash shares_outstanding ;;
  mp <~ lift (PyRt.float_opt market_price) ;;
  let data := build_data mp l in
  let supervisor := _run_valuation_supervisor data in
  let data := Py.set data "supervisor" (VDict supervisor) in
  tret (ResponseUtils.ok_response GATE_NAME data inputs_used (gate_confidence l) (one_liner l)
          (if orb (String.eqb (valuation_band l) "IMPAIRED")
                  (String.eqb (valuation_band l) "EXPENSIVE")
           then Some "VALUATION" else None)
          None).

(** [calculate_valuation] with the divisors of the divisions it executed. *)
Definition calculate_valuation_traced (market_price net_income free_cashflow total_debt cash
    shares_outstanding : option Q) : dict * list Q :=
  let required_inputs : dict :=
    [ ("market_price", Py.of_float market_price);
      ("net_income", Py.of_float net_income);
      ("total_debt", Py.of_float total_debt);
      ("cash", Py.of_float cash);
      ("shares_outstanding", Py.of_float shares_outstanding) ] in
  let missing := ResponseUtils.missing_required_fields required_inputs in
  match missing with
  | _ :: _ =>
      (ResponseUtils.error_response GATE_NAME "VALUATION_MISSING_INPUTS"
         ("Missing required inputs: " ++ Py.join ", " missing)
         inputs_used (Some missing) (Some "DATA_AVAILABILITY"), [])
  | [] =>
      if match shares_outstanding with Some so => Py.le so 0 | None => false end then
        (ResponseUtils.error_response GATE_NAME "VALUATION_INVALID_SHARES"
           ("shares_outstanding must be > 0, got " ++ PyRt.str (Py.of_float shares_outstanding))
           inputs_used None (Some "DATA_AVAILABILITY"), [])
      else
        ttry_except
          (try_block market_price net_income free_cashflow total_debt cash shares_outstanding)
          (fun error =>
             ResponseUtils.error_response GATE_NAME "VALUATION_INTERNAL_ERROR"
               ("Valuation calculation failed: " ++ exn_message error)
               inputs_used None (Some "DATA_AVAILABILITY"))
  end.

Definition calculate_valuation (market_price net_income free_cashflow total_debt cash
    shares_outstanding : option Q) : dict :=
  fst (calculate_valuation_traced market_price net_income free_cashflow total_debt cash
         shares_outstanding).

End WithRuntime.
End Gate2.

(** ** gates/gate5_position_sizing.py *)

Module Gate5.
Section WithRuntime.
Context {R : Runtime}.
Open Scope exc_scope.

Definition GATE_NAME : string := "Gate 5 – Position Sizing".
Definition VALID_CREDIT_STRESS : list string := [ "LOW"; "MEDIUM"; "HIGH" ].

Definition _volatility_factor (volatility : Q) : Q :=
  if Py.le volatility 0.20 then 1.00
  else if Py.le volatility 0.35 then 0.85
  else if Py.le volatility 0.50 then 0.70
  else 0.55.

Definition _drawdown_factor (max_drawdown : Q) : Q :=
  if Py.le max_drawdown 0.15 then 1.00
  else if Py.le max_drawdown 0.30 then 0.85
  else if Py.le max_drawdown 0.45 then 0.70
  else 0.55.

Definition _correlation_factor (correlation_index : Q) : Q :=
  if Py.le correlation_index 0.30 then 1.00
  else if Py.le correlation_index 0.60 then 0.85
  else if Py.le correlation_index 0.80 then 0.70
  else 0.55.

Definition _macro_factor (interest_rate : Q) (credit_stress : string) : Exc Q :=
  let rate_factor : Q :=
    (if Py.le interest_rate 0.03 then 1.00
     else if Py.le interest_rate 0.05 then 0.90
     else if Py.le interest_rate 0.07 then 0.80
     else 0.70)%Q in
  credit_factor <- Py.lookup credit_stress
                     [ ("LOW", 1.00%Q); ("MEDIUM", 0.85%Q); ("HIGH", 0.70%Q) ] ;;
  ret (Py.min rate_factor credit_factor).

(** The [for key in precedence] loop of [_binding_constraint]. *)
Fixpoint first_at_minimum (factors : list (string * Q)) (min_factor : Q)
    (precedence : list string) : Exc string :=
  match precedence with
  | [] => ret "MACRO"
  | key :: rest =>
      v <- Py.lookup key factors ;;
      if Qeq_bool v min_factor then ret key else first_at_minimum factors min_factor rest
  end.

Definition _binding_constraint (factors : list (string * Q)) : Exc string :=
  min_factor <- Py.min_of (map snd factors) ;;
  let precedence := [ "VOLATILITY"; "DRAWDOWN"; "CORRELATION"; "MACRO" ] in
  first_at_minimum factors min_factor precedence.

Definition _mechanical_explanation (binding_constraint : string) : Exc string :=
  Py.lookup binding_constraint
    [ ("VOLATILITY", "Volatility band set the lowest sizing factor, which bound maximum position size.");
      ("DRAWDOWN", "Drawdown band set the lowest sizing factor, which bound maximum position size.");
      ("CORRELATION", "Correlation band set the lowest sizing factor, which bound maximum position size.");
      ("MACRO", "Macro band from interest_rate and credit_stress set the lowest sizing factor, which bound maximum position size.") ].

Definition _run_sizing_agent := sizing_agent.

Definition inputs_used : list string :=
  [ "volatility"; "max_drawdown"; "interest_rate"; "credit_stress"; "correlation_index" ].

Definition skipped_data (reason : string) : dict :=
  [ ("status", VStr "SKIPPED");
    ("maximum_position_size", VNone);
    ("confidence", VInt 0);
    ("reason", VStr reason) ].

(** [position_size = base_size; for factor in factors.values(): position_size *= factor] *)
Definition scale (base_size : Q) (factors : list (string * Q)) : Q :=
  fold_left Qmult (map snd factors) base_size.

Definition build_data (position_size : Q) (binding_constraint explanation : string)
    (volatility max_drawdown interest_rate : Q) (normalized_credit_stress : string)
    (correlation_index : Q) (factors : list (string * Q)) : dict :=
  let rf := fun x => VFloat (ResponseUtils.round_float x 6) in
  let pct := fun x => Py.of_str (ResponseUtils.format_decimal_with_percent_label (Some x) 4) in
  [ ("maximum_position_size", VFloat (ResponseUtils.round_float position_size 1));
    ("binding_constraint", VStr binding_constraint);
    ("explanation", VStr explanation);
    ("volatility", rf volatility);
    ("max_drawdown", rf max_drawdown);
    ("interest_rate", rf interest_rate);
    ("credit_stress", VStr normalized_credit_stress);
    ("correlation_index", rf correlation_index);
    ("factors", VDict (Py.float_dict factors));
    ("units", VDict
       [ ("maximum_position_size", VStr "percent_of_nav");
         ("volatility", VStr "annualized_decimal");
         ("max_drawdown", VStr "decimal_peak_to_trough");
         ("interest_rate", VStr "decimal");
         ("correlation_index", VStr "absolute_correlation_decimal") ]);
    ("display", VDict
       [ ("maximum_position_size",
            VStr (format_float ".1f" (ResponseUtils.round_float position_size 1) ++ "%"));
         ("volatility", pct volatility);
         ("max_drawdown", pct max_drawdown);
         ("interest_rate", pct interest_rate);
         ("correlation_index",
            VStr (format_float "" (ResponseUtils.round_float correlation_index 4))) ]);
    ("macro_components", VDict
       [ ("interest_rate", rf interest_rate);
         ("credit_stress", VStr normalized_credit_stress) ]);
    ("idiosyncratic_components", VDict
       [ ("volatility", rf volatility);
         ("max_drawdown", rf max_drawdown);
         ("correlation_index", rf correlation_index) ]);
    ("systematic_risk_components", VDict
       [ ("interest_rate", rf interest_rate);
         ("credit_stress", VStr normalized_credit_stress);
         ("correlation_index", rf correlation_index) ]) ].

Definition try_block (volatility max_drawdown interest_rate : option Q)
    (credit_stress : option string) (correlation_index : option Q) : Exc dict :=
  let base_size : Q := 10.0%Q in
  let normalized_credit_stress := Py.upper (PyRt.str (Py.of_str credit_stress)) in
  if negb (Py.mem normalized_credit_stress VALID_CREDIT_STRESS) then
    let reason := "Position sizing skipped — invalid credit_stress: "
                  ++ PyRt.str (Py.of_str credit_stress) in
    ret (ResponseUtils.skipped_response GATE_NAME (skipped_data reason) inputs_used reason
           None (Some "DATA_AVAILABILITY"))
  else
    ir <- PyRt.float_opt interest_rate ;;
    if Py.gt ir 1.0 then
      let reason :=
        "Position sizing skipped — interest_rate must be decimal (e.g., 0.0364 for 3.64%)." in
      ret (ResponseUtils.skipped_response GATE_NAME (skipped_data reason) inputs_used reason
             None (Some "DATA_AVAILABILITY"))
    else
      vol <- PyRt.float_opt volatility ;;
      dd <- PyRt.float_opt max_drawdown ;;
      corr <- PyRt.float_opt correlation_index ;;
      macro <- _macro_factor ir normalized_credit_stress ;;
      let factors :=
        [ ("VOLATILITY", _volatility_factor vol);
          ("DRAWDOWN", _drawdown_factor dd);
          ("CORRELATION", _correlation_factor corr);
          ("MACRO", macro) ] in
      let position_size := scale base_size factors in
      let position_size := Py.max 1.0 (Py.min position_size 10.0) in
      binding_constraint <- _binding_constraint factors ;;
      let agent_output :=
        _run_sizing_agent position_size binding_constraint factors vol dd ir
          normalized_credit_stress corr in
      let gate_confidence := 75 in
      let one_liner :=
        format_float ".1f" (ResponseUtils.round_float position_size 1)
        ++ "% NAV — bound by " ++ binding_constraint in
      explanation <- _mechanical_explanation binding_constraint ;;
      let data := build_data position_size binding_constraint explanation vol dd ir
                    normalized_credit_stress corr factors in
      let data :=
        match agent_output with
        | Some overlay =>
            if Py.truthy (VDict overlay) then Py.set data "agent_overlay" (VDict overlay) else data
        | None => data
        end in
      ret (ResponseUtils.ok_response GATE_NAME data inputs_used gate_confidence one_liner
             None None).

Definition calculate_position_size (volatility max_drawdown interest_rate : option Q)
    (credit_stress : option string) (correlation_index : option Q)
    (upstream_reject : bool) : dict :=
  if upstream_reject then
    ResponseUtils.skipped_response GATE_NAME
      (skipped_data "Valuation gate failed — position sizing not applicable.")
      inputs_used "Valuation gate failed — position sizing not applicable."
      None (Some "NOT_APPLICABLE")
  else
    let required_inputs : dict :=
      [ ("volatility", Py.of_float volatility);
        ("max_drawdown", Py.of_float max_drawdown);
        ("interest_rate", Py.of_float interest_rate);
        ("credit_stress", Py.of_str credit_stress);
        ("correlation_index", Py.of_float correlation_index) ] in
    let missing := ResponseUtils.missing_required_fields required_inputs in
    match missing with
    | _ :: _ =>
        let reason := "Position sizing skipped — missing required inputs: "
                      ++ Py.join ", " missing ++ "." in
        ResponseUtils.skipped_response GATE_NAME (skipped_data reason) inputs_used reason
          (Some missing) (Some "DATA_AVAILABILITY")
    | [] =>
        try_except
          (try_block volatility max_drawdown interest_rate credit_stress correlation_index)
          (fun error =>
             let reason := "Position sizing skipped due to internal error: "
                           ++ exn_message error in
             ResponseUtils.skipped_response GATE_NAME (skipped_data reason) inputs_used reason
               None (Some "NOT_APPLICABLE"))
    end.

End WithRuntime.
End Gate5.

(** ** gates/gate6_final_verdict.py *)

Module Gate6.
Section WithRuntime.
Context {R : Runtime}.
Open Scope exc_scope.

Definition GATE_NAME : string := "Gate 6 – Final Verdict".
Definition _NON_BLOCKING_CLASSIFICATIONS : list string :=
  [ "NO_SIGNAL"; "NO_DATA"; "NO_RELEVANT_DATA_FOUND" ].

(** Returns [(data, diagnostics, status)]; [diagnostics] is whatever the
    payload holds under that key. *)
Definition _extract_gate_parts (payload : dict) : dict * pyval * string :=
  match Py.get payload "data" with
  | VDict data =>
      (data, Py.get_or payload "diagnostics" (VDict []),
       PyRt.str (Py.get_or payload "status" (VStr "")))
  | _ => (payload, VDict [], "OK")
  end.

Definition _deterministic_confidence (margin_of_safety : option Q)
    (impairment_risk market_structure : string) (key_data_missing : bool) : Z :=
  let confidence := 50 in
  let confidence :=
    match margin_of_safety with
    | Some m => if Py.lt m (-1.0) then confidence + 20 else confidence
    | None => confidence
    end in
  let confidence := if String.eqb impairment_risk "LOW" then confidence + 10 else confidence in
  let confidence := if String.eqb market_structure "HEADWIND" then confidence - 10 else confidence in
  let confidence := if key_data_missing then confidence - 10 else confidence in
  Z.max 0 (Z.min 100 confidence).

Definition _build_executive_summary (verdict : string) (business_summary : pyval)
    (valuation_pass : bool) (valuation_band : string) (margin_of_safety : option Q)
    (impairment_risk impairment_reason market_classification : string) : Exc string :=
  let business_line :=
    if Py.truthy business_summary
    then "Business context indicates " ++ PyRt.str business_summary ++ "."
    else "Business context is limited in this run, so durability assessment is constrained." in
  let valuation_line :=
    if negb valuation_pass then
      if String.eqb valuation_band "IMPAIRED" then
        "Valuation fails discipline because intrinsic value is non-positive under the deterministic framework."
      else if match margin_of_safety with Some m => Py.lt m (-1.0) | None => false end then
        "Valuation fails discipline with a deeply negative margin of safety versus the required threshold."
      else
        "Valuation fails discipline because margin of safety is below the required threshold."
    else
      "Valuation passes the required margin-of-safety discipline under the deterministic framework." in
  let impairment_line :=
    if String.eqb impairment_risk "UNDETERMINED" then
      "Impairment risk is UNDETERMINED due to missing financing disclosures; this uncertainty prevents an INVEST outcome."
    else
      "Impairment context is classified as " ++ impairment_risk
      ++ ", based on reported balance-sheet and refinancing inputs." in
  let impairment_line :=
    if andb (negb (String.eqb impairment_reason ""))
            (Py.contains impairment_reason "Interest expense not explicitly reported")
    then "Impairment context is UNDETERMINED because interest expense is not explicitly reported in SEC filings for this period."
    else impairment_line in
  let market_line :=
    if Py.mem market_classification _NON_BLOCKING_CLASSIFICATIONS then
      "Market-structure signals are not reliable for this period and do not alter the core valuation decision."
    else
      "Market-structure context is " ++ market_classification
      ++ " and is treated as a non-veto timing signal." in
  decision_line <- Py.lookup verdict
    [ ("INVEST", "Decision: INVEST, as valuation discipline passes and impairment risk remains acceptable.");
      ("WATCH", "Decision: WATCH, pending clearer risk confirmation under current data constraints.");
      ("REJECT", "Decision: REJECT on valuation and risk discipline despite any underlying business strengths.") ] ;;
  ret (Py.join " " [ business_line; valuation_line; impairment_line; market_line; decision_line ]).

Definition inputs_used : list string :=
  [ "gate2_output.pass"; "gate2_output.margin_of_safety"; "gate3_output.classification";
    "gate4_output.risk_level"; "gate5_output.maximum_position_size" ].

(** [any(bool(diag.get("missing_inputs", [])) for diag in [...])]; the
    generator stops at the first true element. *)
Fixpoint any_missing (diags : list pyval) : Exc bool :=
  match diags with
  | [] => ret false
  | diag :: rest =>
      m <- Py.attr_get diag "missing_inputs" (VList []) ;;
      if Py.truthy m then ret true else any_missing rest
  end.

Definition try_block (gate2_data gate3_data gate4_data gate5_data : dict)
    (gate2_diag gate3_diag gate4_diag gate5_diag : pyval) (gate5_status : string)
    (gate1_output : pyval) : Exc dict :=
  let valuation_pass :=
    Py.truthy (Py.or_ (Py.get gate2_data "pass") (Py.get gate2_data "passes")) in
  let valuation_band := Py.upper (PyRt.str (Py.get_or gate2_data "valuation_band" (VStr "UNKNOWN"))) in
  let margin_of_safety := Py.get gate2_data "margin_of_safety" in
  margin_of_safety <-
    (if Py.is_none margin_of_safety then ret None
     else m <- PyRt.float margin_of_safety ;; ret (Some m)) ;;
  let market_classification :=
    Py.upper (PyRt.str (Py.get_or gate3_data "classification" (VStr "NO_RELEVANT_DATA_FOUND"))) in
  let impairment_risk :=
    Py.upper (PyRt.str (Py.get_or gate4_data "risk_level" (VStr "UNDETERMINED"))) in
  let impairment_reason :=
    PyRt.str (Py.get_or gate4_data "reason" (Py.get_or gate4_data "reasoning" (VStr ""))) in
  let gate5_skipped :=
    orb (String.eqb gate5_status "SKIPPED")
        (String.eqb (Py.upper (PyRt.str (Py.get_or gate5_data "status" (VStr "")))) "SKIPPED") in
  let max_position_size := Py.get gate5_data "maximum_position_size" in
  let '(verdict, setup_label) :=
    if negb valuation_pass then ("REJECT", "Valuation discipline breached")
    else if String.eqb impairment_risk "HIGH" then ("REJECT", "Impairment risk elevated")
    else if String.eqb impairment_risk "UNDETERMINED" then ("WATCH", "Impairment unresolved")
    else if String.eqb impairment_risk "LOW" then ("INVEST", "Risk acceptable")
    else ("WATCH", "Risk moderate") in
  key_data_missing <- any_missing [ gate2_diag; gate3_diag; gate4_diag; gate5_diag ] ;;
  let confidence :=
    _deterministic_confidence margin_of_safety impairment_risk market_classification
      key_data_missing in
  business_summary <-
    (if Py.truthy gate1_output then Py.attr_get gate1_output "business_summary" VNone
     else ret VNone) ;;
  business_complexity <-
    (if Py.truthy gate1_output then Py.attr_get gate1_output "business_complexity" VNone
     else ret VNone) ;;
  summary <- _build_executive_summary verdict business_summary valuation_pass valuation_band
               margin_of_safety impairment_risk impairment_reason market_classification ;;
  gate5_line <-
    (if gate5_skipped then ret "SKIPPED — Valuation gate failed — position sizing not applicable."
     else if Py.is_int_or_float max_position_size then
       m <- PyRt.float max_position_size ;;
       ret (format_float "" (ResponseUtils.round_float m 1) ++ "% NAV")
     else ret "N/A") ;;
  investment_stance <- Py.lookup verdict
    [ ("INVEST", "Valuation discipline met with acceptable impairment risk");
      ("WATCH", "Valuation/risk signals are incomplete or mixed");
      ("REJECT", "Valuation or impairment discipline not met") ] ;;
  let result : dict :=
    [ ("verdict", VStr verdict);
      ("confidence", VInt confidence);
      ("summary", VStr summary);
      ("key_drivers", Py.str_list [ "Valuation"; "Impairment risk"; "Market structure" ]);
      ("confidence_score", VFloat (ResponseUtils.round_float (inject_Z confidence / 100.0) 2));
      ("investment_stance", VStr investment_stance);
      ("setup_label", VStr setup_label);
      ("risk_notes", VStr (Py.join " | "
         [ "Valuation band: " ++ valuation_band;
           "Impairment risk: " ++ impairment_risk;
           "Market structure: " ++ market_classification ]));
      ("margin_of_safety",
         match margin_of_safety with
         | Some m => VFloat (ResponseUtils.round_float m 4)
         | None => VNone
         end);
      ("valuation_band", VStr valuation_band);
      ("market_classification", VStr market_classification);
      ("impairment_risk", VStr impairment_risk);
      ("gate_summary", VDict
         [ ("gate2_valuation", VStr (PyRt.str (Py.get_or gate2_data "one_liner" (VStr valuation_band))));
           ("gate3_market_structure",
              VStr (PyRt.str (Py.get_or gate3_data "classification" (VStr "NO_RELEVANT_DATA_FOUND"))));
           ("gate4_impairment",
              VStr (PyRt.str (Py.get_or gate4_data "risk_level" (VStr "UNDETERMINED"))));
           ("gate5_position_sizing", VStr gate5_line) ]);
      ("business_summary", business_summary);
      ("business_complexity", business_complexity);
      ("decision_summary", VStr summary) ] in
  result <-
    (if andb (String.eqb verdict "INVEST")
          (andb (negb gate5_skipped) (Py.is_int_or_float max_position_size)) then
       m <- PyRt.float max_position_size ;;
       ret (Py.set result "max_position_size" (VFloat (ResponseUtils.round_float m 1)))
     else ret result) ;;
  ret (ResponseUtils.ok_response GATE_NAME result inputs_used confidence
         (verdict ++ " — " ++ setup_label) None None).

Definition aggregate_verdict (gate2_output gate3_output gate4_output gate5_output : dict)
    (gate1_output : pyval) : dict :=
  let '(gate2_data, gate2_diag, _) := _extract_gate_parts gate2_output in
  let '(gate3_data, gate3_diag, _) := _extract_gate_parts gate3_output in
  let '(gate4_data, gate4_diag, _) := _extract_gate_parts gate4_output in
  let '(gate5_data, gate5_diag, gate5_status) := _extract_gate_parts gate5_output in
  let required_fields : dict :=
    [ ("gate3_output.classification", Py.get gate3_data "classification");
      ("gate4_output.risk_level", Py.get gate4_data "risk_level") ] in
  let required_fields :=
    if andb (Py.is_none (Py.get gate2_data "pass")) (Py.is_none (Py.get gate2_data "passes"))
    then Py.set required_fields "gate2_output.pass" VNone
    else required_fields in
  let missing := ResponseUtils.missing_required_fields required_fields in
  match missing with
  | _ :: _ =>
      ResponseUtils.error_response GATE_NAME "FINAL_VERDICT_MISSING_INPUTS"
        ("Missing required inputs: " ++ Py.join ", " missing)
        inputs_used (Some missing) (Some "DATA_AVAILABILITY")
  | [] =>
      try_except
        (try_block gate2_data gate3_data gate4_data gate5_data
           gate2_diag gate3_diag gate4_diag gate5_diag gate5_status gate1_output)
        (fun error =>
           ResponseUtils.error_response GATE_NAME "FINAL_VERDICT_INTERNAL_ERROR"
             ("Final verdict aggregation failed: " ++ exn_message error)
             inputs_used None (Some "DATA_AVAILABILITY"))
  end.

End WithRuntime.
End Gate6.

(** ** orchestrator.py *)

(** The collaborators of the orchestrator whose bodies are outside the
    deterministic core: identity resolution, the three data fetchers and the
    LLM-backed gates 1, 3 and 4.  Each is given by the envelope it returns
    for its arguments (in the order of the Python signature); the two calls
    made inside the non-blocking [try] may raise. *)
Class Collaborators := {
  resolve_identity : string -> dict;
  fetch_sec_data : pyval -> dict;
  fetch_sec_business_context : pyval -> Exc dict;
  analyze_business_context : list pyval -> Exc dict;
  fetch_polygon_data : pyval -> dict;
  fetch_fred_data : dict;
  analyze_market_structure : list pyval -> dict;
  assess_impairment_risk : list pyval -> dict
}.

Module Orchestrator.
Section WithRuntime.
Context {R : Runtime} {C : Collaborators}.
Open Scope exc_scope.

Definition _is_fatal (result : dict) : bool := Py.eq_str (Py.get result "status") "ERROR".

Definition _is_partial (result : dict) : bool := Py.eq_str (Py.get result "status") "PARTIAL".

Definition _gate_confidence (result : dict) : Exc Z :=
  PyRt.int (Py.get_or result "confidence" (VInt 0)).

Definition _should_suppress_sizing (gate2_result gate4_result : dict) : Exc bool :=
  let g2_data := Py.get_or gate2_result "data" (VDict []) in
  p <- Py.attr_get g2_data "pass" VNone ;;
  valuation_fail <-
    (if Py.truthy p then ret false
     else ps <- Py.attr_get g2_data "passes" VNone ;; ret (negb (Py.truthy ps))) ;;
  ret valuation_fail.

(** An argument annotated [float | None] resp. [str | None] at the boundary
    of a typed gate; a value of another type is a type error there. *)
Definition as_float (v : pyval) : Exc (option Q) :=
  match v with
  | VNone => ret None
  | VBool b => ret (Some (if b then 1%Q else 0%Q))
  | VInt z => ret (Some (inject_Z z))
  | VFloat q => ret (Some q)
  | _ => raise TypeError "expected float | None"
  end.

Definition as_str (v : pyval) : Exc (option string) :=
  match v with
  | VNone => ret None
  | VStr s => ret (Some s)
  | _ => raise TypeError "expected str | None"
  end.

(** [{k: _gate_confidence(v) for k, v in outputs.items()
      if isinstance(v, dict) and "confidence" in v}] *)
Fixpoint gate_confidences (outputs : dict) : Exc dict :=
  match outputs with
  | [] => ret []
  | (k, v) :: rest =>
      match v with
      | VDict d =>
          if Py.contains_key d "confidence" then
            c <- _gate_confidence d ;;
            cs <- gate_confidences rest ;;
            ret ((k, VInt c) :: cs)
          else gate_confidences rest
      | _ => gate_confidences rest
      end
  end.

(** A dict display [{..., **more}]: later keys overwrite earlier ones in place. *)
Definition spread (head more : dict) : dict :=
  fold_left (fun acc kv => Py.set acc (fst kv) (snd kv)) more head.

Definition _pipeline_error (failed_stage : string) (failed_result outputs : dict)
    (gate_results : list dict) : Exc dict :=
  pipeline_confidence <-
    (match gate_results with
     | [] => ret 0
     | _ => ResponseUtils.compute_pipeline_confidence gate_results
     end) ;;
  confs <- gate_confidences outputs ;;
  let tail : dict :=
    [ ("pipeline", VDict
         [ ("confidence", VInt pipeline_confidence);
           ("gate_confidences", VDict confs);
           ("notes", Py.str_list [ "Pipeline halted at " ++ failed_stage ]) ]);
      ("metadata", VDict
         [ ("timestamp", VStr ResponseUtils.utc_timestamp);
           ("inputs_used", Py.str_list [ "company_input" ]) ]) ] in
  ret (spread
         [ ("status", VStr "ERROR");
           ("failed_stage", VStr failed_stage);
           ("error", Py.get failed_result "error") ]
         (outputs ++ tail)%list).

(** What the non-blocking gate 1 block leaves behind. *)
Record gate1_state := {
  g1_outputs : dict;
  g1_gate_results : list dict;
  g1_notes : list string;
  g1_data : pyval
}.

Definition status_in (v : pyval) (l : list string) : bool := existsb (Py.eq_str v) l.

(** The [try ... except Exception as gate1_err] block: what was assigned
    before an exception stays assigned. *)
Definition gate1_block (cik : pyval) (outputs : dict) (gate_results : list dict)
    (pipeline_notes : list string) : gate1_state :=
  let failed (o : dict) (g : list dict) (e : exn) :=
    let note := "Gate 1 failed (non-blocking): " ++ exn_message e in
    {| g1_outputs := o; g1_gate_results := g;
       g1_notes := (pipeline_notes ++ [ note ])%list;
       g1_data := VNone |} in
  match fetch_sec_business_context cik with
  | inl e => failed outputs gate_results e
  | inr biz_ctx_result =>
      let outputs := Py.set outputs "sec_business_context" (VDict biz_ctx_result) in
      match Py.item biz_ctx_result "status" with
      | inl e => failed outputs gate_results e
      | inr status =>
          if status_in status [ "OK"; "PARTIAL" ] then
            match
              (biz <- Py.item biz_ctx_result "data" ;;
               company_name <- Py.attr_get biz "company_name" (VStr "") ;;
               sic_description <- Py.attr_get biz "sic_description" (VStr "") ;;
               business_description <- Py.attr_get biz "business_description" VNone ;;
               risk_factors <- Py.attr_get biz "risk_factors" VNone ;;
               entity_type <- Py.attr_get biz "entity_type" VNone ;;
               sic <- Py.attr_get biz "sic" VNone ;;
               analyze_business_context
                 [ company_name; sic_description; business_description; risk_factors;
                   entity_type; sic ])
            with
            | inl e => failed outputs gate_results e
            | inr gate1_result =>
                let outputs := Py.set outputs "gate1" (VDict gate1_result) in
                let gate_results := (gate_results ++ [ gate1_result ])%list in
                match Py.item gate1_result "status" with
                | inl e => failed outputs gate_results e
                | inr status1 =>
                    if status_in status1 [ "OK"; "PARTIAL" ] then
                      match Py.item gate1_result "data" with
                      | inl e => failed outputs gate_results e
                      | inr d =>
                          {| g1_outputs := outputs; g1_gate_results := gate_results;
                             g1_notes := pipeline_notes; g1_data := d |}
                      end
                    else
                      {| g1_outputs := outputs; g1_gate_results := gate_results;
                         g1_notes := pipeline_notes; g1_data := VNone |}
                end
            end
          else
            {| g1_outputs := outputs; g1_gate_results := gate_results;
               g1_notes := (pipeline_notes
                            ++ [ "Gate 1 skipped — SEC business context unavailable" ])%list;
               g1_data := VNone |}
      end
  end.

(** The [for key in [...]] loop collecting one-liners. *)
Fixpoint gate_one_liners (outputs : dict) (keys : list string) (acc : dict) : Exc dict :=
  match keys with
  | [] => ret acc
  | key :: rest =>
      let result := Py.get outputs key in
      if Py.truthy result then
        ol <- Py.attr_get result "one_liner" VNone ;;
        if Py.truthy ol then
          v <- Py.subscript result "one_liner" ;;
          gate_one_liners outputs rest (Py.set acc key v)
        else gate_one_liners outputs rest acc
      else gate_one_liners outputs rest acc
  end.

Definition run_pipeline (company_input : string) : Exc dict :=
  let identity_result := resolve_identity company_input in
  let outputs : dict := [ ("identity", VDict identity_result) ] in
  let gate_results : list dict := [ identity_result ] in
  if _is_fatal identity_result then
    _pipeline_error "identity" identity_result outputs gate_results
  else
  identity_data <- Py.item identity_result "data" ;;
  ticker <- Py.subscript identity_data "ticker" ;;
  cik <- Py.subscript identity_data "cik" ;;
  let sec_result := fetch_sec_data cik in
  let outputs := Py.set outputs "sec" (VDict sec_result) in
  if _is_fatal sec_result then _pipeline_error "sec" sec_result outputs gate_results
  else
  let g1 := gate1_block cik outputs gate_results [] in
  let outputs := g1_outputs g1 in
  let gate_results := g1_gate_results g1 in
  let pipeline_notes := g1_notes g1 in
  let gate1_data := g1_data g1 in
  let polygon_result := fetch_polygon_data ticker in
  let outputs := Py.set outputs "polygon" (VDict polygon_result) in
  if _is_fatal polygon_result then
    _pipeline_error "polygon" polygon_result outputs gate_results
  else
  let fred_result := fetch_fred_data in
  let outputs := Py.set outputs "fred" (VDict fred_result) in
  if _is_fatal fred_result then _pipeline_error "fred" fred_result outputs gate_results
  else
  polygon_data <- Py.item polygon_result "data" ;;
  sec_data <- Py.item sec_result "data" ;;
  market_price <- Py.subscript polygon_data "market_price" ;;
  net_income <- Py.subscript sec_data "net_income" ;;
  free_cashflow <- Py.subscript sec_data "free_cashflow" ;;
  total_debt <- Py.subscript sec_data "total_debt" ;;
  cash <- Py.subscript sec_data "cash" ;;
  shares_outstanding <- Py.subscript sec_data "shares_outstanding" ;;
  mp <- as_float market_price ;;
  ni <- as_float net_income ;;
  fcf <- as_float free_cashflow ;;
  td <- as_float total_debt ;;
  ca <- as_float cash ;;
  so <- as_float shares_outstanding ;;
  let gate2_result := Gate2.calculate_valuation mp ni fcf td ca so in
  let outputs := Py.set outputs "gate2" (VDict gate2_result) in
  let gate_results := (gate_results ++ [ gate2_result ])%list in
  if _is_fatal gate2_result then _pipeline_error "gate2" gate2_result outputs gate_results
  else
  last_price <- Py.subscript polygon_data "last_price" ;;
  last_volume <- Py.subscript polygon_data "last_volume" ;;
  avg_volume <- Py.subscript polygon_data "avg_volume" ;;
  volume_spike <- Py.subscript polygon_data "volume_spike" ;;
  price_direction <- Py.subscript polygon_data "price_direction" ;;
  flow_signal <- Py.subscript polygon_data "flow_signal" ;;
  yes_price <- Py.attr_get polygon_data "yes_price" VNone ;;
  no_price <- Py.attr_get polygon_data "no_price" VNone ;;
  fred_data <- Py.item fred_result "data" ;;
  fred_macro_signal <- Py.subscript fred_data "macro_signal" ;;
  macro_signal <- Py.attr_get polygon_data "macro_signal" fred_macro_signal ;;
  let gate3_result :=
    analyze_market_structure
      [ last_price; last_volume; avg_volume; volume_spike; price_direction; flow_signal;
        yes_price; no_price; macro_signal ] in
  let outputs := Py.set outputs "gate3" (VDict gate3_result) in
  let gate_results := (gate_results ++ [ gate3_result ])%list in
  if _is_fatal gate3_result then _pipeline_error "gate3" gate3_result outputs gate_results
  else
  gate4_business_context <-
    (if Py.truthy gate1_data then Py.attr_get gate1_data "business_summary" (VStr "")
     else ret VNone) ;;
  gate2_data <- Py.item gate2_result "data" ;;
  g2_net_debt <- Py.attr_get gate2_data "net_debt" VNone ;;
  interest_expense <- Py.subscript sec_data "interest_expense" ;;
  interest_coverage <- Py.subscript sec_data "interest_coverage" ;;
  interest_rate <- Py.subscript fred_data "interest_rate" ;;
  credit_stress <- Py.subscript fred_data "credit_stress" ;;
  credit_stress_index <- Py.subscript fred_data "credit_stress_index" ;;
  let gate4_result :=
    assess_impairment_risk
      [ net_income; free_cashflow; cash; total_debt; g2_net_debt; interest_expense;
        interest_coverage; shares_outstanding; interest_rate; credit_stress;
        credit_stress_index; gate4_business_context ] in
  let outputs := Py.set outputs "gate4" (VDict gate4_result) in
  let gate_results := (gate_results ++ [ gate4_result ])%list in
  if _is_fatal gate4_result then _pipeline_error "gate4" gate4_result outputs gate_results
  else
  upstream_reject <- _should_suppress_sizing gate2_result gate4_result ;;
  let pipeline_notes :=
    if upstream_reject
    then (pipeline_notes ++ [ "Gate 5 sizing suppressed — upstream REJECT detected" ])%list
    else pipeline_notes in
  volatility <- Py.subscript polygon_data "volatility" ;;
  max_drawdown <- Py.subscript polygon_data "max_drawdown" ;;
  correlation_index <- Py.subscript polygon_data "correlation_index" ;;
  vol <- as_float volatility ;;
  dd <- as_float max_drawdown ;;
  ir <- as_float interest_rate ;;
  cs <- as_str credit_stress ;;
  corr <- as_float correlation_index ;;
  let gate5_result := Gate5.calculate_position_size vol dd ir cs corr upstream_reject in
  let outputs := Py.set outputs "gate5" (VDict gate5_result) in
  let gate_results := (gate_results ++ [ gate5_result ])%list in
  if _is_fatal gate5_result then _pipeline_error "gate5" gate5_result outputs gate_results
  else
  let final_result :=
    Gate6.aggregate_verdict gate2_result gate3_result gate4_result gate5_result gate1_data in
  let outputs := Py.set outputs "final" (VDict final_result) in
  let gate_results := (gate_results ++ [ final_result ])%list in
  if _is_fatal final_result then _pipeline_error "final" final_result outputs gate_results
  else
  pipeline_confidence <- ResponseUtils.compute_pipeline_confidence gate_results ;;
  verdict <- Py.attr_get (Py.get_or final_result "data" (VDict [])) "verdict" (VStr "UNKNOWN") ;;
  one_liners <- gate_one_liners outputs
                  [ "identity"; "gate1"; "gate2"; "gate3"; "gate4"; "gate5"; "final" ] [] ;;
  confs <- gate_confidences outputs ;;
  let tail : dict :=
    [ ("pipeline", VDict
         [ ("confidence", VInt pipeline_confidence);
           ("gate_confidences", VDict confs);
           ("gate_one_liners", VDict one_liners);
           ("notes", match pipeline_notes with
                     | [] => VNone
                     | _ => Py.str_list pipeline_notes
                     end) ]);
      ("metadata", VDict
         [ ("timestamp", VStr ResponseUtils.utc_timestamp);
           ("inputs_used", Py.str_list [ "company_input" ]);
           ("verdict", verdict) ]) ] in
  ret (spread [ ("status", VStr "OK") ] (outputs ++ tail)%list).

End WithRuntime.
End Orchestrator.

(** ** The names the LLM-backed gates put on their envelopes *)

Module Gate0.
Definition GATE_NAME : string := "Gate 0 – Identity".
End Gate0.

Module Gate1.
Definition GATE_NAME : string := "Gate 1 – Business Context".
End Gate1.

Module Gate3.
Definition GATE_NAME : string := "Gate 3 – Market Structure".
End Gate3.

Module Gate4.
Definition GATE_NAME : string := "Gate 4 – Impairment Risk".
End Gate4.


(** ** Observers used in the statements *)

Module Envelope.

Definition status (r : dict) : pyval := Py.get r "status".
Definition data (r : dict) : dict :=
  match Py.get r "data" with VDict d => d | _ => [] end.
Definition field (r : dict) (k : string) : pyval := Py.get (data r) k.
Definition confidence (r : dict) : pyval := Py.get r "confidence".
Definition error_code (r : dict) : pyval :=
  match Py.get r "error" with VDict e => Py.get e "code" | _ => VNone end.
Definition diagnostics (r : dict) : dict :=
  match Py.get r "diagnostics" with VDict d => d | _ => [] end.
Definition missing_inputs (r : dict) : pyval := Py.get (diagnostics r) "missing_inputs".
Definition missing_list (r : dict) : list pyval :=
  match missing_inputs r with VList l => l | _ => [] end.
Definition gate_name (r : dict) : pyval := Py.get r "gate".

(** An envelope of the gate called [name]: it carries that name, a data
    mapping and a diagnostics mapping. *)
Definition is_envelope_of (name : string) (r : dict) : Prop :=
  Py.get r "gate" = VStr name /\
  (exists d, Py.get r "data" = VDict d) /\
  (exists g, Py.get r "diagnostics" = VDict g).

(** [diagnostics.missing_inputs] of the envelope is non-empty. *)
Definition reports_missing (r : dict) : bool :=
  match Py.get_or r "diagnostics" (VDict []) with
  | VDict d => Py.truthy (Py.get_or d "missing_inputs" (VList []))
  | _ => false
  end.

End Envelope.

(** The factor named by [b] is a minimum of the four, and every factor that
    comes before it in VOLATILITY, DRAWDOWN, CORRELATION, MACRO is strictly
    larger. *)
Definition first_minimum (b : string) (fv fd fc fm : Q) : Prop :=
  (b = "VOLATILITY" /\ (fv <= fd)%Q /\ (fv <= fc)%Q /\ (fv <= fm)%Q) \/
  (b = "DRAWDOWN" /\ (fd < fv)%Q /\ (fd <= fc)%Q /\ (fd <= fm)%Q) \/
  (b = "CORRELATION" /\ (fc < fv)%Q /\ (fc < fd)%Q /\ (fc <= fm)%Q) \/
  (b = "MACRO" /\ (fm < fv)%Q /\ (fm < fd)%Q /\ (fm < fc)%Q).

(** ** A concrete runtime for the evaluated examples

    The defaults of the two configuration constants, no [GOOGLE_API_KEY]
    (so the supervisor of gate 2 returns its fixed fallback and the overlay
    of gate 5 returns [None]), and a plain decimal rendering of floats. *)

Module Concrete.

Fixpoint pad_left (n : nat) (s : string) : string :=
  match n with
  | O => s
  | S n' => if Nat.ltb (String.length s) n then pad_left n' ("0" ++ s) else s
  end.

(** [digits] decimals after the point, [plus] forces a sign. *)
Definition fixed (plus : bool) (digits : nat) (q : Q) : string :=
  let n := Py.round_half_even (q * Py.pow10 digits) in
  let p := 10 ^ Z.of_nat digits in
  let a := Z.abs n in
  (if n <? 0 then "-" else if plus then "+" else "")
  ++ Py.str_of_Z (a / p)
  ++ match digits with
     | O => ""
     | _ => "." ++ pad_left digits (Py.str_of_Z (a mod p))
     end.

(** The least number of decimals, from one up, that renders [q] exactly. *)
Fixpoint shortest (fuel digits : nat) (q : Q) : string :=
  match fuel with
  | O => fixed false digits q
  | S fuel' =>
      if Qeq_bool (Py.round q digits) q then fixed false digits q
      else shortest fuel' (S digits) q
  end.

Definition format (spec : string) (q : Q) : string :=
  if String.eqb spec ".0f" then fixed false 0 q
  else if String.eqb spec ".1f" then fixed false 1 q
  else if String.eqb spec ".2f" then fixed false 2 q
  else if String.eqb spec "+.1f" then fixed true 1 q
  else shortest 16 1 q.

#[export] Instance runtime : Runtime := {|
  env_required_margin := 0.30%Q;
  env_valuation_multiple := 10%Q;
  format_float := format;
  parse_float := fun _ => None;
  parse_int := fun _ => None;
  repr_container := fun _ => "<container>";
  valuation_supervisor := fun _ =>
    [ ("supervisor_commentary", VStr "Supervisor unavailable (no API key)");
      ("pathological_flags", VList []) ];
  sizing_agent := fun _ _ _ _ _ _ _ _ => None;
  clock := "2025-01-01T00:00:00+00:00"
|}.


(** The same with a [GOOGLE_API_KEY]: the advisory helpers answer. *)
Definition runtime_llm : Runtime := {|
  env_required_margin := 0.30%Q;
  env_valuation_multiple := 10%Q;
  format_float := format;
  parse_float := fun _ => None;
  parse_int := fun _ => None;
  repr_container := fun _ => "<container>";
  valuation_supervisor := fun _ =>
    [ ("supervisor_commentary", VStr "Intrinsic value exceeds market price.");
      ("pathological_flags", VList []) ];
  sizing_agent := fun _ _ _ _ _ _ _ _ =>
    Some [ ("narrative", VStr "Position size reflects the binding factor."); ("flag", VStr "NORMAL") ];
  clock := "2025-01-01T00:00:00+00:00"
|}.

(** *** One pipeline run: the worked valuation scenario for a company whose
    filings text is unavailable, so that gate 1 answers PARTIAL. *)

Definition identity_envelope : dict :=
  ResponseUtils.ok_response Gate0.GATE_NAME
    [ ("ticker", VStr "ACME"); ("cik", VStr "0000000001"); ("title", VStr "Acme Corp");
      ("match_type", VStr "EXACT"); ("confidence_score", VFloat 1.0) ]
    [ "company_input" ] 100 "Resolved ACME → ACME (CIK 0000000001) via EXACT match" None None.

Definition sec_envelope : dict :=
  ResponseUtils.ok_response "Data Fetcher – SEC"
    [ ("net_income", VFloat 100); ("free_cashflow", VFloat 80); ("cash", VFloat 70);
      ("total_debt", VFloat 50); ("shares_outstanding", VFloat 10);
      ("interest_expense", VFloat 5); ("interest_coverage", VFloat 20) ]
    [ "cik" ] 90 "SEC fundamentals fetched" None None.

Definition business_context_envelope : dict :=
  ResponseUtils.ok_response "Data Fetcher – SEC"
    [ ("company_name", VStr "Acme Corp"); ("sic_description", VStr "Industrial machinery");
      ("business_description", VNone); ("risk_factors", VNone);
      ("entity_type", VStr "operating"); ("sic", VStr "3560") ]
    [ "cik" ] 50 "SEC business context fetched" None None.

Definition gate1_envelope : dict :=
  ResponseUtils.partial_response Gate1.GATE_NAME
    [ ("business_summary", VStr "an industrial machinery manufacturer");
      ("key_risk_categories", VList []);
      ("geographic_exposure", VStr "DOMESTIC");
      ("business_complexity", VStr "LOW") ]
    [ "company_name"; "sic_description"; "business_description"; "risk_factors"; "entity_type" ]
    [ "business_description"; "risk_factors" ] 40
    "PARTIAL — Acme Corp: LOW complexity, DOMESTIC exposure, 0 risk categories (filings not available)"
    (Some "DATA_AVAILABILITY").

Definition polygon_envelope : dict :=
  ResponseUtils.ok_response "Data Fetcher – Polygon"
    [ ("market_price", VFloat 5); ("volatility", VFloat 0.25); ("max_drawdown", VFloat 0.20);
      ("correlation_index", VFloat 0.5); ("last_price", VFloat 5); ("last_volume", VInt 1000);
      ("avg_volume", VInt 900); ("volume_spike", VFloat 1.11); ("price_direction", VStr "UP");
      ("flow_signal", VStr "BUY"); ("macro_signal", VStr "NEUTRAL") ]
    [ "ticker" ] 90 "Polygon market data fetched" None None.

Definition fred_envelope : dict :=
  ResponseUtils.ok_response "Data Fetcher – FRED"
    [ ("interest_rate", VFloat 0.04); ("credit_stress", VStr "LOW");
      ("credit_stress_index", VFloat (-0.5)); ("macro_signal", VStr "NEUTRAL") ]
    [ "DFF"; "NFCI" ] 90 "FRED macro data fetched" None None.

(** No auxiliary price signal: gate 3 abstains. *)
Definition gate3_envelope : dict :=
  ResponseUtils.ok_response Gate3.GATE_NAME
    [ ("classification", VStr "NO_RELEVANT_DATA_FOUND"); ("confidence", VInt 0);
      ("analysis", VStr "No reliable market-structure signals available for this period.");
      ("setup_label", VStr "No relevant market structure data");
      ("reasoning", VStr "Signal channels are inactive or conflicting for this period.") ]
    [ "last_price"; "last_volume"; "avg_volume"; "volume_spike"; "price_direction";
      "flow_signal"; "yes_price"; "no_price"; "macro_signal" ]
    0 "NO_RELEVANT_DATA_FOUND — No reliable market-structure signals available for this period."
    None None.

Definition gate4_envelope : dict :=
  ResponseUtils.ok_response Gate4.GATE_NAME
    [ ("risk_level", VStr "LOW"); ("risk_driver", VStr "NONE"); ("credit_stress", VStr "LOW");
      ("credit_stress_index", VFloat (-0.5));
      ("reasoning", VStr "Cash exceeds debt, interest coverage is ample and credit stress is low.");
      ("reasoning_valid", VBool true);
      ("units", VDict [ ("interest_rate", VStr "decimal");
                        ("credit_stress_index", VStr "NFCI_raw_index") ]) ]
    [ "net_income"; "free_cashflow"; "cash"; "total_debt"; "net_debt"; "interest_expense";
      "interest_coverage"; "shares_outstanding"; "interest_rate"; "credit_stress";
      "credit_stress_index" ]
    80 "LOW impairment risk — driver: NONE" None None.

Definition collaborators : Collaborators := {|
  resolve_identity := fun _ => identity_envelope;
  fetch_sec_data := fun _ => sec_envelope;
  fetch_sec_business_context := fun _ => ret business_context_envelope;
  analyze_business_context := fun _ => ret gate1_envelope;
  fetch_polygon_data := fun _ => polygon_envelope;
  fetch_fred_data := fred_envelope;
  analyze_market_structure := fun _ => gate3_envelope;
  assess_impairment_risk := fun _ => gate4_envelope
|}.

(** The envelopes the deterministic gates produce in that run. *)
Definition gate2_envelope : dict :=
  Gate2.calculate_valuation (R := runtime_llm)
    (Some 5%Q) (Some 100%Q) (Some 80%Q) (Some 50%Q) (Some 70%Q) (Some 10%Q).

Definition gate5_envelope : dict :=
  Gate5.calculate_position_size (R := runtime_llm)
    (Some 0.25%Q) (Some 0.20%Q) (Some 0.04%Q) (Some "LOW") (Some 0.5%Q) false.

Definition final_envelope : dict :=
  Gate6.aggregate_verdict (R := runtime_llm) gate2_envelope gate3_envelope gate4_envelope
    gate5_envelope (Py.get gate1_envelope "data").

(** A gate-3 envelope with another classification. *)
Definition gate3_headwind : dict :=
  ResponseUtils.ok_response Gate3.GATE_NAME
    [ ("classification", VStr "HEADWIND"); ("confidence", VInt 75);
      ("analysis", VStr "volume_spike is elevated while price_direction is DOWN.");
      ("setup_label", VStr "Distribution");
      ("reasoning", VStr "volume_spike is elevated while price_direction is DOWN.") ]
    [ "last_price"; "last_volume"; "avg_volume"; "volume_spike"; "price_direction";
      "flow_signal"; "yes_price"; "no_price"; "macro_signal" ]
    75 "HEADWIND — Distribution" None None.

(** A valuation payload whose two pass fields disagree. *)
Definition gate2_pass_mismatch : dict :=
  ResponseUtils.ok_response Gate2.GATE_NAME
    [ ("margin_of_safety", VFloat 0.1); ("valuation_band", VStr "FAIR");
      ("pass", VBool false); ("passes", VBool true) ]
    [ "market_price" ] 85 "FAIL" None None.

(** The response of that run, and the two confidences in it. *)
Definition run : Exc dict :=
  Orchestrator.run_pipeline (R := runtime_llm) (C := collaborators) "ACME".

Definition pipeline_confidence_of (response : Exc dict) : option pyval :=
  match response with
  | inr r => match Py.get r "pipeline" with
             | VDict p => Some (Py.get p "confidence")
             | _ => None
             end
  | inl _ => None
  end.

Definition verdict_confidence_of (response : Exc dict) : option pyval :=
  match response with
  | inr r => match Py.get r "final" with
             | VDict f => Some (Envelope.field f "confidence")
             | _ => None
             end
  | inl _ => None
  end.

Definition output_of (response : Exc dict) (key : string) : pyval :=
  match response with
  | inr r => Py.get r key
  | inl _ => VNone
  end.

End Concrete.

(** ** The signals the verdict gate reads, as functions of its inputs *)

Module Signals.
Section WithRuntime.
Context {R : Runtime}.

Definition data_part (payload : dict) : dict := fst (fst (Gate6._extract_gate_parts payload)).
Definition diag_part (payload : dict) : pyval := snd (fst (Gate6._extract_gate_parts payload)).

Definition pass_field (gate2 : dict) : pyval := Py.get (data_part gate2) "pass".
Definition passes_field (gate2 : dict) : pyval := Py.get (data_part gate2) "passes".

(** [bool(gate2_data.get("pass") or gate2_data.get("passes"))] *)
Definition valuation_pass (gate2 : dict) : bool :=
  Py.truthy (Py.or_ (pass_field gate2) (passes_field gate2)).

(** [str(gate2_data.get("valuation_band", "UNKNOWN")).upper()] *)
Definition valuation_band (gate2 : dict) : string :=
  Py.upper (PyRt.str (Py.get_or (data_part gate2) "valuation_band" (VStr "UNKNOWN"))).

(** [str(gate4_data.get("risk_level", "UNDETERMINED")).upper()] *)
Definition impairment_risk (gate4 : dict) : string :=
  Py.upper (PyRt.str (Py.get_or (data_part gate4) "risk_level" (VStr "UNDETERMINED"))).

(** [str(gate3_data.get("classification", "NO_RELEVANT_DATA_FOUND")).upper()] *)
Definition market_classification (gate3 : dict) : string :=
  Py.upper (PyRt.str (Py.get_or (data_part gate3) "classification"
                        (VStr "NO_RELEVANT_DATA_FOUND"))).

(** The margin of safety as a number, when the payload holds one. *)
Definition margin_value (gate2 : dict) : option Q :=
  match Py.get (data_part gate2) "margin_of_safety" with
  | VBool b => Some (if b then 1%Q else 0%Q)
  | VInt z => Some (inject_Z z)
  | VFloat q => Some q
  | _ => None
  end.

(** A diagnostics mapping with a non-empty [missing_inputs]. *)
Definition reports_missing (diag : pyval) : bool :=
  match diag with
  | VDict d => Py.truthy (Py.get_or d "missing_inputs" (VList []))
  | _ => false
  end.

(** The three required signals are present. *)
Definition accepted (gate2 gate3 gate4 : dict) : Prop :=
  Py.get (data_part gate3) "classification" <> VNone /\
  Py.get (data_part gate4) "risk_level" <> VNone /\
  ~ (pass_field gate2 = VNone /\ passes_field gate2 = VNone).

(** The shape the envelope protocol gives the fields the gate converts:
    a margin of safety that is null or a number, diagnostics that are
    mappings, a business context that is null or a mapping. *)
Definition well_formed (gate2 gate3 gate4 gate5 : dict) (gate1 : pyval) : Prop :=
  match Py.get (data_part gate2) "margin_of_safety" with
  | VNone | VBool _ | VInt _ | VFloat _ => True
  | _ => False
  end /\
  Py.is_dict (diag_part gate2) = true /\
  Py.is_dict (diag_part gate3) = true /\
  Py.is_dict (diag_part gate4) = true /\
  Py.is_dict (diag_part gate5) = true /\
  (gate1 = VNone \/ Py.is_dict gate1 = true).

End WithRuntime.
End Signals.

(** The verdict and its label are those of the first rule that matches, in
    the order: valuation fails, impairment HIGH, impairment UNDETERMINED,
    impairment LOW, anything else. *)
Definition first_match (valuation_pass : bool) (impairment_risk verdict label : string) : Prop :=
  (valuation_pass = false /\ verdict = "REJECT" /\ label = "Valuation discipline breached") \/
  (valuation_pass = true /\ impairment_risk = "HIGH" /\
   verdict = "REJECT" /\ label = "Impairment risk elevated") \/
  (valuation_pass = true /\ impairment_risk = "UNDETERMINED" /\
   verdict = "WATCH" /\ label = "Impairment unresolved") \/
  (valuation_pass = true /\ impairment_risk = "LOW" /\
   verdict = "INVEST" /\ label = "Risk acceptable") \/
  (valuation_pass = true /\ impairment_risk <> "HIGH" /\ impairment_risk <> "UNDETERMINED" /\
   impairment_risk <> "LOW" /\ verdict = "WATCH" /\ label = "Risk moderate").

(** ** Rounding to the nearest, ties to even *)

(** [k] is a nearest integer to [q], and the even one when [q] lies half-way
    between two integers. *)
Definition nearest_even (q : Q) (k : Z) : Prop :=
  let n := Qnum q in let d := Zpos (Qden q) in
  2 * Z.abs (n - k * d) < d \/ (2 * Z.abs (n - k * d) = d /\ Z.even k = true).

(** ** Runtimes that differ in the advisory helpers only *)

(** The runtime [R] with other LLM-backed advisory helpers. *)
Definition with_advisors (R : Runtime) (supervisor : dict -> dict)
    (agent : Q -> string -> list (string * Q) -> Q -> Q -> Q -> string -> Q -> option dict)
    : Runtime :=
  {| env_required_margin := @env_required_margin R;
     env_valuation_multiple := @env_valuation_multiple R;
     format_float := @format_float R;
     parse_float := @parse_float R;
     parse_int := @parse_int R;
     repr_container := @repr_container R;
     valuation_supervisor := supervisor;
     sizing_agent := agent;
     clock := @clock R |}.

(** ** What the verdict gate reads from the sizing payload *)

Module SizingSignals.
Section WithRuntime.
Context {R : Runtime}.

(** [gate5_status == "SKIPPED" or str(gate5_data.get("status", "")).upper() == "SKIPPED"] *)
Definition skipped (gate5 : dict) : bool :=
  orb (String.eqb (snd (Gate6._extract_gate_parts gate5)) "SKIPPED")
      (String.eqb (Py.upper (PyRt.str (Py.get_or (Signals.data_part gate5) "status" (VStr ""))))
         "SKIPPED").

(** [gate5_data.get("maximum_position_size")] *)
Definition size (gate5 : dict) : pyval :=
  Py.get (Signals.data_part gate5) "maximum_position_size".

(** [gate_summary["gate5_position_sizing"]] of a verdict envelope. *)
Definition line (verdict_envelope : dict) : pyval :=
  match Envelope.field verdict_envelope "gate_summary" with
  | VDict summary => Py.get summary "gate5_position_sizing"
  | _ => VNone
  end.

End WithRuntime.
End SizingSignals.

(** ** Envelopes of the constructors, and a run that halts at once *)

(** An envelope built by one of the four constructors of [response_utils]. *)
Inductive constructed : dict -> Prop :=
| constructed_ok gate data inputs_used confidence one_liner binding_constraint missing_inputs :
    constructed (ResponseUtils.ok_response gate data inputs_used confidence one_liner
                   binding_constraint missing_inputs)
| constructed_partial gate data inputs_used missing_inputs confidence one_liner
    binding_constraint :
    constructed (ResponseUtils.partial_response gate data inputs_used missing_inputs
                   confidence one_liner binding_constraint)
| constructed_error gate code message inputs_used missing_inputs binding_constraint :
    constructed (ResponseUtils.error_response gate code message inputs_used missing_inputs
                   binding_constraint)
| constructed_skipped gate data inputs_used reason missing_inputs binding_constraint :
    constructed (ResponseUtils.skipped_response gate data inputs_used reason missing_inputs
                   binding_constraint).

Module Halted.

(** A run whose identity resolution finds no company. *)
Definition identity_envelope : dict :=
  ResponseUtils.error_response Gate0.GATE_NAME "IDENTITY_NOT_FOUND"
    "No company found matching 'ZZZZ'" [ "company_input" ] None (Some "DATA_AVAILABILITY").

Definition collaborators : Collaborators := {|
  resolve_identity := fun _ => identity_envelope;
  fetch_sec_data := fun _ => Concrete.sec_envelope;
  fetch_sec_business_context := fun _ => ret Concrete.business_context_envelope;
  analyze_business_context := fun _ => ret Concrete.gate1_envelope;
  fetch_polygon_data := fun _ => Concrete.polygon_envelope;
  fetch_fred_data := Concrete.fred_envelope;
  analyze_market_structure := fun _ => Concrete.gate3_envelope;
  assess_impairment_risk := fun _ => Concrete.gate4_envelope
|}.

End Halted.

(** ** More of [str]: whitespace, splitting, title case (ASCII) *)

Module PyText.

(** [c.isspace()], also the class [\s] of [re]: tab to carriage return,
    the four separators 28 to 31, and the space. *)
Definition is_space (c : ascii) : bool :=
  let n := nat_of_ascii c in
  orb (andb (Nat.leb 9 n) (Nat.leb n 13))
      (orb (andb (Nat.leb 28 n) (Nat.leb n 31)) (Nat.eqb n 32)).

Fixpoint lstrip (s : string) : string :=
  match s with
  | EmptyString => EmptyString
  | String c s' => if is_space c then lstrip s' else s
  end.

Fixpoint rstrip (s : string) : string :=
  match s with
  | EmptyString => EmptyString
  | String c s' =>
      match rstrip s' with
      | EmptyString => if is_space c then EmptyString else String c EmptyString
      | t => String c t
      end
  end.

(** [s.strip()] *)
Definition strip (s : string) : string := rstrip (lstrip s).

(** [s.replace(a, b)] for one-character [a] and [b] *)
Definition replace_char (a b : ascii) (s : string) : string :=
  Py.map_string (fun c => if Ascii.eqb c a then b else c) s.

Definition is_lower (c : ascii) : bool :=
  let n := nat_of_ascii c in andb (Nat.leb 97 n) (Nat.leb n 122).

Definition is_upper (c : ascii) : bool :=
  let n := nat_of_ascii c in andb (Nat.leb 65 n) (Nat.leb n 90).

(** [s.title()]: a letter is upper-cased unless the character before it
    is a letter, in which case it is lower-cased. *)
Fixpoint title_from (previous_is_cased : bool) (s : string) : string :=
  match s with
  | EmptyString => EmptyString
  | String c s' =>
      if orb (is_lower c) (is_upper c) then
        String (if previous_is_cased then Py.lower_ascii c else Py.upper_ascii c)
               (title_from true s')
      else String c (title_from false s')
  end.

Definition title (s : string) : string := title_from false s.

(** [re.split(r"[.!?]+", s)]: the pieces between the maximal runs of
    sentence punctuation. *)
Definition is_sentence_end (c : ascii) : bool :=
  orb (Ascii.eqb c ".") (orb (Ascii.eqb c "!") (Ascii.eqb c "?")).

Fixpoint split_punctuation_from (cur : string) (in_run : bool) (s : string) : list string :=
  match s with
  | EmptyString => [ cur ]
  | String c s' =>
      if is_sentence_end c then
        if in_run then split_punctuation_from cur true s'
        else cur :: split_punctuation_from "" true s'
      else split_punctuation_from (cur ++ String c "") false s'
  end.

Definition split_punctuation (s : string) : list string :=
  split_punctuation_from "" false s.

(** [re.split(r"(?<=[.!?])\s+", s)]: the pieces between the whitespace
    runs that directly follow sentence punctuation. *)
Fixpoint split_after_punctuation_from (cur : string) (previous_is_end in_gap : bool)
    (s : string) : list string :=
  match s with
  | EmptyString => [ cur ]
  | String c s' =>
      if in_gap then
        if is_space c then split_after_punctuation_from cur false true s'
        else split_after_punctuation_from (String c "") (is_sentence_end c) false s'
      else if andb previous_is_end (is_space c) then
        cur :: split_after_punctuation_from "" false true s'
      else split_after_punctuation_from (cur ++ String c "") (is_sentence_end c) false s'
  end.

Definition split_after_punctuation (s : string) : list string :=
  split_after_punctuation_from "" false false s.

(** [[part.strip() for part in parts if part.strip()]] *)
Definition stripped_nonempty (parts : list string) : list string :=
  filter (fun part => negb (String.eqb part "")) (map strip parts).

End PyText.

(** ** The language model behind gates 1, 3 and 4

    [llm.invoke(prompt)] followed by [parse_json_object]: the parsed answer
    (any JSON value) or an exception, as a function of the values the gate
    builds its prompt from, in the order of the gate's signature. *)
Class Llm := {
  (** [bool(os.getenv("GOOGLE_API_KEY"))] *)
  google_api_key : bool;
  business_context_model : list pyval -> Exc pyval;
  market_structure_model : list pyval -> Exc pyval;
  impairment_model : list pyval -> Exc pyval
}.

(** ** data_fetchers/fred_fetcher.py: the credit-stress bands *)

Module Fred.

Definition _credit_stress_band (nfci_value : Q) : string :=
  if Py.ge nfci_value 0.75 then "HIGH"
  else if Py.ge nfci_value 0.0 then "MEDIUM"
  else "LOW".

Definition _credit_stress_regime (nfci_value : Q) : string :=
  if Py.ge nfci_value 0.75 then "TIGHT"
  else if Py.ge nfci_value 0.0 then "NEUTRAL"
  else "EASY".

End Fred.

(** ** gates/gate4_impairment.py *)

Module Impairment.
Section WithRuntime.
Context {R : Runtime} {L : Llm}.
Open Scope exc_scope.

Definition GATE_NAME : string := Gate4.GATE_NAME.
Definition VALID_RISK_LEVELS : list string := [ "LOW"; "MEDIUM"; "HIGH"; "UNDETERMINED" ].
Definition VALID_RISK_DRIVERS : list string := [ "LEVERAGE"; "REFINANCING"; "CASH_FLOW"; "NONE" ].
Definition VALID_CREDIT_STRESS : list string := [ "LOW"; "MEDIUM"; "HIGH" ].
Definition CORE_IMPAIRMENT_FIELDS : list string :=
  [ "cash"; "total_debt"; "interest_rate"; "credit_stress" ].

Definition units : dict :=
  [ ("interest_rate", VStr "decimal"); ("credit_stress_index", VStr "NFCI_raw_index") ].

Definition _undetermined_response (inputs_used : list string) (reason : string)
    (missing_inputs : option (list string)) : dict :=
  let data : dict :=
    [ ("risk_level", VStr "UNDETERMINED");
      ("risk_driver", VStr "NONE");
      ("confidence", VInt 0);
      ("reason", VStr reason);
      ("reasoning", VStr reason);
      ("reasoning_valid", VBool true);
      ("units", VDict units) ] in
  ResponseUtils.ok_response GATE_NAME data inputs_used 0 ("UNDETERMINED — " ++ reason)
    (Some "DATA_AVAILABILITY") missing_inputs.

Definition _reasoning_meets_constraints (reasoning : string) : bool * string :=
  let text := Py.lower reasoning in
  let has_cash_vs_debt := andb (Py.contains text "cash") (Py.contains text "debt") in
  let has_coverage := Py.contains text "coverage" in
  let has_refinancing :=
    existsb (fun token => Py.contains text token)
      [ "refinanc"; "interest rate"; "credit stress"; "credit"; "rate" ] in
  if negb has_cash_vs_debt then (false, "Reasoning must explicitly cite cash vs debt")
  else if negb has_coverage then (false, "Reasoning must explicitly cite coverage")
  else if negb has_refinancing
       then (false, "Reasoning must explicitly cite refinancing environment")
  else (true, "").

Definition inputs_used : list string :=
  [ "net_income"; "free_cashflow"; "cash"; "total_debt"; "net_debt"; "interest_expense";
    "interest_coverage"; "shares_outstanding"; "interest_rate"; "credit_stress";
    "credit_stress_index" ].

(** The body of the [try] block. *)
Definition try_block (net_income free_cashflow cash total_debt net_debt interest_expense
    interest_coverage shares_outstanding interest_rate : option Q)
    (normalized_credit_stress : string) (credit_stress_index : option Q)
    (business_context : option string) (all_missing : list string)
    (has_partial_inputs : bool) : Exc dict :=
  payload <- impairment_model
               [ Py.of_float net_income; Py.of_float free_cashflow; Py.of_float cash;
                 Py.of_float total_debt; Py.of_float net_debt; Py.of_float interest_expense;
                 Py.of_float interest_coverage; Py.of_float shares_outstanding;
                 Py.of_float interest_rate; VStr normalized_credit_stress;
                 Py.of_float credit_stress_index; Py.of_str business_context ] ;;
  risk_level <- Py.attr_get payload "risk_level" (VStr "") ;;
  let risk_level := Py.upper (PyText.strip (PyRt.str risk_level)) in
  risk_driver <- Py.attr_get payload "risk_driver" (VStr "") ;;
  let risk_driver := Py.upper (PyText.strip (PyRt.str risk_driver)) in
  reasoning <- Py.attr_get payload "reasoning" (VStr "") ;;
  let reasoning := PyText.strip (PyRt.str reasoning) in
  if negb (Py.mem risk_level VALID_RISK_LEVELS) then
    ret (_undetermined_response inputs_used
           ("Impairment model returned invalid risk level: " ++ risk_level) None)
  else
    let risk_driver :=
      if negb (Py.mem risk_driver VALID_RISK_DRIVERS) then "NONE" else risk_driver in
    if String.eqb reasoning "" then
      ret (_undetermined_response inputs_used "Impairment model returned empty reasoning." None)
    else
      let '(valid_reasoning, reason_message) := _reasoning_meets_constraints reasoning in
      let gate_confidence :=
        if String.eqb risk_level "UNDETERMINED" then 0
        else if String.eqb risk_level "HIGH" then (if valid_reasoning then 85 else 60)
        else if String.eqb risk_level "LOW" then (if valid_reasoning then 80 else 55)
        else (if valid_reasoning then 70 else 50) in
      let gate_confidence :=
        if has_partial_inputs then Z.max 20 (gate_confidence - 10) else gate_confidence in
      let one_liner := risk_level ++ " impairment risk — driver: " ++ risk_driver in
      let data : dict :=
        [ ("risk_level", VStr risk_level);
          ("risk_driver", VStr risk_driver);
          ("credit_stress", VStr normalized_credit_stress);
          ("credit_stress_index", Py.of_float credit_stress_index);
          ("reasoning", VStr reasoning);
          ("reasoning_valid", VBool valid_reasoning);
          ("units", VDict units) ] in
      if has_partial_inputs then
        ret (ResponseUtils.ok_response GATE_NAME data inputs_used gate_confidence one_liner
               (Some "DATA_AVAILABILITY") (Some all_missing))
      else
        ret (ResponseUtils.ok_response GATE_NAME data inputs_used gate_confidence one_liner
               None None).

Definition assess_impairment_risk (net_income free_cashflow cash total_debt net_debt
    interest_expense interest_coverage shares_outstanding interest_rate : option Q)
    (credit_stress : option string) (credit_stress_index : option Q)
    (business_context : option string) : Exc dict :=
  let core_check : dict :=
    [ ("cash", Py.of_float cash);
      ("total_debt", Py.of_float total_debt);
      ("interest_rate", Py.of_float interest_rate);
      ("credit_stress", Py.of_str credit_stress) ] in
  let core_missing := map fst (filter (fun kv => Py.is_none (snd kv)) core_check) in
  match core_missing with
  | _ :: _ =>
      ret (_undetermined_response inputs_used
             ("Cannot assess impairment — missing core inputs: "
              ++ Py.join ", " core_missing ++ ".")
             (Some core_missing))
  | [] =>
      if andb (Py.is_none (Py.of_float interest_expense))
              (Py.is_none (Py.of_float interest_coverage)) then
        ret (_undetermined_response inputs_used
               "Interest expense not explicitly reported in SEC filings for this period."
               (Some [ "interest_expense"; "interest_coverage" ]))
      else
        let all_inputs : dict :=
          [ ("net_income", Py.of_float net_income);
            ("cash", Py.of_float cash);
            ("total_debt", Py.of_float total_debt);
            ("net_debt", Py.of_float net_debt);
            ("interest_expense", Py.of_float interest_expense);
            ("interest_coverage", Py.of_float interest_coverage);
            ("shares_outstanding", Py.of_float shares_outstanding);
            ("interest_rate", Py.of_float interest_rate);
            ("credit_stress", Py.of_str credit_stress);
            ("credit_stress_index", Py.of_float credit_stress_index) ] in
        let all_missing := ResponseUtils.missing_required_fields all_inputs in
        let has_partial_inputs := Nat.ltb 0 (List.length all_missing) in
        let normalized_credit_stress := Py.upper (PyRt.str (Py.of_str credit_stress)) in
        if negb (Py.mem normalized_credit_stress VALID_CREDIT_STRESS) then
          ret (_undetermined_response inputs_used
                 ("Cannot assess impairment — invalid credit_stress value: "
                  ++ PyRt.str (Py.of_str credit_stress))
                 (Some [ "credit_stress" ]))
        else
          rate <- PyRt.float_opt interest_rate ;;
          if Py.gt rate 1.0 then
            ret (_undetermined_response inputs_used
                   "Cannot assess impairment — interest_rate must be decimal (e.g., 0.0364 for 3.64%)."
                   (Some [ "interest_rate" ]))
          else if negb google_api_key then
            ret (_undetermined_response inputs_used "Impairment model unavailable for this run."
                   None)
          else
            ret (try_except
                   (try_block net_income free_cashflow cash total_debt net_debt
                      interest_expense interest_coverage shares_outstanding interest_rate
                      normalized_credit_stress credit_stress_index business_context
                      all_missing has_partial_inputs)
                   (fun error =>
                      _undetermined_response inputs_used
                        ("Impairment risk assessment failed: " ++ exn_message error) None))
  end.

End WithRuntime.
End Impairment.

(** ** gates/gate3_market_structure.py *)

Module MarketStructure.
Section WithRuntime.
Context {R : Runtime} {L : Llm}.
Open Scope exc_scope.

Definition GATE_NAME : string := Gate3.GATE_NAME.
Definition VALID_CLASSIFICATIONS : list string :=
  [ "TAILWIND"; "NEUTRAL"; "HEADWIND"; "NO_RELEVANT_DATA_FOUND" ].
Definition VARIABLE_REFERENCES : list (string * list string) :=
  [ ("last_price", [ "last price"; "last_price" ]);
    ("last_volume", [ "last volume"; "last_volume" ]);
    ("avg_volume", [ "average volume"; "avg_volume" ]);
    ("volume_spike", [ "volume spike"; "volume_spike" ]);
    ("price_direction", [ "price direction"; "price_direction" ]);
    ("flow_signal", [ "flow signal"; "flow_signal" ]);
    ("yes_price", [ "yes price"; "yes_price" ]);
    ("no_price", [ "no price"; "no_price" ]);
    ("macro_signal", [ "macro signal"; "macro_signal" ]) ].

Definition _count_sentences (text : string) : Z :=
  Z.of_nat (List.length (PyText.stripped_nonempty (PyText.split_punctuation text))).

Definition _first_n_sentences (text : string) (n : nat) : string :=
  let chunks := PyText.stripped_nonempty (PyText.split_after_punctuation text) in
  if Nat.leb (List.length chunks) n then PyText.strip text
  else PyText.strip (Py.join " " (firstn n chunks)).

Definition _sentence_chunks (text : string) : list string :=
  PyText.stripped_nonempty (PyText.split_after_punctuation (PyText.strip text)).

Definition _sentence_has_variable_reference (sentence : string) : bool :=
  let lower := Py.lower sentence in
  existsb (fun alias => Py.contains lower alias) (concat (map snd VARIABLE_REFERENCES)).

Definition _reasoning_has_sentence_level_references (reasoning : string) : bool :=
  let sentences := _sentence_chunks reasoning in
  match sentences with
  | [] => false
  | _ => forallb _sentence_has_variable_reference sentences
  end.

Definition _is_no_data (avg_volume last_volume : option Z)
    (price_direction flow_signal : option string) (yes_price no_price : option Q) : bool :=
  if match avg_volume with Some v => v =? 0 | None => false end then true
  else if match last_volume with Some v => v =? 0 | None => false end then true
  else if andb
       (String.eqb (Py.upper (PyRt.str (Py.or_ (Py.of_str price_direction) (VStr "")))) "FLAT")
       (String.eqb (Py.upper (PyRt.str (Py.or_ (Py.of_str flow_signal) (VStr "")))) "NEUTRAL")
  then true
  else if andb (Py.is_none (Py.of_float yes_price)) (Py.is_none (Py.of_float no_price))
  then true
  else false.

Definition _no_relevant_data_response (inputs_used : list string) (reason : string)
    (missing_inputs : option (list string)) : dict :=
  let data : dict :=
    [ ("classification", VStr "NO_RELEVANT_DATA_FOUND");
      ("confidence", VInt 0);
      ("analysis", VStr "No reliable market-structure signals available for this period.");
      ("setup_label", VStr "No relevant market structure data");
      ("reasoning", VStr reason) ] in
  ResponseUtils.ok_response GATE_NAME data inputs_used 0
    "NO_RELEVANT_DATA_FOUND — No reliable market-structure signals available for this period."
    None missing_inputs.

Definition inputs_used : list string :=
  [ "last_price"; "last_volume"; "avg_volume"; "volume_spike"; "price_direction";
    "flow_signal"; "yes_price"; "no_price"; "macro_signal" ].

Definition of_int (o : option Z) : pyval :=
  match o with Some z => VInt z | None => VNone end.

(** The body of the [try] block. *)
Definition try_block (last_price : option Q) (last_volume avg_volume : option Z)
    (volume_spike : option Q) (price_direction flow_signal : option string)
    (yes_price no_price : option Q) (macro_signal : option string) : Exc dict :=
  payload <- market_structure_model
               [ Py.of_float last_price; of_int last_volume; of_int avg_volume;
                 Py.of_float volume_spike; Py.of_str price_direction; Py.of_str flow_signal;
                 Py.of_float yes_price; Py.of_float no_price; Py.of_str macro_signal ] ;;
  classification <- Py.attr_get payload "classification" (VStr "") ;;
  let classification := Py.upper (PyText.strip (PyRt.str classification)) in
  setup_label <- Py.attr_get payload "setup_label" (VStr "") ;;
  let setup_label := PyText.strip (PyRt.str setup_label) in
  reasoning <- Py.attr_get payload "reasoning" (VStr "") ;;
  let reasoning := PyText.strip (PyRt.str reasoning) in
  if negb (Py.mem classification VALID_CLASSIFICATIONS) then
    ret (_no_relevant_data_response inputs_used
           ("Model returned invalid classification: " ++ classification ++ ".") None)
  else if String.eqb reasoning "" then
    ret (_no_relevant_data_response inputs_used
           "Model returned empty market-structure analysis." None)
  else
    let setup_label :=
      if String.eqb setup_label ""
      then PyText.title (PyText.replace_char "_" " " classification)
      else setup_label in
    let reasoning :=
      if 3 <? _count_sentences reasoning then _first_n_sentences reasoning 3 else reasoning in
    let graded : option Z :=
      if String.eqb classification "NO_RELEVANT_DATA_FOUND" then Some 0
      else if String.eqb classification "NEUTRAL" then Some 60
      else if _reasoning_has_sentence_level_references reasoning then Some 75
      else None in
    match graded with
    | None =>
        ret (_no_relevant_data_response inputs_used
               "Model output lacked variable-grounded reasoning for classification." None)
    | Some gate_confidence =>
        let one_liner := classification ++ " — " ++ setup_label in
        let data : dict :=
          [ ("classification", VStr classification);
            ("confidence", VInt gate_confidence);
            ("analysis", VStr reasoning);
            ("setup_label", VStr setup_label);
            ("reasoning", VStr reasoning);
            ("units", VDict
               [ ("volume_spike", VStr "ratio");
                 ("yes_price", VStr "raw_market_price");
                 ("no_price", VStr "raw_market_price") ]) ] in
        ret (ResponseUtils.ok_response GATE_NAME data inputs_used gate_confidence one_liner
               None None)
    end.

Definition analyze_market_structure (last_price : option Q) (last_volume avg_volume : option Z)
    (volume_spike : option Q) (price_direction flow_signal : option string)
    (yes_price no_price : option Q) (macro_signal : option string) : dict :=
  let required_inputs : dict :=
    [ ("last_price", Py.of_float last_price);
      ("last_volume", of_int last_volume);
      ("avg_volume", of_int avg_volume);
      ("volume_spike", Py.of_float volume_spike);
      ("price_direction", Py.of_str price_direction);
      ("flow_signal", Py.of_str flow_signal);
      ("macro_signal", Py.of_str macro_signal) ] in
  let missing := ResponseUtils.missing_required_fields required_inputs in
  match missing with
  | _ :: _ =>
      _no_relevant_data_response inputs_used
        ("Missing required inputs: " ++ Py.join ", " missing ++ ".") (Some missing)
  | [] =>
      if _is_no_data avg_volume last_volume price_direction flow_signal yes_price no_price then
        _no_relevant_data_response inputs_used
          "Signal channels are inactive or conflicting for this period." None
      else if negb google_api_key then
        _no_relevant_data_response inputs_used
          "LLM key unavailable; returning non-classification fallback." None
      else
        try_except
          (try_block last_price last_volume avg_volume volume_spike price_direction
             flow_signal yes_price no_price macro_signal)
          (fun error =>
             _no_relevant_data_response inputs_used
               ("Internal market-structure failure: " ++ exn_message error) None)
  end.

End WithRuntime.
End MarketStructure.

(** ** gates/gate1_business_context.py *)

Module BusinessContext.
Section WithRuntime.
Context {R : Runtime} {L : Llm}.
Open Scope exc_scope.

Definition GATE_NAME : string := Gate1.GATE_NAME.
Definition VALID_COMPLEXITY : list string := [ "LOW"; "MEDIUM"; "HIGH" ].

Definition inputs_used : list string :=
  [ "company_name"; "sic_description"; "business_description"; "risk_factors"; "entity_type" ].

(** [bool(x)] of an argument annotated [str | None] *)
Definition given (o : option string) : bool := Py.truthy (Py.of_str o).

(** [[str(r).strip() for r in key_risk_categories if str(r).strip()]] *)
Definition risk_labels (key_risk_categories : list pyval) : list string :=
  map (fun r => PyText.strip (PyRt.str r))
      (filter (fun r => negb (String.eqb (PyText.strip (PyRt.str r)) "")) key_risk_categories).

(** The body of the [try] block. *)
Definition try_block (company_name sic_description : string)
    (business_description risk_factors entity_type sic : option string)
    (has_filings : bool) (missing_inputs : list string) : Exc dict :=
  payload <- business_context_model
               [ VStr company_name; VStr sic_description; Py.of_str business_description;
                 Py.of_str risk_factors; Py.of_str entity_type; Py.of_str sic ] ;;
  business_summary <- Py.attr_get payload "business_summary" (VStr "") ;;
  let business_summary := PyText.strip (PyRt.str business_summary) in
  key_risk_categories <- Py.attr_get payload "key_risk_categories" (VList []) ;;
  geographic_exposure <- Py.attr_get payload "geographic_exposure" (VStr "") ;;
  let geographic_exposure := Py.upper (PyText.strip (PyRt.str geographic_exposure)) in
  business_complexity <- Py.attr_get payload "business_complexity" (VStr "") ;;
  let business_complexity := Py.upper (PyText.strip (PyRt.str business_complexity)) in
  if String.eqb business_summary "" then
    ret (ResponseUtils.error_response GATE_NAME "BUSINESS_CONTEXT_EMPTY_SUMMARY"
           "LLM returned empty business_summary" inputs_used None (Some "DATA_AVAILABILITY"))
  else
    let business_complexity :=
      if negb (Py.mem business_complexity VALID_COMPLEXITY) then "MEDIUM"
      else business_complexity in
    let geographic_exposure :=
      if negb (Py.mem geographic_exposure [ "DOMESTIC"; "INTERNATIONAL"; "GLOBAL" ])
      then "INTERNATIONAL" else geographic_exposure in
    let key_risk_categories :=
      match key_risk_categories with VList l => l | _ => [] end in
    let key_risk_categories := risk_labels key_risk_categories in
    let data : dict :=
      [ ("business_summary", VStr business_summary);
        ("key_risk_categories", Py.str_list key_risk_categories);
        ("geographic_exposure", VStr geographic_exposure);
        ("business_complexity", VStr business_complexity) ] in
    let one_liner :=
      company_name ++ ": " ++ business_complexity ++ " complexity, " ++ geographic_exposure
      ++ " exposure, " ++ Py.str_of_Z (Z.of_nat (List.length key_risk_categories))
      ++ " risk categories" in
    if negb has_filings then
      ret (ResponseUtils.partial_response GATE_NAME data inputs_used missing_inputs 40
             ("PARTIAL — " ++ one_liner ++ " (filings not available)")
             (Some "DATA_AVAILABILITY"))
    else
      let confidence := if has_filings then 85 else 40 in
      ret (ResponseUtils.ok_response GATE_NAME data inputs_used confidence one_liner None
             (match missing_inputs with [] => None | _ => Some missing_inputs end)).

Definition analyze_business_context (company_name sic_description : string)
    (business_description risk_factors entity_type sic : option string) : dict :=
  if String.eqb company_name "" then
    ResponseUtils.error_response GATE_NAME "BUSINESS_CONTEXT_MISSING_COMPANY_NAME"
      "company_name is required" inputs_used (Some [ "company_name" ])
      (Some "DATA_AVAILABILITY")
  else
    let has_filings := orb (given business_description) (given risk_factors) in
    let missing_inputs : list string :=
      ((if negb (given business_description) then [ "business_description" ] else [])
       ++ (if negb (given risk_factors) then [ "risk_factors" ] else []))%list in
    if negb google_api_key then
      ResponseUtils.error_response GATE_NAME "BUSINESS_CONTEXT_LLM_KEY_MISSING"
        "GOOGLE_API_KEY is not set" inputs_used None (Some "DATA_AVAILABILITY")
    else
      try_except
        (try_block company_name sic_description business_description risk_factors
           entity_type sic has_filings missing_inputs)
        (fun error =>
           ResponseUtils.error_response GATE_NAME "BUSINESS_CONTEXT_INTERNAL_ERROR"
             ("Business context classification failed: " ++ exn_message error)
             inputs_used None (Some "DATA_AVAILABILITY")).

End WithRuntime.
End BusinessContext.

(** ** The answers of the LLM-backed gates *)

(** What the impairment gate promises about every answer. *)
Definition impairment_answer (r : dict) : Prop :=
  Envelope.status r = VStr "OK" /\
  Envelope.gate_name r = VStr Gate4.GATE_NAME /\
  exists level driver c,
    Envelope.field r "risk_level" = VStr level /\
    Py.mem level Impairment.VALID_RISK_LEVELS = true /\
    Envelope.field r "risk_driver" = VStr driver /\
    Py.mem driver Impairment.VALID_RISK_DRIVERS = true /\
    Envelope.confidence r = VInt c /\
    (level = "UNDETERMINED" -> c = 0 \/ c = 20) /\
    (level <> "UNDETERMINED" -> 40 <= c <= 85).

(** What the market-structure gate promises about every answer. *)
Definition market_answer (r : dict) : Prop :=
  Envelope.status r = VStr "OK" /\
  Envelope.gate_name r = VStr Gate3.GATE_NAME /\
  Py.get (Envelope.diagnostics r) "binding_constraint" = VNone /\
  exists classification c,
    Envelope.field r "classification" = VStr classification /\
    Envelope.confidence r = VInt c /\
    Envelope.field r "confidence" = VInt c /\
    ((classification = "NO_RELEVANT_DATA_FOUND" /\ c = 0) \/
     (classification = "NEUTRAL" /\ c = 60) \/
     ((classification = "TAILWIND" \/ classification = "HEADWIND") /\ c = 75 /\
      exists analysis,
        Envelope.field r "analysis" = VStr analysis /\
        MarketStructure._reasoning_has_sentence_level_references analysis = true)).

(** The two shapes of an answer of gate 1. *)
Definition context_error (r : dict) : Prop :=
  Envelope.status r = VStr "ERROR" /\
  Envelope.confidence r = VInt 0 /\
  Envelope.data r = [].

Definition context_answer (r : dict) (filings : bool) (missing : list string) : Prop :=
  exists summary complexity exposure,
    Envelope.field r "business_summary" = VStr summary /\ summary <> "" /\
    Envelope.field r "business_complexity" = VStr complexity /\
    In complexity [ "LOW"; "MEDIUM"; "HIGH" ] /\
    Envelope.field r "geographic_exposure" = VStr exposure /\
    In exposure [ "DOMESTIC"; "INTERNATIONAL"; "GLOBAL" ] /\
    Envelope.missing_inputs r = Py.str_list missing /\
    Envelope.status r = VStr (if filings then "OK" else "PARTIAL") /\
    Envelope.confidence r = VInt (if filings then 85 else 40).

(** ** Scripted models for the evaluated examples *)

Module Scripted.

(** No [GOOGLE_API_KEY]: no gate reaches its model. *)
Definition silent : Llm := {|
  google_api_key := false;
  business_context_model := fun _ => raise ValueError "no model";
  market_structure_model := fun _ => raise ValueError "no model";
  impairment_model := fun _ => raise ValueError "no model"
|}.

(** A model that answers every prompt with the same parsed object. *)
Definition answering (payload : pyval) : Llm := {|
  google_api_key := true;
  business_context_model := fun _ => ret payload;
  market_structure_model := fun _ => ret payload;
  impairment_model := fun _ => ret payload
|}.

Definition payload : pyval :=
  VDict
    [ ("risk_level", VStr "low");
      ("risk_driver", VStr "none");
      ("classification", VStr "Neutral");
      ("setup_label", VStr "");
      ("reasoning",
         VStr "Cash exceeds debt, interest coverage is ample and credit stress is low.") ].

End Scripted.

(** * Properties *)

(** ** The error monad *)

Lemma bind_ret {A B} (a : A) (k : A -> Exc B) : bind (ret a) k = k a.
Proof. reflexivity. Qed.


(** ** Comparisons of the float model *)

Lemma le_true (a b : Q) : Py.le a b = true <-> (a <= b)%Q.
Proof. unfold Py.le. apply Qle_bool_iff. Qed.

Lemma le_false (a b : Q) : Py.le a b = false <-> (b < a)%Q.
Proof.
  unfold Py.le. split; intro H.
  - apply Qnot_le_lt. intro Hle. apply Qle_bool_iff in Hle. congruence.
  - destruct (Qle_bool a b) eqn:E; [|reflexivity].
    apply Qle_bool_iff in E. exfalso. apply (Qlt_not_le _ _ H E).
Qed.

Lemma ge_true (a b : Q) : Py.ge a b = true <-> (b <= a)%Q.
Proof. unfold Py.ge. apply Qle_bool_iff. Qed.

Lemma ge_false (a b : Q) : Py.ge a b = false <-> (a < b)%Q.
Proof. apply (le_false b a). Qed.

Lemma lt_true (a b : Q) : Py.lt a b = true <-> (a < b)%Q.
Proof.
  unfold Py.lt. rewrite negb_true_iff. apply (le_false b a).
Qed.

Lemma lt_false (a b : Q) : Py.lt a b = false <-> (b <= a)%Q.
Proof.
  unfold Py.lt. rewrite negb_false_iff. apply (le_true b a).
Qed.

Lemma gt_true (a b : Q) : Py.gt a b = true <-> (b < a)%Q.
Proof. unfold Py.gt. rewrite negb_true_iff. apply (le_false a b). Qed.

Lemma gt_false (a b : Q) : Py.gt a b = false <-> (a <= b)%Q.
Proof. unfold Py.gt. rewrite negb_false_iff. apply (le_true a b). Qed.

Lemma ne_true (a b : Q) : Py.ne a b = true <-> ~ (a == b)%Q.
Proof.
  unfold Py.ne. rewrite negb_true_iff. split; intro H.
  - intro E. apply Qeq_bool_iff in E. congruence.
  - destruct (Qeq_bool a b) eqn:E; [|reflexivity].
    apply Qeq_bool_iff in E. contradiction.
Qed.

(** Case analysis on one comparison, leaving its meaning as a hypothesis. *)
Ltac by_cases_le a b :=
  let E := fresh "E" in
  destruct (Py.le a b) eqn:E; [apply le_true in E | apply le_false in E].
Ltac by_cases_ge a b :=
  let E := fresh "E" in
  destruct (Py.ge a b) eqn:E; [apply ge_true in E | apply ge_false in E].
Ltac by_cases_lt a b :=
  let E := fresh "E" in
  destruct (Py.lt a b) eqn:E; [apply lt_true in E | apply lt_false in E].
Ltac by_cases_eq a b :=
  let E := fresh "E" in
  destruct (Qeq_bool a b) eqn:E; [apply Qeq_bool_iff in E | apply Qeq_bool_neq in E].
Ltac by_cases_gt a b :=
  let E := fresh "E" in
  destruct (Py.gt a b) eqn:E; [apply gt_true in E | apply gt_false in E].


Lemma min_le_r (a b : Q) : (Py.min a b <= b)%Q.
Proof. unfold Py.min. by_cases_lt b a; lra. Qed.

Lemma min_cases (a b : Q) : Py.min a b = a \/ Py.min a b = b.
Proof. unfold Py.min. destruct (Py.lt b a); auto. Qed.

Lemma max_ge_l (a b : Q) : (a <= Py.max a b)%Q.
Proof. unfold Py.max. by_cases_gt b a; lra. Qed.


Lemma max_cases (a b : Q) : Py.max a b = a \/ Py.max a b = b.
Proof. unfold Py.max. destruct (Py.gt b a); auto. Qed.

Lemma min_is_Qmin (a b : Q) : (Py.min a b == Qmin a b)%Q.
Proof.
  unfold Py.min. by_cases_lt b a.
  - symmetry. apply Q.min_r. lra.
  - symmetry. apply Q.min_l. lra.
Qed.

Lemma max_is_Qmax (a b : Q) : (Py.max a b == Qmax a b)%Q.
Proof.
  unfold Py.max. by_cases_gt b a.
  - symmetry. apply Q.max_r. lra.
  - symmetry. apply Q.max_l. lra.
Qed.

(** ** Envelope observers on the response constructors *)

Section EnvelopeFacts.
Context {R : Runtime}.

Lemma field_ok_response gate data iu c ol bc mi k :
  Envelope.field (ResponseUtils.ok_response gate data iu c ol bc mi) k = Py.get data k.
Proof. reflexivity. Qed.

Lemma status_ok_response gate data iu c ol bc mi :
  Envelope.status (ResponseUtils.ok_response gate data iu c ol bc mi) = VStr "OK".
Proof. reflexivity. Qed.





End EnvelopeFacts.

(** ** Gate 2 *)

Section Gate2Facts.
Context {R : Runtime}.

Lemma div_nonzero (a b : Q) (log : list Q) :
  ~ (b == 0)%Q -> Gate2.div a b log = (ret (a / b)%Q, (log ++ [b])%list).
Proof.
  intro H. unfold Gate2.div.
  destruct (Qeq_bool b 0) eqn:E; [|reflexivity].
  apply Qeq_bool_iff in E. contradiction.
Qed.

(** [compute_locals] on present inputs with a positive share count: it
    raises nothing, and its locals are the expected functions of the inputs. *)
Lemma compute_locals_value (mp ni td ca so : Q) (fcf : option Q) :
  (0 < so)%Q ->
  let nd := (td - ca)%Q in
  let ip := Gate2.intrinsic_price_of ni fcf td ca so in
  exists l log,
    Gate2.compute_locals (Some mp) (Some ni) fcf (Some td) (Some ca) (Some so) [] = (inr l, log) /\
    Gate2.owner_earnings l = Gate2.owner_earnings_of ni fcf /\
    Gate2.owner_earnings_source l = Gate2.owner_earnings_source_of ni fcf /\
    Gate2.net_debt l = nd /\
    Gate2.multiple_used l = fst (Gate2.valuation_policy nd) /\
    Gate2.required_margin_used l = snd (Gate2.valuation_policy nd) /\
    Gate2.effective_net_debt l = Py.max 0.0 nd /\
    Gate2.intrinsic_equity l = Gate2.intrinsic_equity_of ni fcf td ca /\
    Gate2.intrinsic_price l = ip /\
    ((ip <= 0)%Q ->
       Gate2.margin_of_safety l = None /\ Gate2.passes l = false /\
       Gate2.valuation_band l = "IMPAIRED" /\ log = [so]) /\
    ((0 < ip)%Q ->
       let m := ((ip - mp) / ip)%Q in
       Gate2.margin_of_safety l = Some m /\
       Gate2.passes l = Py.ge m (snd (Gate2.valuation_policy nd)) /\
       Gate2.valuation_band l = Gate2._valuation_band m /\
       (log = [so; ip] \/ log = [so; ip; ip])).
Proof.
  intros Hso nd ip.
  assert (Hso0 : ~ (so == 0)%Q) by lra.
  unfold Gate2.compute_locals, Gate2.tbind, Gate2.lift, Gate2.tret, PyRt.float_opt, ret.
  destruct fcf as [f|]; cbn -[Gate2.valuation_policy Gate2.div Py.max Py.le Py.ge Py.ne Py.min Qdiv Qmult Qminus];
    fold nd;
    destruct (Gate2.valuation_policy nd) as [mult req] eqn:Epol;
    cbn -[Gate2.div Py.max Py.le Py.ge Py.ne Py.min Qdiv Qmult Qminus];
    rewrite (div_nonzero _ so [] Hso0);
    cbn -[Gate2.div Py.max Py.le Py.ge Py.ne Py.min Qdiv Qmult Qminus].
  all: unfold ip, Gate2.intrinsic_price_of, Gate2.intrinsic_equity_of, Gate2.owner_earnings_of,
         Gate2.owner_earnings_source_of; fold nd; rewrite Epol;
       cbn -[Gate2.div Py.max Py.le Py.ge Py.ne Py.min Qdiv Qmult Qminus].
  all: match goal with
       | |- context [Py.le ?x 0] => set (p := x)
       end.
  all: by_cases_le p 0%Q.
  all: try (eexists; eexists; split; [reflexivity|];
            cbn -[Py.max Py.le Py.ge Py.ne Py.min Qdiv Qmult Qminus];
            repeat split; try reflexivity; intros; try lra; fail).
  all: assert (Hp0 : ~ (p == 0)%Q) by lra.
  all: rewrite (div_nonzero _ p _ Hp0);
       cbn -[Gate2.div Py.max Py.le Py.ge Py.ne Py.min Qdiv Qmult Qminus].
  all: destruct (Py.ge ((p - mp) / p) req) eqn:Epass;
       cbn -[Gate2.div Py.max Py.le Py.ge Py.ne Py.min Qdiv Qmult Qminus].
  all: try (eexists; eexists; split; [reflexivity|];
            cbn -[Py.max Py.le Py.ge Py.ne Py.min Qdiv Qmult Qminus];
            repeat split; try reflexivity; intros; try lra; auto; fail).
  all: assert (Hne : Py.ne p 0 = true) by (apply ne_true; lra); rewrite Hne;
       rewrite (div_nonzero _ p _ ltac:(lra));
       cbn -[Gate2.div Py.max Py.le Py.ge Py.ne Py.min Qdiv Qmult Qminus].
  all: eexists; eexists; split; [reflexivity|];
       cbn -[Py.max Py.le Py.ge Py.ne Py.min Qdiv Qmult Qminus];
       repeat split; try reflexivity; intros; try lra; auto.
Qed.

(** On present inputs with a positive share count the gate answers with
    the OK envelope built from the locals; the [except] branch is not taken. *)
Lemma calculate_valuation_valid (mp ni td ca so : Q) (fcf : option Q) (l : Gate2.locals)
    (log : list Q) :
  (0 < so)%Q ->
  Gate2.compute_locals (Some mp) (Some ni) fcf (Some td) (Some ca) (Some so) [] = (inr l, log) ->
  Gate2.calculate_valuation_traced (Some mp) (Some ni) fcf (Some td) (Some ca) (Some so) =
  (ResponseUtils.ok_response Gate2.GATE_NAME
     (Py.set (Gate2.build_data mp l) "supervisor"
        (VDict (Gate2._run_valuation_supervisor (Gate2.build_data mp l))))
     Gate2.inputs_used (Gate2.gate_confidence l) (Gate2.one_liner l)
     (if orb (String.eqb (Gate2.valuation_band l) "IMPAIRED")
             (String.eqb (Gate2.valuation_band l) "EXPENSIVE")
      then Some "VALUATION" else None)
     None, log).
Proof.
  intros Hso Hl.
  unfold Gate2.calculate_valuation_traced.
  cbn [Py.of_float ResponseUtils.missing_required_fields filter map snd fst Py.is_none].
  apply le_false in Hso. rewrite Hso.
  unfold Gate2.ttry_except, Gate2.try_block, Gate2.tbind.
  rewrite Hl. reflexivity.
Qed.

Lemma build_data_fields (mp : Q) (l : Gate2.locals) (sup : pyval) :
  let d := Py.set (Gate2.build_data mp l) "supervisor" sup in
  Py.get d "margin_of_safety" =
    match Gate2.margin_of_safety l with
    | Some m => VFloat (ResponseUtils.round_float m 4)
    | None => VNone
    end /\
  Py.get d "required_margin" = VFloat (ResponseUtils.round_float (Gate2.required_margin_used l) 4) /\
  Py.get d "pass" = VBool (Gate2.passes l) /\
  Py.get d "passes" = VBool (Gate2.passes l) /\
  Py.get d "valuation_band" = VStr (Gate2.valuation_band l) /\
  Py.get d "owner_earnings_source_used" = VStr (Gate2.owner_earnings_source l) /\
  Py.get d "owner_earnings" = VFloat (ResponseUtils.round_float (Gate2.owner_earnings l) 2) /\
  Py.get d "intrinsic_price" = VFloat (ResponseUtils.round_float (Gate2.intrinsic_price l) 2).
Proof. repeat split. Qed.


Lemma valuation_policy_cases (nd : Q) :
  ((nd <= 0)%Q ->
     Gate2.valuation_policy nd =
       ((Gate2.VALUATION_MULTIPLE + 2.0)%Q, Py.max 0.20 (Gate2.REQUIRED_MARGIN - 0.05))) /\
  ((0 < nd)%Q ->
     Gate2.valuation_policy nd = (Gate2.VALUATION_MULTIPLE, Gate2.REQUIRED_MARGIN)).
Proof.
  unfold Gate2.valuation_policy. by_cases_le nd 0%Q; split; intros; try reflexivity; lra.
Qed.

End Gate2Facts.

(** ** Claims on the valuation gate *)

Section Gate2Claims.
Context {R : Runtime}.


(** C3.  For present inputs with a positive share count the computation
    raises nothing and its locals satisfy: [owner_earnings] is [net_income]
    when [free_cashflow] is null and the minimum of the two otherwise, with
    the source recorded (also in the envelope); [net_debt = total_debt - cash];
    for [net_debt <= 0] the multiple used is the base multiple plus 2.0, the
    required margin is [max(0.20, base - 0.05)] and [effective_net_debt] is 0;
    for [net_debt > 0] the base values are used unchanged and
    [effective_net_debt = net_debt]; these are the values the intrinsic
    equity is computed from. *)
Theorem C3_owner_earnings_and_policy (mp ni td ca so : Q) (fcf : option Q) :
  (0 < so)%Q ->
  exists l log,
    Gate2.compute_locals (Some mp) (Some ni) fcf (Some td) (Some ca) (Some so) [] = (inr l, log) /\
    (fcf = None ->
       Gate2.owner_earnings l = ni /\ Gate2.owner_earnings_source l = "NET_INCOME") /\
    (forall f, fcf = Some f ->
       (Gate2.owner_earnings l == Qmin ni f)%Q /\
       (Gate2.owner_earnings l = ni \/ Gate2.owner_earnings l = f) /\
       ((ni <= f)%Q -> Gate2.owner_earnings_source l = "NET_INCOME") /\
       ((f < ni)%Q -> Gate2.owner_earnings_source l = "FREE_CASH_FLOW")) /\
    Envelope.field
      (Gate2.calculate_valuation (Some mp) (Some ni) fcf (Some td) (Some ca) (Some so))
      "owner_earnings_source_used" = VStr (Gate2.owner_earnings_source l) /\
    Gate2.net_debt l = (td - ca)%Q /\
    ((Gate2.net_debt l <= 0)%Q ->
       Gate2.multiple_used l = (Gate2.VALUATION_MULTIPLE + 2.0)%Q /\
       (Gate2.required_margin_used l == Qmax 0.20 (Gate2.REQUIRED_MARGIN - 0.05))%Q /\
       (Gate2.effective_net_debt l == 0)%Q) /\
    ((0 < Gate2.net_debt l)%Q ->
       Gate2.multiple_used l = Gate2.VALUATION_MULTIPLE /\
       Gate2.required_margin_used l = Gate2.REQUIRED_MARGIN /\
       Gate2.effective_net_debt l = Gate2.net_debt l) /\
    Gate2.intrinsic_equity l =
      (Gate2.owner_earnings l * Gate2.multiple_used l - Gate2.effective_net_debt l)%Q.
Proof.
  intros Hso.
  destruct (compute_locals_value mp ni td ca so fcf Hso)
    as (l & log & Hl & Hoe & Hsrc & Hnd & Hmult & Hreq & Heff & Heq & _).
  exists l, log. split; [exact Hl|].
  destruct (valuation_policy_cases (td - ca)) as (Pneg & Ppos).
  repeat split.
  - subst fcf. exact Hoe.
  - subst fcf. exact Hsrc.
  - subst fcf. rewrite Hoe. apply min_is_Qmin.
  - subst fcf. rewrite Hoe. apply min_cases.
  - subst fcf. intro Hle. rewrite Hsrc. cbn. apply le_true in Hle. now rewrite Hle.
  - subst fcf. intro Hlt. rewrite Hsrc. cbn. apply le_false in Hlt. now rewrite Hlt.
  - unfold Gate2.calculate_valuation.
    rewrite (calculate_valuation_valid mp ni td ca so fcf l log Hso Hl).
    reflexivity.
  - exact Hnd.
  - rewrite Hmult, (Pneg ltac:(rewrite <- Hnd; assumption)). reflexivity.
  - rewrite Hreq, (Pneg ltac:(rewrite <- Hnd; assumption)). apply max_is_Qmax.
  - rewrite Heff. unfold Py.max. rewrite Hnd in H.
    by_cases_gt (td - ca)%Q 0.0%Q; [lra | reflexivity].
  - rewrite Hmult, (Ppos ltac:(rewrite <- Hnd; assumption)). reflexivity.
  - rewrite Hreq, (Ppos ltac:(rewrite <- Hnd; assumption)). reflexivity.
  - rewrite Heff, Hnd. unfold Py.max. rewrite Hnd in H.
    by_cases_gt (td - ca)%Q 0.0%Q; [reflexivity | lra].
  - rewrite Heq, Hoe, Hmult, Heff. reflexivity.
Qed.

(** C4.  For present inputs with a positive share count whose computed
    intrinsic price is not positive, the gate answers OK with
    [valuation_band = IMPAIRED], [pass = false] and [margin_of_safety = null],
    and the only division executed is the one by [shares_outstanding]: no
    division by the intrinsic price takes place.  Whatever the intrinsic
    price, every division the gate executes has a positive divisor. *)
Theorem C4_impaired_branch (mp ni td ca so : Q) (fcf : option Q) :
  (0 < so)%Q ->
  let out :=
    Gate2.calculate_valuation_traced (Some mp) (Some ni) fcf (Some td) (Some ca) (Some so) in
  fst out = Gate2.calculate_valuation (Some mp) (Some ni) fcf (Some td) (Some ca) (Some so) /\
  Forall (fun divisor => (0 < divisor)%Q) (snd out) /\
  ((Gate2.intrinsic_price_of ni fcf td ca so <= 0)%Q ->
     Envelope.status (fst out) = VStr "OK" /\
     Envelope.field (fst out) "valuation_band" = VStr "IMPAIRED" /\
     Envelope.field (fst out) "pass" = VBool false /\
     Envelope.field (fst out) "passes" = VBool false /\
     Envelope.field (fst out) "margin_of_safety" = VNone /\
     snd out = [so]).
Proof.
  intros Hso out.
  destruct (compute_locals_value mp ni td ca so fcf Hso)
    as (l & log & Hl & _ & _ & _ & _ & _ & _ & _ & _ & Himp & Hpos).
  unfold out. split; [reflexivity|].
  rewrite (calculate_valuation_valid mp ni td ca so fcf l log Hso Hl).
  cbn [fst snd]. split.
  - destruct (Qlt_le_dec 0 (Gate2.intrinsic_price_of ni fcf td ca so)) as [Hip|Hip].
    + destruct (Hpos Hip) as (_ & _ & _ & [-> | ->]); repeat constructor; assumption.
    + destruct (Himp Hip) as (_ & _ & _ & ->). repeat constructor; assumption.
  - intro Hip. destruct (Himp Hip) as (Hm & Hpass & Hband & Hlog).
    rewrite status_ok_response, !field_ok_response.
    destruct (build_data_fields mp l
                (VDict (Gate2._run_valuation_supervisor (Gate2.build_data mp l))))
      as (F1 & _ & F3 & F4 & F5 & _).
    rewrite F1, F3, F4, F5, Hm, Hpass, Hband, Hlog.
    repeat split.
Qed.

(** C5 (as amended).  [calculate_valuation] answers with an ERROR envelope
    exactly when a required input (market_price, net_income, total_debt, cash,
    shares_outstanding) is null or shares_outstanding is not positive.  A null
    required input gives the code VALUATION_MISSING_INPUTS and the envelope
    lists it among the missing inputs; otherwise a non-positive share count
    gives VALUATION_INVALID_SHARES.  Every ERROR envelope has empty data and
    confidence 0, and every other answer is an OK envelope. *)
Theorem C5_error_envelope (mp ni fcf td ca so : option Q) :
  let r := Gate2.calculate_valuation mp ni fcf td ca so in
  let missing := mp = None \/ ni = None \/ td = None \/ ca = None \/ so = None in
  let bad_shares := exists s, so = Some s /\ (s <= 0)%Q in
  (Envelope.status r = VStr "ERROR" <-> missing \/ bad_shares) /\
  (missing ->
     Envelope.error_code r = VStr "VALUATION_MISSING_INPUTS" /\
     Envelope.missing_inputs r =
       Py.str_list (ResponseUtils.missing_required_fields
         [ ("market_price", Py.of_float mp); ("net_income", Py.of_float ni);
           ("total_debt", Py.of_float td); ("cash", Py.of_float ca);
           ("shares_outstanding", Py.of_float so) ])) /\
  (~ missing -> bad_shares -> Envelope.error_code r = VStr "VALUATION_INVALID_SHARES") /\
  (Envelope.status r = VStr "ERROR" ->
     Py.get r "data" = VDict [] /\ Envelope.confidence r = VInt 0) /\
  (~ (missing \/ bad_shares) -> Envelope.status r = VStr "OK").
Proof.
  intros r missing bad_shares.
  assert (Hmiss : missing ->
    Envelope.status r = VStr "ERROR" /\
    Envelope.error_code r = VStr "VALUATION_MISSING_INPUTS" /\
    Envelope.missing_inputs r =
       Py.str_list (ResponseUtils.missing_required_fields
         [ ("market_price", Py.of_float mp); ("net_income", Py.of_float ni);
           ("total_debt", Py.of_float td); ("cash", Py.of_float ca);
           ("shares_outstanding", Py.of_float so) ]) /\
    Py.get r "data" = VDict [] /\ Envelope.confidence r = VInt 0).
  { unfold missing, r. intros H.
    destruct mp, ni, td, ca, so;
      try (exfalso; destruct H as [H|[H|[H|[H|H]]]]; discriminate);
      repeat split. }
  assert (Hbad : ~ missing -> bad_shares ->
    Envelope.status r = VStr "ERROR" /\
    Envelope.error_code r = VStr "VALUATION_INVALID_SHARES" /\
    Py.get r "data" = VDict [] /\ Envelope.confidence r = VInt 0).
  { unfold missing, bad_shares, r. intros Hn (s & Hs & Hle).
    destruct mp, ni, td, ca, so; try (exfalso; apply Hn; tauto).
    inversion Hs; subst s.
    unfold Gate2.calculate_valuation, Gate2.calculate_valuation_traced.
    cbn [Py.of_float ResponseUtils.missing_required_fields filter map snd fst Py.is_none].
    apply le_true in Hle. rewrite Hle. repeat split. }
  assert (Hok : ~ (missing \/ bad_shares) -> Envelope.status r = VStr "OK").
  { unfold missing, bad_shares, r. intros Hn.
    destruct mp as [mp|], ni as [ni|], td as [td|], ca as [ca|], so as [so|];
      try (exfalso; apply Hn; tauto).
    assert (Hso : (0 < so)%Q).
    { apply Qnot_le_lt. intro Hle. apply Hn. right. exists so. split; [reflexivity|exact Hle]. }
    destruct (compute_locals_value mp ni td ca so fcf Hso) as (l & log & Hl & _).
    unfold Gate2.calculate_valuation.
    now rewrite (calculate_valuation_valid mp ni td ca so fcf l log Hso Hl). }
  assert (Hdec : missing \/ ~ missing).
  { unfold missing. destruct mp, ni, td, ca, so; try (left; tauto).
    right. intros [H|[H|[H|[H|H]]]]; discriminate. }
  assert (Hdecb : bad_shares \/ ~ bad_shares).
  { unfold bad_shares. destruct so as [s|].
    - destruct (Qlt_le_dec 0 s) as [Hlt|Hle].
      + right. intros (s' & Hs & Hle). inversion Hs; subst. lra.
      + left. exists s. split; [reflexivity|exact Hle].
    - right. intros (s' & Hs & _). discriminate. }
  split; [split|split; [|split; [|split]]].
  - intro Herr. destruct Hdec as [Hm|Hnm]; [left; exact Hm|].
    destruct Hdecb as [Hb|Hnb]; [right; exact Hb|].
    exfalso. rewrite Hok in Herr by tauto. discriminate.
  - intros [Hm|Hb].
    + apply (Hmiss Hm).
    + destruct Hdec as [Hm|Hnm]; [apply (Hmiss Hm) | apply (Hbad Hnm Hb)].
  - intro Hm. split; apply (Hmiss Hm).
  - intros Hnm Hb. apply (Hbad Hnm Hb).
  - intro Herr. destruct Hdec as [Hm|Hnm]; [split; apply (Hmiss Hm)|].
    destruct Hdecb as [Hb|Hnb]; [split; apply (Hbad Hnm Hb)|].
    exfalso. rewrite Hok in Herr by tauto. discriminate.
  - exact Hok.
Qed.

End Gate2Claims.

(** *** Evaluated instances for the valuation gate (default configuration) *)



Lemma C3_owner_earnings_and_policy_witness :
  (0 < 10)%Q /\
  exists l log,
    Gate2.compute_locals (R := Concrete.runtime)
      (Some 5%Q) (Some 100%Q) (Some 80%Q) (Some 50%Q) (Some 70%Q) (Some 10%Q) [] = (inr l, log) /\
    (Gate2.owner_earnings l == 80)%Q /\
    (Gate2.net_debt l == -20)%Q /\
    (Gate2.effective_net_debt l == 0)%Q.
Proof.
  assert (H1 : (0 < 10)%Q) by reflexivity.
  split; [exact H1|].
  destruct (C3_owner_earnings_and_policy (R := Concrete.runtime) 5 100 50 70 10 (Some 80%Q) H1)
    as (l & log & Hl & _ & Hoe & _ & Hnd & Hneg & _).
  exists l, log. split; [exact Hl|].
  destruct (Hoe 80%Q eq_refl) as (Hmin & _).
  assert (Hnd' : (Gate2.net_debt l <= 0)%Q) by (rewrite Hnd; vm_compute; discriminate).
  destruct (Hneg Hnd') as (_ & _ & Heff).
  split; [|split].
  - rewrite Hmin. vm_compute. reflexivity.
  - rewrite Hnd. vm_compute. reflexivity.
  - exact Heff.
Defined.

Lemma C4_impaired_branch_witness :
  (0 < 2)%Q /\
  (Gate2.intrinsic_price_of (R := Concrete.runtime) (-20) None 100 0 2 <= 0)%Q /\
  let out := Gate2.calculate_valuation_traced (R := Concrete.runtime)
               (Some 5%Q) (Some (-20)%Q) None (Some 100%Q) (Some 0%Q) (Some 2%Q) in
  Envelope.field (fst out) "valuation_band" = VStr "IMPAIRED" /\
  Envelope.field (fst out) "margin_of_safety" = VNone /\
  snd out = [2%Q].
Proof.
  assert (H1 : (0 < 2)%Q) by reflexivity.
  assert (H2 : (Gate2.intrinsic_price_of (R := Concrete.runtime) (-20) None 100 0 2 <= 0)%Q)
    by (vm_compute; discriminate).
  split; [exact H1|]. split; [exact H2|].
  destruct (C4_impaired_branch (R := Concrete.runtime) 5 (-20) 100 0 2 None H1)
    as (_ & _ & Himp).
  destruct (Himp H2) as (_ & Hband & _ & _ & Hmos & Hlog).
  split; [exact Hband|]. split; [exact Hmos|exact Hlog].
Defined.

(** The claim as stated fails: with a null market price (and a share count
    of zero) the error code is VALUATION_MISSING_INPUTS, which is neither of
    the two codes the claim names. *)
Lemma C5_counterexample :
  let r := Gate2.calculate_valuation (R := Concrete.runtime)
             None (Some 20%Q) None (Some 100%Q) (Some 0%Q) (Some 0%Q) in
  Envelope.status r = VStr "ERROR" /\
  Envelope.error_code r = VStr "VALUATION_MISSING_INPUTS" /\
  Envelope.error_code r <> VStr "MISSING_INPUTS" /\
  Envelope.error_code r <> VStr "INVALID_SHARES".
Proof.
  vm_compute. repeat split; discriminate.
Qed.

(** ** Rounding keeps integer bounds *)

Lemma round_half_even_bounds (y : Q) (lo hi : Z) :
  (inject_Z lo <= y)%Q -> (y <= inject_Z hi)%Q ->
  lo <= Py.round_half_even y <= hi.
Proof.
  destruct y as [n d]. unfold Qle, inject_Z, Py.round_half_even. cbn [Qnum Qden].
  intros Hlo Hhi.
  assert (Hd : 0 < Z.pos d) by reflexivity.
  pose proof (Z.div_mod n (Z.pos d) ltac:(lia)) as Hdm.
  pose proof (Z.mod_pos_bound n (Z.pos d) Hd) as Hm.
  set (fl := n / Z.pos d) in *. set (rm := n mod Z.pos d) in *.
  assert (Hfl_lo : lo <= fl) by nia.
  assert (Hfl_hi : fl <= hi) by nia.
  destruct (2 * rm ?= Z.pos d) eqn:E.
  - apply Z.compare_eq in E. destruct (Z.even fl); [lia|]. split; [lia|]. nia.
  - lia.
  - apply Z.compare_gt_iff in E. split; [lia|]. nia.
Qed.

Lemma pow10_pos (digits : nat) : (0 < Py.pow10 digits)%Q.
Proof.
  unfold Py.pow10, Qlt, inject_Z. cbn [Qnum Qden].
  pose proof (Z.pow_pos_nonneg 10 (Z.of_nat digits) ltac:(lia) ltac:(lia)). lia.
Qed.

Lemma round_bounds (x : Q) (digits : nat) (lo hi : Z) :
  (inject_Z lo <= x)%Q -> (x <= inject_Z hi)%Q ->
  (inject_Z lo <= Py.round x digits)%Q /\ (Py.round x digits <= inject_Z hi)%Q.
Proof.
  intros Hlo Hhi. unfold Py.round. rewrite Qred_correct.
  pose proof (pow10_pos digits) as Hp.
  set (p := 10 ^ Z.of_nat digits).
  assert (Hpz : 0 < p) by (apply Z.pow_pos_nonneg; lia).
  assert (Hpq : Py.pow10 digits = inject_Z p) by reflexivity.
  destruct (round_half_even_bounds (x * Py.pow10 digits) (lo * p) (hi * p)) as [H1 H2].
  - rewrite inject_Z_mult, <- Hpq. apply Qmult_le_compat_r; lra.
  - rewrite inject_Z_mult, <- Hpq. apply Qmult_le_compat_r; lra.
  - set (k := Py.round_half_even (x * Py.pow10 digits)) in *.
    rewrite Hpq. split.
    + apply Qle_shift_div_l; [rewrite <- Hpq; exact Hp|].
      rewrite <- inject_Z_mult. rewrite <- Zle_Qle. exact H1.
    + apply Qle_shift_div_r; [rewrite <- Hpq; exact Hp|].
      rewrite <- inject_Z_mult. rewrite <- Zle_Qle. exact H2.
Qed.

(** ** Gate 5 *)

Section Gate5Facts.
Context {R : Runtime}.

Lemma valid_credit_stress_cases (s : string) :
  Py.mem s Gate5.VALID_CREDIT_STRESS = true -> s = "LOW" \/ s = "MEDIUM" \/ s = "HIGH".
Proof.
  unfold Py.mem, Gate5.VALID_CREDIT_STRESS. cbn [existsb].
  rewrite !orb_true_iff, !String.eqb_eq. intuition discriminate.
Qed.

Lemma macro_factor_defined (ir : Q) (s : string) :
  Py.mem s Gate5.VALID_CREDIT_STRESS = true ->
  exists fm, Gate5._macro_factor ir s = ret fm /\ (0.70 <= fm)%Q /\ (fm <= 1)%Q.
Proof.
  intro H. unfold Gate5._macro_factor.
  destruct (valid_credit_stress_cases s H) as [-> | [-> | ->]]; cbn [Py.lookup String.eqb Ascii.eqb Bool.eqb bind ret];
    eexists; (split; [reflexivity|]);
    unfold Py.min;
    by_cases_le ir 0.03%Q; try by_cases_le ir 0.05%Q; try by_cases_le ir 0.07%Q;
    vm_compute; split; discriminate.
Qed.




Lemma binding_constraint_first_minimum (fv fd fc fm : Q) :
  exists b,
    Gate5._binding_constraint
      [ ("VOLATILITY", fv); ("DRAWDOWN", fd); ("CORRELATION", fc); ("MACRO", fm) ] = ret b /\
    first_minimum b fv fd fc fm.
Proof.
  unfold Gate5._binding_constraint, Py.min_of, first_minimum.
  cbn [map snd fold_left bind ret Gate5.first_at_minimum Py.lookup String.eqb Ascii.eqb Bool.eqb].
  set (m := Py.min (Py.min (Py.min fv fd) fc) fm).
  assert (Hm : (m <= fv)%Q /\ (m <= fd)%Q /\ (m <= fc)%Q /\ (m <= fm)%Q /\
               (m == fv \/ m == fd \/ m == fc \/ m == fm)%Q).
  { unfold m, Py.min.
    by_cases_lt fd fv; [by_cases_lt fc fd | by_cases_lt fc fv];
      match goal with |- context [Py.lt fm ?x] => by_cases_lt fm x end;
      repeat split; try lra; auto using Qeq_refl.
    all: first [ left; reflexivity | right; left; reflexivity
               | right; right; left; reflexivity | right; right; right; reflexivity ]. }
  destruct Hm as (H1 & H2 & H3 & H4 & H5).
  by_cases_eq fv m.
  { exists "VOLATILITY". split; [reflexivity|]. left. repeat split; lra. }
  by_cases_eq fd m.
  { exists "DRAWDOWN". split; [reflexivity|]. right; left. repeat split; lra. }
  by_cases_eq fc m.
  { exists "CORRELATION". split; [reflexivity|]. right; right; left. repeat split; lra. }
  exists "MACRO".
  assert (Hfm : (m == fm)%Q).
  { destruct H5 as [H5|[H5|[H5|H5]]]; try exact H5; exfalso;
      [apply E | apply E0 | apply E1]; symmetry; exact H5. }
  by_cases_eq fm m.
  - split; [reflexivity|]. right; right; right. repeat split; lra.
  - exfalso. apply E2. symmetry. exact Hfm.
Qed.

Lemma first_minimum_name (b : string) (fv fd fc fm : Q) :
  first_minimum b fv fd fc fm ->
  b = "VOLATILITY" \/ b = "DRAWDOWN" \/ b = "CORRELATION" \/ b = "MACRO".
Proof. unfold first_minimum. intuition. Qed.

Lemma mechanical_explanation_defined (b : string) :
  b = "VOLATILITY" \/ b = "DRAWDOWN" \/ b = "CORRELATION" \/ b = "MACRO" ->
  exists e, Gate5._mechanical_explanation b = ret e.
Proof.
  intros [-> | [-> | [-> | ->]]]; eexists; reflexivity.
Qed.

End Gate5Facts.

Section Gate5Claims.
Context {R : Runtime}.

(** The computation path: every input present, a recognised credit stress
    and an interest rate of at most 1.0. *)
Lemma calculate_position_size_valid (vol dd ir corr : Q) (cs : string) :
  Py.mem (Py.upper cs) Gate5.VALID_CREDIT_STRESS = true ->
  (ir <= 1)%Q ->
  let fv := Gate5._volatility_factor vol in
  let fd := Gate5._drawdown_factor dd in
  let fc := Gate5._correlation_factor corr in
  let r := Gate5.calculate_position_size (Some vol) (Some dd) (Some ir) (Some cs) (Some corr)
             false in
  exists fm b,
    Gate5._macro_factor ir (Py.upper cs) = ret fm /\
    (0.70 <= fm)%Q /\ (fm <= 1)%Q /\
    first_minimum b fv fd fc fm /\
    Envelope.status r = VStr "OK" /\
    Envelope.field r "maximum_position_size" =
      VFloat (ResponseUtils.round_float
                (Py.max 1.0 (Py.min (10.0 * fv * fd * fc * fm) 10.0)) 1) /\
    Envelope.field r "binding_constraint" = VStr b /\
    Envelope.field r "factors" =
      VDict [ ("VOLATILITY", VFloat fv); ("DRAWDOWN", VFloat fd);
              ("CORRELATION", VFloat fc); ("MACRO", VFloat fm) ].
Proof.
  intros Hmem Hir fv fd fc r.
  destruct (macro_factor_defined ir (Py.upper cs) Hmem) as (fm & Hfm & Hfm1 & Hfm2).
  destruct (binding_constraint_first_minimum fv fd fc fm) as (b & Hb & Hmin).
  destruct (mechanical_explanation_defined b (first_minimum_name _ _ _ _ _ Hmin)) as (e & He).
  exists fm, b.
  split; [exact Hfm|]. split; [exact Hfm1|]. split; [exact Hfm2|]. split; [exact Hmin|].
  unfold r, Gate5.calculate_position_size.
  cbn [Py.of_float Py.of_str ResponseUtils.missing_required_fields filter map snd fst Py.is_none].
  unfold Gate5.try_block.
  cbn [PyRt.str Py.of_str PyRt.float_opt bind ret].
  rewrite Hmem. cbn [negb].
  assert (Hgt : Py.gt ir 1.0 = false) by (apply gt_false; lra).
  rewrite Hgt.
  rewrite Hfm, bind_ret. cbv beta.
  fold fv fd fc. rewrite Hb, bind_ret. cbv beta. rewrite He, bind_ret. cbv beta.
  unfold ret at 1. cbn [try_except].
  destruct (Gate5._run_sizing_agent _ _ _ _ _ _ _ _) as [[|kv overlay]|];
    repeat split.
Qed.

Lemma clamp_bounds (prod : Q) :
  let size := Py.max 1.0 (Py.min prod 10.0) in
  (1 <= size)%Q /\ (size <= 10)%Q /\
  (1 <= ResponseUtils.round_float size 1)%Q /\ (ResponseUtils.round_float size 1 <= 10)%Q.
Proof.
  intro size.
  assert (Hlo : (1 <= size)%Q).
  { pose proof (max_ge_l 1.0 (Py.min prod 10.0)) as H.
    assert (E1 : (1.0 == 1)%Q) by reflexivity. unfold size. lra. }
  assert (Hhi : (size <= 10)%Q).
  { pose proof (min_le_r prod 10.0) as H.
    assert (E2 : (10.0 == 10)%Q) by reflexivity. unfold size.
    destruct (max_cases 1.0 (Py.min prod 10.0)) as [-> | ->]; [vm_compute; discriminate | lra]. }
  destruct (round_bounds size 1 1 10 Hlo Hhi) as [Hr1 Hr2].
  repeat split; assumption.
Qed.



(** C7.  [calculate_position_size] answers SKIPPED with a null
    [maximum_position_size] exactly when [upstream_reject] is set, or a
    required input is absent, or the credit stress (upper-cased, as the gate
    normalises it) is not LOW, MEDIUM or HIGH, or the interest rate exceeds
    1.0.  With [upstream_reject] set the answer is the same fixed envelope
    whatever the other inputs are; in every other case the answer is an OK
    envelope with a number as [maximum_position_size]. *)
Theorem C7_skipped_iff (vol dd ir : option Q) (cs : option string) (corr : option Q)
    (upstream_reject : bool) :
  let r := Gate5.calculate_position_size vol dd ir cs corr upstream_reject in
  let absent := vol = None \/ dd = None \/ ir = None \/ cs = None \/ corr = None in
  let invalid_credit :=
    exists s, cs = Some s /\ Py.mem (Py.upper s) Gate5.VALID_CREDIT_STRESS = false in
  let rate_above_one := exists x, ir = Some x /\ (1 < x)%Q in
  let skip := upstream_reject = true \/ absent \/ invalid_credit \/ rate_above_one in
  ((Envelope.status r = VStr "SKIPPED" /\ Envelope.field r "maximum_position_size" = VNone)
     <-> skip) /\
  (upstream_reject = true ->
     r = ResponseUtils.skipped_response Gate5.GATE_NAME
           (Gate5.skipped_data "Valuation gate failed — position sizing not applicable.")
           Gate5.inputs_used "Valuation gate failed — position sizing not applicable."
           None (Some "NOT_APPLICABLE")) /\
  (~ skip ->
     Envelope.status r = VStr "OK" /\
     exists q, Envelope.field r "maximum_position_size" = VFloat q /\
               (1 <= q)%Q /\ (q <= 10)%Q).
Proof.
  intros r absent invalid_credit rate_above_one skip.
  assert (Hup : upstream_reject = true ->
     r = ResponseUtils.skipped_response Gate5.GATE_NAME
           (Gate5.skipped_data "Valuation gate failed — position sizing not applicable.")
           Gate5.inputs_used "Valuation gate failed — position sizing not applicable."
           None (Some "NOT_APPLICABLE")).
  { intro H. unfold r. rewrite H. reflexivity. }
  assert (Hskip : skip ->
     Envelope.status r = VStr "SKIPPED" /\ Envelope.field r "maximum_position_size" = VNone).
  { unfold skip, absent, invalid_credit, rate_above_one, r.
    destruct upstream_reject; [intros _; split; reflexivity|].
    intros [Hf | H]; [discriminate|].
    destruct vol as [vol|], dd as [dd|], ir as [ir|], cs as [cs|], corr as [corr|];
      try (split; reflexivity).
    destruct H as [H | H];
      [exfalso; destruct H as [H|[H|[H|[H|H]]]]; discriminate|].
    unfold Gate5.calculate_position_size.
    cbn [Py.of_float Py.of_str ResponseUtils.missing_required_fields filter map snd fst
         Py.is_none].
    unfold Gate5.try_block. cbn [PyRt.str Py.of_str PyRt.float_opt bind ret].
    destruct (Py.mem (Py.upper cs) Gate5.VALID_CREDIT_STRESS) eqn:Emem;
      cbn [negb try_except ret]; [|split; reflexivity].
    destruct H as [(s & Hs & Hbad) | (x & Hx & Hgt)].
    - inversion Hs; subst s. congruence.
    - inversion Hx; subst x.
      assert (Hgt' : Py.gt ir 1.0 = true) by (apply gt_true; lra).
      rewrite Hgt'. split; reflexivity. }
  assert (Hok : ~ skip ->
     Envelope.status r = VStr "OK" /\
     exists q, Envelope.field r "maximum_position_size" = VFloat q /\
               (1 <= q)%Q /\ (q <= 10)%Q).
  { unfold skip, absent, invalid_credit, rate_above_one, r. intro Hn.
    destruct upstream_reject; [exfalso; apply Hn; left; reflexivity|].
    destruct vol as [vol|], dd as [dd|], ir as [ir|], cs as [cs|], corr as [corr|];
      try (exfalso; apply Hn; right; left; tauto).
    assert (Hmem : Py.mem (Py.upper cs) Gate5.VALID_CREDIT_STRESS = true).
    { destruct (Py.mem (Py.upper cs) Gate5.VALID_CREDIT_STRESS) eqn:E; [reflexivity|].
      exfalso. apply Hn. right; right; left. exists cs. split; [reflexivity|exact E]. }
    assert (Hir : (ir <= 1)%Q).
    { apply Qnot_lt_le. intro Hlt. apply Hn. right; right; right.
      exists ir. split; [reflexivity|exact Hlt]. }
    destruct (calculate_position_size_valid vol dd ir corr cs Hmem Hir)
      as (fm & b & _ & _ & _ & _ & Hs & Hsz & _).
    split; [exact Hs|]. eexists. split; [exact Hsz|].
    destruct (clamp_bounds (10.0 * Gate5._volatility_factor vol * Gate5._drawdown_factor dd
                            * Gate5._correlation_factor corr * fm))
      as (_ & _ & Hr1 & Hr2).
    split; assumption. }
  split; [split|split].
  - intros Hsk.
    assert (Hdec : skip \/ ~ skip).
    { unfold skip, absent, invalid_credit, rate_above_one.
      destruct upstream_reject; [left; left; reflexivity|].
      destruct vol as [vol|], dd as [dd|], ir as [ir|], cs as [cs|], corr as [corr|];
        try (left; right; left; tauto).
      destruct (Py.mem (Py.upper cs) Gate5.VALID_CREDIT_STRESS) eqn:E.
      - destruct (Qlt_le_dec 1 ir) as [Hlt|Hle].
        + left. right; right; right. exists ir. split; [reflexivity|exact Hlt].
        + right. intros [Hf|[Ha|[(s & Hs & Hb)|(x & Hx & Hgt)]]].
          * discriminate.
          * destruct Ha as [H|[H|[H|[H|H]]]]; discriminate.
          * inversion Hs; subst s. congruence.
          * inversion Hx; subst x. lra.
      - left. right; right; left. exists cs. split; [reflexivity|exact E]. }
    destruct Hdec as [Hy|Hno]; [exact Hy|].
    exfalso. destruct (Hok Hno) as [Hs _]. destruct Hsk as [Hsk _].
    rewrite Hs in Hsk. discriminate.
  - exact Hskip.
  - exact Hup.
  - exact Hok.
Qed.

End Gate5Claims.

(** *** Evaluated instances for the sizing gate *)



(** ** Gate 6 *)

Section Gate6Facts.
Context {R : Runtime}.

Lemma is_none_false (v : pyval) : v <> VNone -> Py.is_none v = false.
Proof. destruct v; intro H; try reflexivity. contradiction. Qed.

Lemma is_none_true (v : pyval) : Py.is_none v = true <-> v = VNone.
Proof. destruct v; split; intro H; try reflexivity; discriminate. Qed.

Lemma truthy_or (a b : pyval) : Py.truthy (Py.or_ a b) = orb (Py.truthy a) (Py.truthy b).
Proof. unfold Py.or_. destruct (Py.truthy a) eqn:E; [exact E | reflexivity]. Qed.

Lemma float_of_number (v : pyval) :
  Py.is_int_or_float v = true -> exists q, PyRt.float v = ret q.
Proof. destruct v; intro H; try discriminate; eexists; reflexivity. Qed.

Lemma any_missing_dicts (diags : list pyval) :
  Forall (fun d => Py.is_dict d = true) diags ->
  Gate6.any_missing diags = ret (existsb Signals.reports_missing diags).
Proof.
  induction 1 as [|d ds Hd _ IH]; [reflexivity|].
  destruct d; try discriminate.
  cbn [Gate6.any_missing Py.attr_get existsb Signals.reports_missing].
  rewrite bind_ret. destruct (Py.truthy _); [reflexivity | exact IH].
Qed.

Lemma executive_summary_defined (verdict : string) bs vp band mos risk reason market :
  verdict = "INVEST" \/ verdict = "WATCH" \/ verdict = "REJECT" ->
  exists s, Gate6._build_executive_summary verdict bs vp band mos risk reason market = ret s.
Proof.
  intros [-> | [-> | ->]]; unfold Gate6._build_executive_summary;
    cbn [Py.lookup String.eqb Ascii.eqb Bool.eqb]; rewrite bind_ret; eexists; reflexivity.
Qed.

Lemma first_match_verdict (vp : bool) (risk verdict label : string) :
  first_match vp risk verdict label ->
  verdict = "INVEST" \/ verdict = "WATCH" \/ verdict = "REJECT".
Proof. unfold first_match. intuition. Qed.

Lemma first_match_functional (vp : bool) (risk v1 l1 v2 l2 : string) :
  first_match vp risk v1 l1 -> first_match vp risk v2 l2 -> v1 = v2 /\ l1 = l2.
Proof.
  unfold first_match.
  intros [H1|[H1|[H1|[H1|H1]]]] [H2|[H2|[H2|[H2|H2]]]];
    decompose [and] H1; decompose [and] H2; subst; try (split; reflexivity);
    try congruence; try discriminate.
Qed.

Lemma optional_attr_defined (g1 : pyval) (k : string) :
  g1 = VNone \/ Py.is_dict g1 = true ->
  exists v, (if Py.truthy g1 then Py.attr_get g1 k VNone else ret VNone) = ret v.
Proof.
  intros [-> | H]; [eexists; reflexivity|].
  destruct g1; try discriminate. destruct (Py.truthy (VDict d)); eexists; reflexivity.
Qed.

Lemma investment_stance_defined (verdict : string) :
  verdict = "INVEST" \/ verdict = "WATCH" \/ verdict = "REJECT" ->
  exists s,
    Py.lookup verdict
      [ ("INVEST", "Valuation discipline met with acceptable impairment risk");
        ("WATCH", "Valuation/risk signals are incomplete or mixed");
        ("REJECT", "Valuation or impairment discipline not met") ] = ret s.
Proof. intros [-> | [-> | ->]]; eexists; reflexivity. Qed.

Lemma try_block_accepted (d2 d3 d4 d5 : dict) (diag2 diag3 diag4 diag5 : pyval)
    (s5 : string) (g1 : pyval) :
  match Py.get d2 "margin_of_safety" with
  | VNone | VBool _ | VInt _ | VFloat _ => True
  | _ => False
  end ->
  Forall (fun d => Py.is_dict d = true) [diag2; diag3; diag4; diag5] ->
  (g1 = VNone \/ Py.is_dict g1 = true) ->
  exists result verdict label,
    Gate6.try_block d2 d3 d4 d5 diag2 diag3 diag4 diag5 s5 g1 =
      ret (ResponseUtils.ok_response Gate6.GATE_NAME result Gate6.inputs_used
             (Gate6._deterministic_confidence
                (match Py.get d2 "margin_of_safety" with
                 | VBool b => Some (if b then 1%Q else 0%Q)
                 | VInt z => Some (inject_Z z)
                 | VFloat q => Some q
                 | _ => None
                 end)
                (Py.upper (PyRt.str (Py.get_or d4 "risk_level" (VStr "UNDETERMINED"))))
                (Py.upper (PyRt.str (Py.get_or d3 "classification" (VStr "NO_RELEVANT_DATA_FOUND"))))
                (existsb Signals.reports_missing [diag2; diag3; diag4; diag5]))
             (verdict ++ " — " ++ label) None None) /\
    first_match (Py.truthy (Py.or_ (Py.get d2 "pass") (Py.get d2 "passes")))
      (Py.upper (PyRt.str (Py.get_or d4 "risk_level" (VStr "UNDETERMINED")))) verdict label /\
    Py.get result "verdict" = VStr verdict /\
    Py.get result "setup_label" = VStr label /\
    Py.get result "confidence" =
      VInt (Gate6._deterministic_confidence
              (match Py.get d2 "margin_of_safety" with
               | VBool b => Some (if b then 1%Q else 0%Q)
               | VInt z => Some (inject_Z z)
               | VFloat q => Some q
               | _ => None
               end)
              (Py.upper (PyRt.str (Py.get_or d4 "risk_level" (VStr "UNDETERMINED"))))
              (Py.upper (PyRt.str (Py.get_or d3 "classification" (VStr "NO_RELEVANT_DATA_FOUND"))))
              (existsb Signals.reports_missing [diag2; diag3; diag4; diag5])) /\
    Py.get result "market_classification" =
      VStr (Py.upper (PyRt.str (Py.get_or d3 "classification" (VStr "NO_RELEVANT_DATA_FOUND")))) /\
    Py.get result "risk_notes" =
      VStr (Py.join " | "
        [ "Valuation band: "
            ++ Py.upper (PyRt.str (Py.get_or d2 "valuation_band" (VStr "UNKNOWN")));
          "Impairment risk: "
            ++ Py.upper (PyRt.str (Py.get_or d4 "risk_level" (VStr "UNDETERMINED")));
          "Market structure: "
            ++ Py.upper (PyRt.str (Py.get_or d3 "classification"
                                     (VStr "NO_RELEVANT_DATA_FOUND"))) ]).
Proof.
  intros Hm Hd Hg1.
  unfold Gate6.try_block.
  set (vp := Py.truthy (Py.or_ (Py.get d2 "pass") (Py.get d2 "passes"))).
  set (risk := Py.upper (PyRt.str (Py.get_or d4 "risk_level" (VStr "UNDETERMINED")))).
  set (market := Py.upper (PyRt.str (Py.get_or d3 "classification" (VStr "NO_RELEVANT_DATA_FOUND")))).
  set (band := Py.upper (PyRt.str (Py.get_or d2 "valuation_band" (VStr "UNKNOWN")))).
  set (skipped := orb (String.eqb s5 "SKIPPED")
                      (String.eqb (Py.upper (PyRt.str (Py.get_or d5 "status" (VStr "")))) "SKIPPED")).
  set (mos := match Py.get d2 "margin_of_safety" with
              | VBool b => Some (if b then 1%Q else 0%Q)
              | VInt z => Some (inject_Z z)
              | VFloat q => Some q
              | _ => None
              end).
  assert (Hmos :
    (if Py.is_none (Py.get d2 "margin_of_safety") then ret None
     else bind (PyRt.float (Py.get d2 "margin_of_safety")) (fun m => ret (Some m))) = ret mos).
  { unfold mos. destruct (Py.get d2 "margin_of_safety"); try contradiction; reflexivity. }
  rewrite Hmos, bind_ret. cbv beta.
  destruct (if negb vp then ("REJECT", "Valuation discipline breached")
            else if String.eqb risk "HIGH" then ("REJECT", "Impairment risk elevated")
            else if String.eqb risk "UNDETERMINED" then ("WATCH", "Impairment unresolved")
            else if String.eqb risk "LOW" then ("INVEST", "Risk acceptable")
            else ("WATCH", "Risk moderate")) as [verdict label] eqn:Echain.
  assert (Hfm : first_match vp risk verdict label).
  { unfold first_match. destruct vp; cbn [negb] in Echain.
    - destruct (String.eqb risk "HIGH") eqn:E1;
        [apply String.eqb_eq in E1; inversion Echain; subst; right; left; auto|].
      destruct (String.eqb risk "UNDETERMINED") eqn:E2;
        [apply String.eqb_eq in E2; inversion Echain; subst; right; right; left; auto|].
      destruct (String.eqb risk "LOW") eqn:E3;
        [apply String.eqb_eq in E3; inversion Echain; subst; right; right; right; left; auto|].
      apply String.eqb_neq in E1, E2, E3. inversion Echain; subst.
      right; right; right; right. auto 10.
    - inversion Echain; subst. left. auto. }
  rewrite (any_missing_dicts _ Hd), bind_ret. cbv beta.
  set (missing := existsb Signals.reports_missing [diag2; diag3; diag4; diag5]).
  destruct (optional_attr_defined g1 "business_summary" Hg1) as [bs Hbs].
  destruct (optional_attr_defined g1 "business_complexity" Hg1) as [bc Hbc].
  rewrite Hbs, bind_ret. cbv beta. rewrite Hbc, bind_ret. cbv beta.
  destruct (executive_summary_defined verdict bs vp band mos risk
              (PyRt.str (Py.get_or d4 "reason" (Py.get_or d4 "reasoning" (VStr ""))))
              market (first_match_verdict _ _ _ _ Hfm)) as [summary Hsum].
  rewrite Hsum, bind_ret. cbv beta.
  destruct (investment_stance_defined verdict (first_match_verdict _ _ _ _ Hfm)) as [stance Hst].
  destruct skipped.
  - rewrite bind_ret. cbv beta. rewrite Hst, bind_ret. cbv beta.
    rewrite andb_false_r. cbn [negb andb]. rewrite bind_ret. cbv beta.
    eexists; exists verdict, label. split; [reflexivity|]. split; [exact Hfm|].
    repeat split.
  - cbn [negb andb]. destruct (Py.is_int_or_float (Py.get d5 "maximum_position_size")) eqn:Enum.
    + destruct (float_of_number _ Enum) as [q Hq]. rewrite Hq, !bind_ret. cbv beta.
      rewrite Hst, bind_ret. cbv beta. rewrite andb_true_r.
      destruct (String.eqb verdict "INVEST"); rewrite ?bind_ret; cbv beta;
        (eexists; exists verdict, label; split; [reflexivity|]; split; [exact Hfm|];
         repeat split).
    + rewrite bind_ret. cbv beta. rewrite Hst, bind_ret. cbv beta.
      rewrite andb_false_r. rewrite bind_ret. cbv beta.
      eexists; exists verdict, label. split; [reflexivity|]. split; [exact Hfm|].
      repeat split.
Qed.

Lemma extract_parts_eta (payload : dict) :
  Gate6._extract_gate_parts payload =
  (Signals.data_part payload, Signals.diag_part payload,
   snd (Gate6._extract_gate_parts payload)).
Proof.
  unfold Signals.data_part, Signals.diag_part.
  destruct (Gate6._extract_gate_parts payload) as [[d g] s]. reflexivity.
Qed.

(** The list of missing required fields, by cases on the three signals. *)
Lemma missing_fields_none (v3 v4 p ps : pyval) :
  v3 <> VNone -> v4 <> VNone -> ~ (p = VNone /\ ps = VNone) ->
  ResponseUtils.missing_required_fields
    (if andb (Py.is_none p) (Py.is_none ps)
     then Py.set [ ("gate3_output.classification", v3); ("gate4_output.risk_level", v4) ]
            "gate2_output.pass" VNone
     else [ ("gate3_output.classification", v3); ("gate4_output.risk_level", v4) ]) = [].
Proof.
  intros H3 H4 Hp.
  assert (E : andb (Py.is_none p) (Py.is_none ps) = false).
  { destruct (Py.is_none p) eqn:E1; [|reflexivity].
    destruct (Py.is_none ps) eqn:E2; [|reflexivity].
    exfalso. apply Hp. split; apply is_none_true; assumption. }
  rewrite E. unfold ResponseUtils.missing_required_fields. cbn [filter snd].
  rewrite (is_none_false _ H3), (is_none_false _ H4). reflexivity.
Qed.

Lemma aggregate_verdict_accepted (g2 g3 g4 g5 : dict) (g1 : pyval) :
  Signals.accepted g2 g3 g4 ->
  Signals.well_formed g2 g3 g4 g5 g1 ->
  let r := Gate6.aggregate_verdict g2 g3 g4 g5 g1 in
  exists verdict label,
    first_match (Signals.valuation_pass g2) (Signals.impairment_risk g4) verdict label /\
    Envelope.status r = VStr "OK" /\
    Envelope.field r "verdict" = VStr verdict /\
    Envelope.field r "setup_label" = VStr label /\
    Envelope.field r "confidence" =
      VInt (Gate6._deterministic_confidence (Signals.margin_value g2)
              (Signals.impairment_risk g4) (Signals.market_classification g3)
              (existsb Signals.reports_missing
                 [ Signals.diag_part g2; Signals.diag_part g3;
                   Signals.diag_part g4; Signals.diag_part g5 ])) /\
    Envelope.field r "market_classification" = VStr (Signals.market_classification g3) /\
    Envelope.field r "risk_notes" =
      VStr (Py.join " | "
        [ "Valuation band: " ++ Signals.valuation_band g2;
          "Impairment risk: " ++ Signals.impairment_risk g4;
          "Market structure: " ++ Signals.market_classification g3 ]) /\
    Envelope.missing_list r = [] /\
    exists result confidence one_liner,
      r = ResponseUtils.ok_response Gate6.GATE_NAME result Gate6.inputs_used confidence
            one_liner None None.
Proof.
  intros (H3 & H4 & Hp) (Hm & D2 & D3 & D4 & D5 & Hg1) r.
  unfold r, Gate6.aggregate_verdict.
  rewrite (extract_parts_eta g2), (extract_parts_eta g3), (extract_parts_eta g4),
    (extract_parts_eta g5).
  cbv beta iota.
  unfold Signals.pass_field, Signals.passes_field in Hp.
  rewrite (missing_fields_none _ _ _ _ H3 H4 Hp).
  destruct (try_block_accepted (Signals.data_part g2) (Signals.data_part g3)
              (Signals.data_part g4) (Signals.data_part g5)
              (Signals.diag_part g2) (Signals.diag_part g3)
              (Signals.diag_part g4) (Signals.diag_part g5)
              (snd (Gate6._extract_gate_parts g5)) g1 Hm
              ltac:(repeat constructor; assumption) Hg1)
    as (result & verdict & label & Htry & Hfm & Hv & Hl & Hc & Hmk & Hrn).
  rewrite Htry. unfold ret. cbn [try_except].
  exists verdict, label. split; [exact Hfm|].
  rewrite status_ok_response, !field_ok_response.
  split; [reflexivity|]. split; [exact Hv|]. split; [exact Hl|]. split; [exact Hc|].
  split; [exact Hmk|]. split; [exact Hrn|]. split; [reflexivity|].
  eexists; eexists; eexists; reflexivity.
Qed.

(** Whatever its inputs, a normal return of the [try] block is an OK
    envelope without missing inputs. *)
Lemma try_block_shape (d2 d3 d4 d5 : dict) (diag2 diag3 diag4 diag5 : pyval)
    (s5 : string) (g1 : pyval) (r : dict) :
  Gate6.try_block d2 d3 d4 d5 diag2 diag3 diag4 diag5 s5 g1 = inr r ->
  Envelope.status r = VStr "OK" /\ Envelope.missing_list r = [].
Proof.
  unfold Gate6.try_block. intro H.
  repeat match type of H with
         | bind ?m _ = inr _ => destruct m; cbn [bind] in H; [discriminate H|]
         | (let '(_, _) := ?c in _) = inr _ => destruct c
         end.
  inversion H. split; reflexivity.
Qed.

Lemma aggregate_verdict_missing_pass (g2 g3 g4 g5 : dict) (g1 : pyval) :
  let r := Gate6.aggregate_verdict g2 g3 g4 g5 g1 in
  In (VStr "gate2_output.pass") (Envelope.missing_list r) <->
  Signals.pass_field g2 = VNone /\ Signals.passes_field g2 = VNone.
Proof.
  intro r. unfold r, Gate6.aggregate_verdict.
  rewrite (extract_parts_eta g2), (extract_parts_eta g3), (extract_parts_eta g4),
    (extract_parts_eta g5).
  cbv beta iota.
  unfold Signals.pass_field, Signals.passes_field.
  set (p := Py.get (Signals.data_part g2) "pass").
  set (ps := Py.get (Signals.data_part g2) "passes").
  set (v3 := Py.get (Signals.data_part g3) "classification").
  set (v4 := Py.get (Signals.data_part g4) "risk_level").
  rewrite <- (is_none_true p), <- (is_none_true ps).
  unfold ResponseUtils.missing_required_fields.
  destruct (Py.is_none p), (Py.is_none ps), (Py.is_none v3) eqn:E3, (Py.is_none v4) eqn:E4;
    cbn [andb Py.set String.eqb Ascii.eqb Bool.eqb filter snd fst map Py.is_none];
    rewrite ?E3, ?E4; cbn [map fst];
    try (split; [intros _; split; reflexivity | intros _; cbn; tauto]);
    try (split; [cbn; intros H;
                 repeat (destruct H as [H|H]; [discriminate H|]); contradiction
                | intros [H1 H2]; discriminate]).
  all: split; [|intros [H1 H2]; discriminate].
  all: match goal with
       | |- In _ (Envelope.missing_list (try_except ?b ?h)) -> _ =>
           destruct b as [e|r0] eqn:Eb; cbn [try_except]
       end.
  all: try (cbn; intros H; contradiction).
  all: destruct (try_block_shape _ _ _ _ _ _ _ _ _ _ _ Eb) as [_ Hl]; rewrite Hl;
       intros H; contradiction.
Qed.

End Gate6Facts.

(** ** Claims on the verdict gate *)

Section Gate6Claims.
Context {R : Runtime}.

(** C1.  For gate outputs that carry the three required signals (and have
    the shape of the envelope protocol), [aggregate_verdict] answers OK and
    the verdict is that of the first matching rule: the valuation-pass
    signal false gives REJECT; else impairment risk HIGH gives REJECT; else
    UNDETERMINED gives WATCH; else LOW gives INVEST; anything else gives
    WATCH.  In particular a failed valuation gives REJECT also with LOW
    impairment, and UNDETERMINED impairment with a passing valuation gives
    WATCH and not INVEST.  The valuation-pass signal and the impairment risk
    are read as the gate reads them ([Signals.valuation_pass],
    [Signals.impairment_risk]). *)
Theorem C1_verdict_precedence (g2 g3 g4 g5 : dict) (g1 : pyval) :
  Signals.accepted g2 g3 g4 ->
  Signals.well_formed g2 g3 g4 g5 g1 ->
  let r := Gate6.aggregate_verdict g2 g3 g4 g5 g1 in
  let vp := Signals.valuation_pass g2 in
  let risk := Signals.impairment_risk g4 in
  Envelope.status r = VStr "OK" /\
  (vp = false -> Envelope.field r "verdict" = VStr "REJECT") /\
  (vp = true -> risk = "HIGH" -> Envelope.field r "verdict" = VStr "REJECT") /\
  (vp = true -> risk = "UNDETERMINED" -> Envelope.field r "verdict" = VStr "WATCH") /\
  (vp = true -> risk = "LOW" -> Envelope.field r "verdict" = VStr "INVEST") /\
  (vp = true -> risk <> "HIGH" -> risk <> "UNDETERMINED" -> risk <> "LOW" ->
     Envelope.field r "verdict" = VStr "WATCH") /\
  (vp = false -> risk = "LOW" -> Envelope.field r "verdict" = VStr "REJECT") /\
  (vp = true -> risk = "UNDETERMINED" -> Envelope.field r "verdict" <> VStr "INVEST").
Proof.
  intros Hacc Hwf r vp risk.
  destruct (aggregate_verdict_accepted g2 g3 g4 g5 g1 Hacc Hwf)
    as (verdict & label & Hfm & Hs & Hv & _).
  fold r in Hs, Hv. fold vp risk in Hfm. rewrite Hv.
  assert (Hcases :
    (vp = false -> verdict = "REJECT") /\
    (vp = true -> risk = "HIGH" -> verdict = "REJECT") /\
    (vp = true -> risk = "UNDETERMINED" -> verdict = "WATCH") /\
    (vp = true -> risk = "LOW" -> verdict = "INVEST") /\
    (vp = true -> risk <> "HIGH" -> risk <> "UNDETERMINED" -> risk <> "LOW" ->
       verdict = "WATCH")).
  { unfold first_match in Hfm.
    destruct Hfm as [H|[H|[H|[H|H]]]]; decompose [and] H; clear H;
      (split; [|split; [|split; [|split]]]); intros; subst; try reflexivity;
      try congruence; try discriminate. }
  destruct Hcases as (C1 & C2 & C3 & C4 & C5).
  split; [exact Hs|].
  split; [intro H; now rewrite (C1 H)|].
  split; [intros H H'; now rewrite (C2 H H')|].
  split; [intros H H'; now rewrite (C3 H H')|].
  split; [intros H H'; now rewrite (C4 H H')|].
  split; [intros H H1 H2 H3; now rewrite (C5 H H1 H2 H3)|].
  split; [intros H _; now rewrite (C1 H)|].
  intros H H'. rewrite (C3 H H'). discriminate.
Qed.

(** C8.  Two invocations of [aggregate_verdict] that differ only in the
    gate-3 output, both carrying the required signals, produce the same
    [verdict] (and the same [setup_label]); the classification of each is
    echoed in its own [market_classification] field and in the last clause
    of its [risk_notes]. *)
Theorem C8_market_structure_non_interference (g2 g3 g3' g4 g5 : dict) (g1 : pyval) :
  Signals.accepted g2 g3 g4 ->
  Signals.well_formed g2 g3 g4 g5 g1 ->
  Signals.accepted g2 g3' g4 ->
  Signals.well_formed g2 g3' g4 g5 g1 ->
  let r := Gate6.aggregate_verdict g2 g3 g4 g5 g1 in
  let r' := Gate6.aggregate_verdict g2 g3' g4 g5 g1 in
  Envelope.field r "verdict" = Envelope.field r' "verdict" /\
  (exists verdict, Envelope.field r "verdict" = VStr verdict) /\
  Envelope.field r "setup_label" = Envelope.field r' "setup_label" /\
  Envelope.field r "market_classification" = VStr (Signals.market_classification g3) /\
  Envelope.field r' "market_classification" = VStr (Signals.market_classification g3') /\
  Envelope.field r "risk_notes" =
    VStr (Py.join " | "
      [ "Valuation band: " ++ Signals.valuation_band g2;
        "Impairment risk: " ++ Signals.impairment_risk g4;
        "Market structure: " ++ Signals.market_classification g3 ]).
Proof.
  intros Hacc Hwf Hacc' Hwf' r r'.
  destruct (aggregate_verdict_accepted g2 g3 g4 g5 g1 Hacc Hwf)
    as (v1 & l1 & Hfm1 & _ & Hv1 & Hl1 & _ & Hm1 & Hrn & _).
  destruct (aggregate_verdict_accepted g2 g3' g4 g5 g1 Hacc' Hwf')
    as (v2 & l2 & Hfm2 & _ & Hv2 & Hl2 & _ & Hm2 & _).
  fold r in Hv1, Hl1, Hm1, Hrn. fold r' in Hv2, Hl2, Hm2.
  destruct (first_match_functional _ _ _ _ _ _ Hfm1 Hfm2) as [-> ->].
  rewrite Hv1, Hv2, Hl1, Hl2.
  split; [reflexivity|]. split; [exists v2; reflexivity|]. split; [reflexivity|].
  split; [exact Hm1|]. split; [exact Hm2 | exact Hrn].
Qed.

Lemma should_suppress_sizing_value (g2 g4 d : dict) :
  Py.get g2 "data" = VDict d ->
  Orchestrator._should_suppress_sizing g2 g4 =
    ret (negb (orb (Py.truthy (Py.get d "pass")) (Py.truthy (Py.get d "passes")))).
Proof.
  intro Hd. unfold Orchestrator._should_suppress_sizing.
  assert (E : Py.get_or g2 "data" (VDict []) = VDict d).
  { unfold Py.get in Hd. unfold Py.get_or.
    destruct (Py.assoc "data" g2); [exact Hd | discriminate Hd]. }
  rewrite E. cbn [Py.attr_get]. rewrite bind_ret.
  change (Py.get_or d "pass" VNone) with (Py.get d "pass").
  change (Py.get_or d "passes" VNone) with (Py.get d "passes").
  destruct (Py.truthy (Py.get d "pass")); [reflexivity|].
  rewrite bind_ret. reflexivity.
Qed.

Lemma data_part_of_envelope (g : dict) (d : dict) :
  Py.get g "data" = VDict d -> Signals.data_part g = d.
Proof.
  intro H. unfold Signals.data_part, Gate6._extract_gate_parts. rewrite H. reflexivity.
Qed.

(** C10.  The valuation-pass signal of [aggregate_verdict] is the boolean OR
    of the truth values of the data fields [pass] and [passes]; on accepted
    inputs the REJECT-on-valuation branch (label "Valuation discipline
    breached") is taken exactly when both are falsy; the missing-input error
    lists [gate2_output.pass] exactly when both fields are null; and for a
    gate-2 envelope the orchestrator's [_should_suppress_sizing] returns the
    negation of the same OR. *)
Theorem C10_pass_or_passes (g2 g3 g4 g5 : dict) (g1 : pyval) :
  let r := Gate6.aggregate_verdict g2 g3 g4 g5 g1 in
  let p := Signals.pass_field g2 in
  let ps := Signals.passes_field g2 in
  Signals.valuation_pass g2 = orb (Py.truthy p) (Py.truthy ps) /\
  (Signals.accepted g2 g3 g4 -> Signals.well_formed g2 g3 g4 g5 g1 ->
     (Envelope.field r "setup_label" = VStr "Valuation discipline breached"
        <-> Py.truthy p = false /\ Py.truthy ps = false) /\
     (Py.truthy p = false /\ Py.truthy ps = false ->
        Envelope.field r "verdict" = VStr "REJECT")) /\
  (In (VStr "gate2_output.pass") (Envelope.missing_list r) <-> p = VNone /\ ps = VNone) /\
  (forall d, Py.get g2 "data" = VDict d ->
     Orchestrator._should_suppress_sizing g2 g4 =
       ret (negb (orb (Py.truthy p) (Py.truthy ps)))).
Proof.
  intros r p ps.
  split; [apply truthy_or|]. split; [|split].
  - intros Hacc Hwf.
    destruct (aggregate_verdict_accepted g2 g3 g4 g5 g1 Hacc Hwf)
      as (verdict & label & Hfm & _ & Hv & Hl & _).
    fold r in Hv, Hl. rewrite Hl, Hv.
    unfold Signals.valuation_pass in Hfm. rewrite truthy_or in Hfm. fold p ps in Hfm.
    unfold first_match in Hfm.
    destruct Hfm as [H|[H|[H|[H|H]]]]; decompose [and] H; clear H; subst.
    + apply orb_false_iff in H0. split; [split; [intros _; exact H0 | reflexivity]|reflexivity].
    + split; [split; [intro E; inversion E | intros [E1 E2]; rewrite E1, E2 in H0; discriminate]|].
      intros [E1 E2]; rewrite E1, E2 in H0; discriminate.
    + split; [split; [intro E; inversion E | intros [E1 E2]; rewrite E1, E2 in H0; discriminate]|].
      intros [E1 E2]; rewrite E1, E2 in H0; discriminate.
    + split; [split; [intro E; inversion E | intros [E1 E2]; rewrite E1, E2 in H0; discriminate]|].
      intros [E1 E2]; rewrite E1, E2 in H0; discriminate.
    + split; [split; [intro E; inversion E | intros [E1 E2]; rewrite E1, E2 in H0; discriminate]|].
      intros [E1 E2]; rewrite E1, E2 in H0; discriminate.
  - apply aggregate_verdict_missing_pass.
  - intros d Hd. rewrite (should_suppress_sizing_value g2 g4 d Hd).
    unfold p, ps, Signals.pass_field, Signals.passes_field.
    now rewrite (data_part_of_envelope g2 d Hd).
Qed.

End Gate6Claims.

(** ** Pipeline confidence *)

Section PipelineFacts.
Context {R : Runtime}.

Lemma get_or_present (d : dict) (k : string) (dflt : pyval) :
  Py.get d k <> VNone -> Py.get_or d k dflt = Py.get d k.
Proof.
  unfold Py.get, Py.get_or. destruct (Py.assoc k d); [reflexivity | intro H; contradiction].
Qed.

Lemma get_or_of_get (d : dict) (k : string) (dflt v : pyval) :
  Py.get d k = v -> v <> VNone -> Py.get_or d k dflt = v.
Proof. intros H Hv. rewrite get_or_present; [exact H | now rewrite H]. Qed.

Lemma any_missing_inputs_dicts (results : list dict) :
  Forall (fun r => Py.is_dict (Py.get_or r "diagnostics" (VDict [])) = true) results ->
  ResponseUtils.any_missing_inputs results = ret (existsb Envelope.reports_missing results).
Proof.
  induction 1 as [|r rs Hr _ IH]; [reflexivity|].
  cbn [ResponseUtils.any_missing_inputs existsb]. unfold Envelope.reports_missing at 1.
  destruct (Py.get_or r "diagnostics" (VDict [])); try discriminate.
  cbn [Py.attr_get]. rewrite bind_ret.
  destruct (Py.truthy _); [reflexivity | exact IH].
Qed.

Lemma find_gate_data_skip (prefix : string) (pre rest : list dict) :
  Forall (fun r => Py.startswith (Py.lower (PyRt.str (Py.get_or r "gate" (VStr ""))))
                      prefix = false) pre ->
  ResponseUtils._find_gate_data (pre ++ rest) prefix = ResponseUtils._find_gate_data rest prefix.
Proof.
  induction 1 as [|r rs Hr _ IH]; [reflexivity|].
  cbn [app ResponseUtils._find_gate_data]. rewrite Hr. exact IH.
Qed.


Lemma pipeline_confidence_formula (l : list dict) :
  l <> [] ->
  Forall (fun r => Py.is_dict (Py.get_or r "diagnostics" (VDict [])) = true) l ->
  ResponseUtils.compute_pipeline_confidence l =
  ret (Gate6._deterministic_confidence
         (match Py.get (ResponseUtils._find_gate_data l "gate 2") "margin_of_safety" with
          | VBool b => Some (if b then 1%Q else 0%Q)
          | VInt z => Some (inject_Z z)
          | VFloat q => Some q
          | _ => None
          end)
         (Py.upper (PyRt.str (Py.get_or (ResponseUtils._find_gate_data l "gate 4")
                                "risk_level" (VStr ""))))
         (Py.upper (PyRt.str (Py.get_or (ResponseUtils._find_gate_data l "gate 3")
                                "classification" (VStr ""))))
         (existsb Envelope.reports_missing l)).
Proof.
  intros Hne Hd. destruct l as [|r0 rs]; [contradiction|].
  unfold ResponseUtils.compute_pipeline_confidence.
  rewrite (any_missing_inputs_dicts _ Hd).
  unfold Gate6._deterministic_confidence.
  destruct (Py.get (ResponseUtils._find_gate_data (r0 :: rs) "gate 2") "margin_of_safety");
    cbn [Py.is_int_or_float PyRt.float]; rewrite ?bind_ret; reflexivity.
Qed.


Lemma envelope_gate_prefix (name prefix : string) (r : dict) :
  Envelope.is_envelope_of name r ->
  Py.startswith (Py.lower (PyRt.str (Py.get_or r "gate" (VStr "")))) prefix =
  Py.startswith (Py.lower name) prefix.
Proof.
  intros (Hn & _). rewrite (get_or_of_get r "gate" (VStr "") (VStr name) Hn); [reflexivity|discriminate].
Qed.

Lemma envelope_diagnostics (name : string) (r : dict) :
  Envelope.is_envelope_of name r ->
  Py.is_dict (Py.get_or r "diagnostics" (VDict [])) = true /\
  Signals.diag_part r = Py.get_or r "diagnostics" (VDict []) /\
  Envelope.reports_missing r = Signals.reports_missing (Signals.diag_part r).
Proof.
  intros (_ & (d & Hd) & (g & Hg)).
  assert (E : Py.get_or r "diagnostics" (VDict []) = VDict g)
    by (apply get_or_of_get; [exact Hg | discriminate]).
  assert (E' : Signals.diag_part r = Py.get_or r "diagnostics" (VDict [])).
  { unfold Signals.diag_part, Gate6._extract_gate_parts. rewrite Hd. reflexivity. }
  split; [rewrite E; reflexivity|]. split; [exact E'|].
  unfold Envelope.reports_missing. rewrite E'. rewrite E. reflexivity.
Qed.

(** C9 (as amended).  On the envelopes collected by a run (those of
    identity and business context, then gates 2 to 5, then the verdict), the
    pipeline-level confidence and the verdict gate's confidence are the same
    additive rule (base 50, +20 for a margin of safety below -1.0, +10 for
    LOW impairment, -10 for HEADWIND, -10 for missing inputs, clamped to
    [0, 100]) on the same valuation, market-structure and impairment signals;
    the verdict gate takes the missing-inputs penalty over the gate 2 to 5
    envelopes, the pipeline over every collected envelope.  The two values
    are equal whenever the identity and business-context envelopes report no
    missing inputs. *)
Theorem C9_confidence_rollup (pre : list dict) (g2 g3 g4 g5 : dict) (g1 : pyval) :
  Forall (fun r => Envelope.is_envelope_of Gate0.GATE_NAME r \/
                   Envelope.is_envelope_of Gate1.GATE_NAME r) pre ->
  Envelope.is_envelope_of Gate2.GATE_NAME g2 ->
  Envelope.is_envelope_of Gate3.GATE_NAME g3 ->
  Envelope.is_envelope_of Gate4.GATE_NAME g4 ->
  Envelope.is_envelope_of Gate5.GATE_NAME g5 ->
  Signals.accepted g2 g3 g4 ->
  Signals.well_formed g2 g3 g4 g5 g1 ->
  let final := Gate6.aggregate_verdict g2 g3 g4 g5 g1 in
  let gate_results := (pre ++ [ g2; g3; g4; g5; final ])%list in
  let rule := Gate6._deterministic_confidence (Signals.margin_value g2)
                (Signals.impairment_risk g4) (Signals.market_classification g3) in
  let upstream_missing := existsb Envelope.reports_missing [ g2; g3; g4; g5 ] in
  let other_missing := existsb Envelope.reports_missing pre in
  Envelope.field final "confidence" = VInt (rule upstream_missing) /\
  ResponseUtils.compute_pipeline_confidence gate_results =
    ret (rule (orb other_missing upstream_missing)) /\
  (other_missing = false ->
     exists c, ResponseUtils.compute_pipeline_confidence gate_results = ret c /\
               Envelope.field final "confidence" = VInt c).
Proof.
  intros Hpre E2 E3 E4 E5 Hacc Hwf final gate_results rule upstream_missing other_missing.
  destruct (aggregate_verdict_accepted g2 g3 g4 g5 g1 Hacc Hwf)
    as (verdict & label & _ & _ & _ & _ & Hc & _ & _ & _ & (result & conf & ol & Hfinal)).
  fold final in Hc, Hfinal.
  destruct (envelope_diagnostics _ _ E2) as (D2 & _ & M2).
  destruct (envelope_diagnostics _ _ E3) as (D3 & _ & M3).
  destruct (envelope_diagnostics _ _ E4) as (D4 & _ & M4).
  destruct (envelope_diagnostics _ _ E5) as (D5 & _ & M5).
  assert (Hup : existsb Signals.reports_missing
                  [ Signals.diag_part g2; Signals.diag_part g3;
                    Signals.diag_part g4; Signals.diag_part g5 ] = upstream_missing).
  { unfold upstream_missing. cbn [existsb]. now rewrite M2, M3, M4, M5. }
  rewrite Hup in Hc.
  assert (Hverdict : Envelope.field final "confidence" = VInt (rule upstream_missing))
    by exact Hc.
  assert (Hpipe : ResponseUtils.compute_pipeline_confidence gate_results =
                  ret (rule (orb other_missing upstream_missing))).
  { assert (Hdiag : Forall (fun r => Py.is_dict (Py.get_or r "diagnostics" (VDict [])) = true)
                      gate_results).
    { unfold gate_results. apply Forall_app. split.
      - eapply Forall_impl; [|exact Hpre]. intros r [H|H]; apply (envelope_diagnostics _ _ H).
      - repeat constructor; try assumption. rewrite Hfinal. reflexivity. }
    assert (Hne : gate_results <> []).
    { unfold gate_results. intro H. apply app_eq_nil in H. destruct H as [_ H]. discriminate. }
    rewrite (pipeline_confidence_formula gate_results Hne Hdiag).
    assert (Hskip : forall prefix,
              Py.startswith (Py.lower Gate0.GATE_NAME) prefix = false ->
              Py.startswith (Py.lower Gate1.GATE_NAME) prefix = false ->
              Forall (fun r => Py.startswith
                                 (Py.lower (PyRt.str (Py.get_or r "gate" (VStr "")))) prefix
                               = false) pre).
    { intros prefix H0 H1. eapply Forall_impl; [|exact Hpre].
      intros r [H|H]; rewrite (envelope_gate_prefix _ prefix r H); assumption. }
    destruct E2 as (N2 & (d2 & Hd2) & _). destruct E3 as (N3 & (d3 & Hd3) & _).
    destruct E4 as (N4 & (d4 & Hd4) & _).
    assert (G2 : Py.get_or g2 "gate" (VStr "") = VStr Gate2.GATE_NAME)
      by (apply get_or_of_get; [exact N2|discriminate]).
    assert (G3 : Py.get_or g3 "gate" (VStr "") = VStr Gate3.GATE_NAME)
      by (apply get_or_of_get; [exact N3|discriminate]).
    assert (G4 : Py.get_or g4 "gate" (VStr "") = VStr Gate4.GATE_NAME)
      by (apply get_or_of_get; [exact N4|discriminate]).
    assert (S22 : Py.startswith (Py.lower (PyRt.str (VStr Gate2.GATE_NAME))) "gate 2" = true)
      by reflexivity.
    assert (S23 : Py.startswith (Py.lower (PyRt.str (VStr Gate2.GATE_NAME))) "gate 3" = false)
      by reflexivity.
    assert (S24 : Py.startswith (Py.lower (PyRt.str (VStr Gate2.GATE_NAME))) "gate 4" = false)
      by reflexivity.
    assert (S33 : Py.startswith (Py.lower (PyRt.str (VStr Gate3.GATE_NAME))) "gate 3" = true)
      by reflexivity.
    assert (S34 : Py.startswith (Py.lower (PyRt.str (VStr Gate3.GATE_NAME))) "gate 4" = false)
      by reflexivity.
    assert (S44 : Py.startswith (Py.lower (PyRt.str (VStr Gate4.GATE_NAME))) "gate 4" = true)
      by reflexivity.
    assert (F2 : ResponseUtils._find_gate_data gate_results "gate 2" = Signals.data_part g2).
    { unfold gate_results.
      rewrite (find_gate_data_skip "gate 2" pre _ (Hskip "gate 2" eq_refl eq_refl)).
      cbn [ResponseUtils._find_gate_data]. rewrite G2, S22, Hd2.
      rewrite (data_part_of_envelope g2 d2 Hd2). reflexivity. }
    assert (F3 : ResponseUtils._find_gate_data gate_results "gate 3" = Signals.data_part g3).
    { unfold gate_results.
      rewrite (find_gate_data_skip "gate 3" pre _ (Hskip "gate 3" eq_refl eq_refl)).
      cbn [ResponseUtils._find_gate_data]. rewrite G2, S23, G3, S33, Hd3.
      rewrite (data_part_of_envelope g3 d3 Hd3). reflexivity. }
    assert (F4 : ResponseUtils._find_gate_data gate_results "gate 4" = Signals.data_part g4).
    { unfold gate_results.
      rewrite (find_gate_data_skip "gate 4" pre _ (Hskip "gate 4" eq_refl eq_refl)).
      cbn [ResponseUtils._find_gate_data]. rewrite G2, S24, G3, S34, G4, S44, Hd4.
      rewrite (data_part_of_envelope g4 d4 Hd4). reflexivity. }
    rewrite F2, F3, F4.
    destruct Hacc as (A3 & A4 & _).
    rewrite (get_or_present _ "risk_level" (VStr "") A4).
    rewrite (get_or_present _ "classification" (VStr "") A3).
    assert (Hm : existsb Envelope.reports_missing gate_results
                 = orb other_missing upstream_missing).
    { unfold gate_results, other_missing, upstream_missing.
      rewrite existsb_app. f_equal. cbn [existsb].
      rewrite Hfinal. cbn [Envelope.reports_missing]. 
      assert (Envelope.reports_missing
                (ResponseUtils.ok_response Gate6.GATE_NAME result Gate6.inputs_used conf ol None None)
              = false) as -> by reflexivity.
      now rewrite !orb_false_r. }
    rewrite Hm. unfold rule, Signals.margin_value, Signals.impairment_risk,
      Signals.market_classification.
    rewrite <- (get_or_present _ "risk_level" (VStr "UNDETERMINED") A4).
    rewrite <- (get_or_present _ "classification" (VStr "NO_RELEVANT_DATA_FOUND") A3).
    reflexivity. }
  split; [exact Hverdict|]. split; [exact Hpipe|].
  intro Hother. exists (rule upstream_missing). split; [|exact Hverdict].
  rewrite Hpipe, Hother. reflexivity.
Qed.
End PipelineFacts.

(** *** Evaluated instances for the verdict gate and the pipeline *)

Lemma concrete_accepted :
  Signals.accepted (R := Concrete.runtime_llm)
    Concrete.gate2_envelope Concrete.gate3_envelope Concrete.gate4_envelope.
Proof. vm_compute. repeat split; try discriminate. intros [H _]. discriminate. Qed.

Lemma concrete_well_formed :
  Signals.well_formed (R := Concrete.runtime_llm)
    Concrete.gate2_envelope Concrete.gate3_envelope Concrete.gate4_envelope
    Concrete.gate5_envelope (Py.get Concrete.gate1_envelope "data").
Proof. vm_compute. repeat split. right. reflexivity. Qed.

Lemma concrete_accepted_headwind :
  Signals.accepted (R := Concrete.runtime_llm)
    Concrete.gate2_envelope Concrete.gate3_headwind Concrete.gate4_envelope.
Proof. vm_compute. repeat split; try discriminate. intros [H _]. discriminate. Qed.

Lemma concrete_well_formed_headwind :
  Signals.well_formed (R := Concrete.runtime_llm)
    Concrete.gate2_envelope Concrete.gate3_headwind Concrete.gate4_envelope
    Concrete.gate5_envelope (Py.get Concrete.gate1_envelope "data").
Proof. vm_compute. repeat split. right. reflexivity. Qed.

Lemma C1_verdict_precedence_witness :
  Signals.accepted (R := Concrete.runtime_llm)
    Concrete.gate2_envelope Concrete.gate3_envelope Concrete.gate4_envelope /\
  Signals.well_formed (R := Concrete.runtime_llm)
    Concrete.gate2_envelope Concrete.gate3_envelope Concrete.gate4_envelope
    Concrete.gate5_envelope (Py.get Concrete.gate1_envelope "data") /\
  Envelope.status Concrete.final_envelope = VStr "OK" /\
  Envelope.field Concrete.final_envelope "verdict" = VStr "INVEST".
Proof.
  split; [exact concrete_accepted|]. split; [exact concrete_well_formed|].
  destruct (C1_verdict_precedence (R := Concrete.runtime_llm) _ _ _ _ _
              concrete_accepted concrete_well_formed)
    as (Hs & _ & _ & _ & Hlow & _).
  split; [exact Hs|]. apply Hlow; reflexivity.
Defined.

Lemma C8_market_structure_non_interference_witness :
  Envelope.field
    (Gate6.aggregate_verdict (R := Concrete.runtime_llm) Concrete.gate2_envelope
       Concrete.gate3_envelope Concrete.gate4_envelope Concrete.gate5_envelope
       (Py.get Concrete.gate1_envelope "data")) "verdict" =
  Envelope.field
    (Gate6.aggregate_verdict (R := Concrete.runtime_llm) Concrete.gate2_envelope
       Concrete.gate3_headwind Concrete.gate4_envelope Concrete.gate5_envelope
       (Py.get Concrete.gate1_envelope "data")) "verdict" /\
  Envelope.field
    (Gate6.aggregate_verdict (R := Concrete.runtime_llm) Concrete.gate2_envelope
       Concrete.gate3_headwind Concrete.gate4_envelope Concrete.gate5_envelope
       (Py.get Concrete.gate1_envelope "data")) "market_classification" = VStr "HEADWIND".
Proof.
  destruct (C8_market_structure_non_interference (R := Concrete.runtime_llm) _ _ _ _ _ _
              concrete_accepted concrete_well_formed
              concrete_accepted_headwind concrete_well_formed_headwind)
    as (Hv & _ & _ & _ & Hm & _).
  split; [exact Hv | exact Hm].
Defined.

(** With [pass = false] and [passes = true] the valuation counts as passing:
    the verdict follows the impairment risk and sizing is not suppressed. *)
Lemma C10_pass_or_passes_witness :
  Signals.valuation_pass (R := Concrete.runtime_llm) Concrete.gate2_pass_mismatch = true /\
  ~ In (VStr "gate2_output.pass")
      (Envelope.missing_list
         (Gate6.aggregate_verdict (R := Concrete.runtime_llm) Concrete.gate2_pass_mismatch
            Concrete.gate3_envelope Concrete.gate4_envelope Concrete.gate5_envelope VNone)) /\
  Orchestrator._should_suppress_sizing
    Concrete.gate2_pass_mismatch Concrete.gate4_envelope = ret false.
Proof.
  destruct (C10_pass_or_passes (R := Concrete.runtime_llm)
              Concrete.gate2_pass_mismatch Concrete.gate3_envelope Concrete.gate4_envelope
              Concrete.gate5_envelope VNone)
    as (Hor & _ & Hmiss & Hsup).
  split; [rewrite Hor; reflexivity|]. split.
  - intro Hin. apply Hmiss in Hin. destruct Hin as [Hp _]. vm_compute in Hp. discriminate.
  - rewrite (Hsup _ eq_refl). reflexivity.
Defined.

Lemma C9_confidence_rollup_witness :
  ResponseUtils.compute_pipeline_confidence (R := Concrete.runtime_llm)
    [ Concrete.identity_envelope; Concrete.gate2_envelope; Concrete.gate3_envelope;
      Concrete.gate4_envelope; Concrete.gate5_envelope;
      Gate6.aggregate_verdict (R := Concrete.runtime_llm) Concrete.gate2_envelope
        Concrete.gate3_envelope Concrete.gate4_envelope Concrete.gate5_envelope
        (Py.get Concrete.gate1_envelope "data") ] = ret 60 /\
  Envelope.field Concrete.final_envelope "confidence" = VInt 60.
Proof.
  assert (Hpre : Forall (fun r => Envelope.is_envelope_of Gate0.GATE_NAME r \/
                                  Envelope.is_envelope_of Gate1.GATE_NAME r)
                   [ Concrete.identity_envelope ]).
  { constructor; [|constructor]. left. split; [reflexivity|]. split; eexists; reflexivity. }
  assert (E2 : Envelope.is_envelope_of Gate2.GATE_NAME Concrete.gate2_envelope)
    by (split; [reflexivity|]; split; eexists; reflexivity).
  assert (E3 : Envelope.is_envelope_of Gate3.GATE_NAME Concrete.gate3_envelope)
    by (split; [reflexivity|]; split; eexists; reflexivity).
  assert (E4 : Envelope.is_envelope_of Gate4.GATE_NAME Concrete.gate4_envelope)
    by (split; [reflexivity|]; split; eexists; reflexivity).
  assert (E5 : Envelope.is_envelope_of Gate5.GATE_NAME Concrete.gate5_envelope)
    by (split; [reflexivity|]; split; eexists; reflexivity).
  destruct (C9_confidence_rollup (R := Concrete.runtime_llm) _ _ _ _ _ _
              Hpre E2 E3 E4 E5 concrete_accepted concrete_well_formed)
    as (Hv & Hp & _).
  split.
  - cbn [app] in Hp. rewrite Hp. vm_compute. reflexivity.
  - unfold Concrete.final_envelope. rewrite Hv. vm_compute. reflexivity.
Defined.

(** The claim as stated fails on a run.  In the run [Concrete.run] the
    valuation, market-structure, impairment and sizing envelopes that feed
    the verdict gate are the ones the rollup receives, gate 1 answered
    PARTIAL with two missing inputs, the verdict gate's confidence is 60 and
    the pipeline confidence is 50. *)
Lemma C9_counterexample :
  Concrete.output_of Concrete.run "status" = VStr "OK" /\
  Concrete.output_of Concrete.run "gate1" = VDict Concrete.gate1_envelope /\
  Envelope.missing_inputs Concrete.gate1_envelope =
    VList [ VStr "business_description"; VStr "risk_factors" ] /\
  Concrete.output_of Concrete.run "gate2" = VDict Concrete.gate2_envelope /\
  Concrete.output_of Concrete.run "gate3" = VDict Concrete.gate3_envelope /\
  Concrete.output_of Concrete.run "gate4" = VDict Concrete.gate4_envelope /\
  Concrete.output_of Concrete.run "gate5" = VDict Concrete.gate5_envelope /\
  Concrete.output_of Concrete.run "final" = VDict Concrete.final_envelope /\
  ResponseUtils.compute_pipeline_confidence (R := Concrete.runtime_llm)
    [ Concrete.identity_envelope; Concrete.gate1_envelope; Concrete.gate2_envelope;
      Concrete.gate3_envelope; Concrete.gate4_envelope; Concrete.gate5_envelope;
      Concrete.final_envelope ] = ret 50 /\
  Concrete.pipeline_confidence_of Concrete.run = Some (VInt 50) /\
  Concrete.verdict_confidence_of Concrete.run = Some (VInt 60) /\
  Envelope.field Concrete.final_envelope "confidence" = VInt 60.
Proof.
  vm_compute. repeat split.
Qed.

Lemma C5_error_envelope_witness :
  Envelope.status
    (Gate2.calculate_valuation (R := Concrete.runtime)
       (Some 5%Q) (Some 100%Q) None (Some 50%Q) (Some 70%Q) (Some 0%Q)) = VStr "ERROR" /\
  Envelope.error_code
    (Gate2.calculate_valuation (R := Concrete.runtime)
       (Some 5%Q) (Some 100%Q) None (Some 50%Q) (Some 70%Q) (Some 0%Q))
    = VStr "VALUATION_INVALID_SHARES".
Proof.
  destruct (C5_error_envelope (R := Concrete.runtime)
              (Some 5%Q) (Some 100%Q) None (Some 50%Q) (Some 70%Q) (Some 0%Q))
    as ((_ & Herr) & _ & Hbad & _).
  assert (Hb : exists s, Some 0%Q = Some s /\ (s <= 0)%Q).
  { exists 0%Q. split; [reflexivity | vm_compute; discriminate]. }
  split.
  - apply Herr. right. exact Hb.
  - apply Hbad; [|exact Hb]. intros [H|[H|[H|[H|H]]]]; discriminate.
Defined.

Lemma C7_skipped_iff_witness :
  Envelope.status
    (Gate5.calculate_position_size (R := Concrete.runtime)
       (Some 0.25%Q) (Some 0.20%Q) (Some 4%Q) (Some "LOW") (Some 0.5%Q) false)
    = VStr "SKIPPED" /\
  Envelope.status
    (Gate5.calculate_position_size (R := Concrete.runtime)
       (Some 0.25%Q) (Some 0.20%Q) (Some 0.04%Q) (Some "low") (Some 0.5%Q) false)
    = VStr "OK".
Proof.
  split.
  - destruct (C7_skipped_iff (R := Concrete.runtime)
                (Some 0.25%Q) (Some 0.20%Q) (Some 4%Q) (Some "LOW") (Some 0.5%Q) false)
      as ((_ & Hskip) & _).
    apply Hskip. right; right; right. exists 4%Q. split; [reflexivity | reflexivity].
  - destruct (C7_skipped_iff (R := Concrete.runtime)
                (Some 0.25%Q) (Some 0.20%Q) (Some 0.04%Q) (Some "low") (Some 0.5%Q) false)
      as (_ & _ & Hok).
    apply Hok. intros [H|[H|[(s & Hs & Hbad)|(x & Hx & Hgt)]]].
    + discriminate.
    + destruct H as [H|[H|[H|[H|H]]]]; discriminate.
    + inversion Hs; subst s. vm_compute in Hbad. discriminate.
    + inversion Hx; subst x. vm_compute in Hgt. discriminate.
Defined.


(** ** More on rounding *)

Section RoundingExtra.

Lemma round_half_even_nearest (q : Q) : nearest_even q (Py.round_half_even q).
Proof.
  destruct q as [n d]. unfold nearest_even, Py.round_half_even. cbn [Qnum Qden].
  assert (Hd : 0 < Z.pos d) by reflexivity.
  pose proof (Z.div_mod n (Z.pos d) ltac:(lia)) as Hdm.
  pose proof (Z.mod_pos_bound n (Z.pos d) Hd) as Hm.
  set (fl := n / Z.pos d) in *. set (rm := n mod Z.pos d) in *.
  destruct (2 * rm ?= Z.pos d) eqn:E.
  - apply Z.compare_eq in E. destruct (Z.even fl) eqn:Ev.
    + right. split; [|exact Ev]. replace (n - fl * Z.pos d) with rm by lia. lia.
    + right. split.
      * replace (n - (fl + 1) * Z.pos d) with (rm - Z.pos d) by lia. lia.
      * rewrite Z.even_add. rewrite Ev. reflexivity.
  - apply -> Z.compare_lt_iff in E. left. replace (n - fl * Z.pos d) with rm by lia. lia.
  - apply -> Z.compare_gt_iff in E. left.
    replace (n - (fl + 1) * Z.pos d) with (rm - Z.pos d) by lia. lia.
Qed.

Lemma nearest_even_le (q1 q2 : Q) (k1 k2 : Z) :
  (q1 <= q2)%Q -> nearest_even q1 k1 -> nearest_even q2 k2 -> k1 <= k2.
Proof.
  destruct q1 as [n1 d1], q2 as [n2 d2]. unfold Qle, nearest_even. cbn [Qnum Qden].
  intros Hle H1 H2.
  assert (Hd1 : 0 < Z.pos d1) by reflexivity.
  assert (Hd2 : 0 < Z.pos d2) by reflexivity.
  set (D1 := Z.pos d1) in *. set (D2 := Z.pos d2) in *.
  destruct (Z_le_gt_dec k1 k2) as [Hk|Hk]; [exact Hk|exfalso].
  assert (A1 : (2 * k1 - 1) * D1 <= 2 * n1) by (destruct H1 as [H1|[H1 _]]; lia).
  assert (A2 : 2 * n2 <= (2 * k2 + 1) * D2) by (destruct H2 as [H2|[H2 _]]; lia).
  assert (B1 : (2 * k1 - 1) * D1 * D2 <= 2 * n1 * D2) by nia.
  assert (B2 : 2 * n2 * D1 <= (2 * k2 + 1) * D2 * D1) by nia.
  assert (B3 : (2 * k1 - 1) * (D1 * D2) <= (2 * k2 + 1) * (D1 * D2)) by nia.
  assert (HD : 0 < D1 * D2) by nia.
  assert (Hk' : k1 = k2 + 1) by nia.
  subst k1.
  assert (C1 : 2 * n1 = (2 * (k2 + 1) - 1) * D1) by nia.
  assert (C2 : 2 * n2 = (2 * k2 + 1) * D2) by nia.
  destruct H1 as [H1|[_ E1]]; [lia|].
  destruct H2 as [H2|[_ E2]]; [lia|].
  rewrite Z.even_add in E1. rewrite E2 in E1. discriminate.
Qed.

Lemma round_half_even_mono (q1 q2 : Q) :
  (q1 <= q2)%Q -> Py.round_half_even q1 <= Py.round_half_even q2.
Proof.
  intro H. apply (nearest_even_le q1 q2); [exact H | apply round_half_even_nearest ..].
Qed.

Lemma round_half_even_compat (q1 q2 : Q) :
  (q1 == q2)%Q -> Py.round_half_even q1 = Py.round_half_even q2.
Proof.
  intro H. apply Z.le_antisymm; apply round_half_even_mono; rewrite H; apply Qle_refl.
Qed.

Lemma round_half_even_integer (k : Z) (q : Q) :
  (q == inject_Z k)%Q -> Py.round_half_even q = k.
Proof.
  intro H. rewrite (round_half_even_compat _ _ H).
  unfold Py.round_half_even, inject_Z. cbn [Qnum Qden].
  rewrite Z.div_1_r, Z.mod_1_r. reflexivity.
Qed.

Lemma round_half_even_close (q : Q) :
  (inject_Z (Py.round_half_even q) - (1#2) <= q)%Q /\
  (q <= inject_Z (Py.round_half_even q) + (1#2))%Q.
Proof.
  pose proof (round_half_even_nearest q) as H.
  set (k := Py.round_half_even q) in *. clearbody k.
  destruct q as [n d]. unfold nearest_even in H. cbn [Qnum Qden] in H.
  unfold Qle, Qminus, Qplus, Qopp, inject_Z. cbn [Qnum Qden].
  split; destruct H as [H|[H _]]; lia.
Qed.

Lemma pow10_nonzero (digits : nat) : ~ (Py.pow10 digits == 0)%Q.
Proof. pose proof (pow10_pos digits). lra. Qed.

Lemma round_scaled (x : Q) (digits : nat) :
  (Py.round x digits * Py.pow10 digits
   == inject_Z (Py.round_half_even (x * Py.pow10 digits)))%Q.
Proof.
  unfold Py.round. rewrite Qred_correct. field. apply pow10_nonzero.
Qed.

Lemma round_mono (x y : Q) (digits : nat) :
  (x <= y)%Q -> (Py.round x digits <= Py.round y digits)%Q.
Proof.
  intro H. pose proof (pow10_pos digits) as Hp.
  unfold Py.round. rewrite !Qred_correct.
  apply Qmult_le_compat_r; [|apply Qlt_le_weak, Qinv_lt_0_compat; exact Hp].
  rewrite <- Zle_Qle. apply round_half_even_mono.
  apply Qmult_le_compat_r; lra.
Qed.

Lemma round_fixed (x : Q) (digits : nat) (k : Z) :
  (x * Py.pow10 digits == inject_Z k)%Q -> Py.round x digits = Qred x.
Proof.
  intro H. unfold Py.round. apply Qred_complete.
  rewrite (round_half_even_integer k _ H). rewrite <- H. field. apply pow10_nonzero.
Qed.

Lemma round_idempotent (x : Q) (digits : nat) :
  Py.round (Py.round x digits) digits = Py.round x digits.
Proof.
  rewrite (round_fixed (Py.round x digits) digits _ (round_scaled x digits)).
  unfold Py.round. apply Qred_complete. apply Qred_correct.
Qed.

(** X1. [round_float] returns a multiple of [10^-digits] that lies within
    half a unit of its argument on either side, and returns an argument that
    already is such a multiple unchanged. *)
Theorem X1_round_float_nearest (x : Q) (digits : nat) :
  let r := ResponseUtils.round_float x digits in
  let unit := (1 / Py.pow10 digits)%Q in
  (exists k : Z, (r == inject_Z k * unit)%Q) /\
  (r - x <= (1 # 2) * unit)%Q /\
  (x - r <= (1 # 2) * unit)%Q /\
  (forall k : Z, (x == inject_Z k * unit)%Q -> (r == x)%Q).
Proof.
  intros r unit. unfold r, unit, ResponseUtils.round_float.
  pose proof (pow10_pos digits) as Hp.
  pose proof (pow10_nonzero digits) as Hnz.
  pose proof (round_scaled x digits) as Hs.
  pose proof (round_half_even_close (x * Py.pow10 digits)) as [Hlo Hhi].
  set (k := Py.round_half_even (x * Py.pow10 digits)) in *.
  set (p := Py.pow10 digits) in *.
  assert (Hr : (Py.round x digits == inject_Z k / p)%Q).
  { rewrite <- Hs. field. exact Hnz. }
  split; [exists k; rewrite Hr; field; exact Hnz|].
  split; [|split].
  - rewrite Hr.
    assert (E : (inject_Z k / p - x == (inject_Z k - x * p) / p)%Q) by (field; exact Hnz).
    rewrite E. unfold Qdiv. rewrite Qmult_1_l.
    apply Qmult_le_compat_r; [lra | apply Qlt_le_weak, Qinv_lt_0_compat; exact Hp].
  - rewrite Hr.
    assert (E : (x - inject_Z k / p == (x * p - inject_Z k) / p)%Q) by (field; exact Hnz).
    rewrite E. unfold Qdiv. rewrite Qmult_1_l.
    apply Qmult_le_compat_r; [lra | apply Qlt_le_weak, Qinv_lt_0_compat; exact Hp].
  - intros j Hj.
    assert (Hx : (x * p == inject_Z j)%Q) by (rewrite Hj; field; exact Hnz).
    rewrite (round_fixed x digits j Hx). apply Qred_correct.
Qed.

(** X2. [round_float] is idempotent, never reverses the order of two
    numbers, and gives equal numbers the same representation. *)
Theorem X2_round_float_idempotent_monotone (x : Q) (digits : nat) :
  ResponseUtils.round_float (ResponseUtils.round_float x digits) digits
    = ResponseUtils.round_float x digits /\
  (forall y : Q, (x <= y)%Q ->
     (ResponseUtils.round_float x digits <= ResponseUtils.round_float y digits)%Q) /\
  (forall y : Q, (x == y)%Q ->
     ResponseUtils.round_float x digits = ResponseUtils.round_float y digits).
Proof.
  unfold ResponseUtils.round_float. split; [apply round_idempotent|]. split.
  - intros y H. apply round_mono. exact H.
  - intros y H. unfold Py.round. apply Qred_complete.
    rewrite (round_half_even_compat (x * Py.pow10 digits) (y * Py.pow10 digits)).
    + reflexivity.
    + rewrite H. reflexivity.
Qed.

End RoundingExtra.

(** ** More on gate 2 *)

Lemma get_set_other (d : dict) (k k' : string) (v : pyval) :
  k <> k' -> Py.get (Py.set d k' v) k = Py.get d k.
Proof.
  intro H. unfold Py.get. induction d as [|[k0 v0] d IH]; cbn [Py.set Py.assoc].
  - apply String.eqb_neq in H. rewrite H. reflexivity.
  - destruct (String.eqb k' k0) eqn:E0; cbn [Py.assoc].
    + apply String.eqb_eq in E0. subst k0.
      apply String.eqb_neq in H. rewrite H. reflexivity.
    + destruct (String.eqb k k0); [reflexivity | exact IH].
Qed.

Section Gate2Extra.
Context {R : Runtime}.




(** X3. [_display_margin_of_safety]: the cap at +/-5 never shows; the
    display depends only on where the margin lies relative to -1 and 1. *)
Theorem X3_display_margin_of_safety (m : Q) :
  Gate2._display_margin_of_safety None = None /\
  Gate2._display_margin_of_safety (Some m) =
    (if Py.le m (-1.0) then Some "< -100% (Very expensive)"
     else if Py.ge m 1.0 then Some "> 100%"
     else ResponseUtils.format_decimal_with_percent_label (Some m) 4).
Proof.
  split; [reflexivity|].
  unfold Gate2._display_margin_of_safety, Py.max, Py.min.
  by_cases_gt (-5.0)%Q m.
  - assert (H1 : Py.lt 5.0 (-5.0) = false) by reflexivity. rewrite H1.
    assert (H2 : Py.le (-5.0) (-1.0) = true) by reflexivity. rewrite H2.
    assert (H3 : Py.le m (-1.0) = true) by (apply le_true; lra). rewrite H3. reflexivity.
  - by_cases_lt 5.0%Q m.
    + assert (H2 : Py.le 5.0 (-1.0) = false) by reflexivity. rewrite H2.
      assert (H2' : Py.ge 5.0 1.0 = true) by reflexivity. rewrite H2'.
      assert (H3 : Py.le m (-1.0) = false) by (apply le_false; lra). rewrite H3.
      assert (H4 : Py.ge m 1.0 = true) by (apply ge_true; lra). rewrite H4. reflexivity.
    + reflexivity.
Qed.



(** X6. For a net-cash balance sheet ([net_debt <= 0]) the multiple is the
    base plus 2 and the required margin is at least 0.20 and at least the
    base less 0.05; it is at most the base margin exactly when the base is
    at least 0.20, so with a base below 0.20 the net-cash rule raises the
    required margin. *)
Theorem X6_net_cash_policy (net_debt : Q) :
  (net_debt <= 0)%Q ->
  let policy := Gate2.valuation_policy net_debt in
  fst policy = (Gate2.VALUATION_MULTIPLE + 2.0)%Q /\
  (0.20 <= snd policy)%Q /\
  (Gate2.REQUIRED_MARGIN - 0.05 <= snd policy)%Q /\
  ((snd policy <= Gate2.REQUIRED_MARGIN)%Q <-> (0.20 <= Gate2.REQUIRED_MARGIN)%Q) /\
  ((Gate2.REQUIRED_MARGIN < 0.20)%Q -> (snd policy == 0.20)%Q).
Proof.
  intros H policy. unfold policy.
  destruct (valuation_policy_cases net_debt) as (Pneg & _). rewrite (Pneg H).
  cbn [fst snd]. split; [reflexivity|].
  unfold Py.max. by_cases_gt (Gate2.REQUIRED_MARGIN - 0.05)%Q 0.20%Q.
  - repeat split; intros; lra.
  - repeat split; intros; lra.
Qed.

End Gate2Extra.

(** X7. The supervisor of gate 2 cannot change the valuation: with any
    other supervisor the envelope has the same status, gate, confidence,
    one-liner, error and diagnostics, and the same value under every data
    key except [supervisor]. *)
Theorem X7_supervisor_non_interference (R : Runtime) (supervisor : dict -> dict)
    (agent : Q -> string -> list (string * Q) -> Q -> Q -> Q -> string -> Q -> option dict)
    (mp ni fcf td ca so : option Q) :
  let r := Gate2.calculate_valuation (R := R) mp ni fcf td ca so in
  let r' := Gate2.calculate_valuation (R := with_advisors R supervisor agent)
              mp ni fcf td ca so in
  Py.get r' "status" = Py.get r "status" /\
  Py.get r' "gate" = Py.get r "gate" /\
  Py.get r' "confidence" = Py.get r "confidence" /\
  Py.get r' "one_liner" = Py.get r "one_liner" /\
  Py.get r' "error" = Py.get r "error" /\
  Py.get r' "diagnostics" = Py.get r "diagnostics" /\
  map fst (Envelope.data r') = map fst (Envelope.data r) /\
  (forall k, k <> "supervisor" -> Envelope.field r' k = Envelope.field r k).
Proof.
  intros r r'.
  destruct mp as [mp|], ni as [ni|], td as [td|], ca as [ca|], so as [so|];
    try (repeat split; reflexivity).
  destruct (Qlt_le_dec 0 so) as [Hso|Hso].
  - destruct (compute_locals_value (R := R) mp ni td ca so fcf Hso) as (l & log & Hl & _).
    assert (Hl' : Gate2.compute_locals (R := with_advisors R supervisor agent)
                    (Some mp) (Some ni) fcf (Some td) (Some ca) (Some so) [] = (inr l, log))
      by exact Hl.
    unfold r, r', Gate2.calculate_valuation.
    rewrite (calculate_valuation_valid (R := R) mp ni td ca so fcf l log Hso Hl).
    rewrite (calculate_valuation_valid (R := with_advisors R supervisor agent)
               mp ni td ca so fcf l log Hso Hl').
    cbn [fst].
    split; [reflexivity|]. split; [reflexivity|]. split; [reflexivity|].
    split; [reflexivity|]. split; [reflexivity|]. split; [reflexivity|].
    split; [reflexivity|].
    intros k Hk. rewrite !field_ok_response, !get_set_other by exact Hk. reflexivity.
  - assert (Hle : Py.le so 0 = true) by (apply le_true; exact Hso).
    unfold r, r', Gate2.calculate_valuation, Gate2.calculate_valuation_traced.
    cbn [Py.of_float ResponseUtils.missing_required_fields filter map snd fst Py.is_none].
    rewrite Hle. repeat split; reflexivity.
Qed.

(** ** More on gate 5 *)

Section Gate5Extra.
Context {R : Runtime}.

Lemma volatility_factor_values (x : Q) :
  Gate5._volatility_factor x = 1.00%Q \/ Gate5._volatility_factor x = 0.85%Q \/
  Gate5._volatility_factor x = 0.70%Q \/ Gate5._volatility_factor x = 0.55%Q.
Proof.
  unfold Gate5._volatility_factor.
  destruct (Py.le x 0.20); [auto|]. destruct (Py.le x 0.35); [auto|].
  destruct (Py.le x 0.50); auto.
Qed.

Lemma drawdown_factor_values (x : Q) :
  Gate5._drawdown_factor x = 1.00%Q \/ Gate5._drawdown_factor x = 0.85%Q \/
  Gate5._drawdown_factor x = 0.70%Q \/ Gate5._drawdown_factor x = 0.55%Q.
Proof.
  unfold Gate5._drawdown_factor.
  destruct (Py.le x 0.15); [auto|]. destruct (Py.le x 0.30); [auto|].
  destruct (Py.le x 0.45); auto.
Qed.

Lemma correlation_factor_values (x : Q) :
  Gate5._correlation_factor x = 1.00%Q \/ Gate5._correlation_factor x = 0.85%Q \/
  Gate5._correlation_factor x = 0.70%Q \/ Gate5._correlation_factor x = 0.55%Q.
Proof.
  unfold Gate5._correlation_factor.
  destruct (Py.le x 0.30); [auto|]. destruct (Py.le x 0.60); [auto|].
  destruct (Py.le x 0.80); auto.
Qed.

Lemma volatility_factor_mono (x y : Q) :
  (x <= y)%Q -> (Gate5._volatility_factor y <= Gate5._volatility_factor x)%Q.
Proof.
  intro H. unfold Gate5._volatility_factor.
  by_cases_le x 0.20%Q; by_cases_le y 0.20%Q; try lra;
  by_cases_le x 0.35%Q; by_cases_le y 0.35%Q; try lra;
  by_cases_le x 0.50%Q; by_cases_le y 0.50%Q; lra.
Qed.

Lemma drawdown_factor_mono (x y : Q) :
  (x <= y)%Q -> (Gate5._drawdown_factor y <= Gate5._drawdown_factor x)%Q.
Proof.
  intro H. unfold Gate5._drawdown_factor.
  by_cases_le x 0.15%Q; by_cases_le y 0.15%Q; try lra;
  by_cases_le x 0.30%Q; by_cases_le y 0.30%Q; try lra;
  by_cases_le x 0.45%Q; by_cases_le y 0.45%Q; lra.
Qed.

Lemma correlation_factor_mono (x y : Q) :
  (x <= y)%Q -> (Gate5._correlation_factor y <= Gate5._correlation_factor x)%Q.
Proof.
  intro H. unfold Gate5._correlation_factor.
  by_cases_le x 0.30%Q; by_cases_le y 0.30%Q; try lra;
  by_cases_le x 0.60%Q; by_cases_le y 0.60%Q; try lra;
  by_cases_le x 0.80%Q; by_cases_le y 0.80%Q; lra.
Qed.

Lemma macro_factor_mono (ir ir' : Q) (s : string) (fm fm' : Q) :
  (ir <= ir')%Q ->
  Gate5._macro_factor ir s = ret fm -> Gate5._macro_factor ir' s = ret fm' ->
  (fm' <= fm)%Q.
Proof.
  intros H. unfold Gate5._macro_factor.
  destruct (Py.lookup s _) as [e|c]; cbn [bind]; [discriminate|].
  unfold ret. intros H1 H2. inversion H1; inversion H2; subst. clear H1 H2.
  unfold Py.min.
  by_cases_le ir 0.03%Q; by_cases_le ir' 0.03%Q; try lra;
    try by_cases_le ir 0.05%Q; try by_cases_le ir' 0.05%Q; try lra;
    try by_cases_le ir 0.07%Q; try by_cases_le ir' 0.07%Q; try lra;
    repeat match goal with
           | |- context [Py.lt ?a ?b] => by_cases_lt a b
           end; lra.
Qed.

(** X8. The three factor bands are step functions that never increase with
    their input and take no value outside 1.00, 0.85, 0.70, 0.55. *)
Theorem X8_factor_bands (x y : Q) :
  (x <= y)%Q ->
  (Gate5._volatility_factor y <= Gate5._volatility_factor x)%Q /\
  (Gate5._drawdown_factor y <= Gate5._drawdown_factor x)%Q /\
  (Gate5._correlation_factor y <= Gate5._correlation_factor x)%Q /\
  In (Gate5._volatility_factor x) [1.00%Q; 0.85%Q; 0.70%Q; 0.55%Q] /\
  In (Gate5._drawdown_factor x) [1.00%Q; 0.85%Q; 0.70%Q; 0.55%Q] /\
  In (Gate5._correlation_factor x) [1.00%Q; 0.85%Q; 0.70%Q; 0.55%Q].
Proof.
  intro H.
  split; [apply volatility_factor_mono; exact H|].
  split; [apply drawdown_factor_mono; exact H|].
  split; [apply correlation_factor_mono; exact H|].
  split; [|split].
  - destruct (volatility_factor_values x) as [E|[E|[E|E]]]; rewrite E; cbn; auto.
  - destruct (drawdown_factor_values x) as [E|[E|[E|E]]]; rewrite E; cbn; auto.
  - destruct (correlation_factor_values x) as [E|[E|[E|E]]]; rewrite E; cbn; auto 6.
Qed.

(** X9. [_macro_factor] is defined exactly on the credit-stress names LOW,
    MEDIUM and HIGH as written; any other string, a lower-case one included,
    raises [KeyError].  Where defined its value is one of 1.00, 0.90, 0.85,
    0.80, 0.70 and never increases with the interest rate. *)
Theorem X9_macro_factor (ir ir' : Q) (s : string) :
  (Py.mem s Gate5.VALID_CREDIT_STRESS = true ->
     exists fm fm',
       Gate5._macro_factor ir s = ret fm /\ Gate5._macro_factor ir' s = ret fm' /\
       In fm [1.00%Q; 0.90%Q; 0.85%Q; 0.80%Q; 0.70%Q] /\
       ((ir <= ir')%Q -> (fm' <= fm)%Q)) /\
  (Py.mem s Gate5.VALID_CREDIT_STRESS = false ->
     exists msg, Gate5._macro_factor ir s = raise KeyError msg).
Proof.
  split.
  - intro H.
    destruct (macro_factor_defined ir s H) as (fm & Hfm & _).
    destruct (macro_factor_defined ir' s H) as (fm' & Hfm' & _).
    exists fm, fm'. split; [exact Hfm|]. split; [exact Hfm'|]. split.
    + destruct (valid_credit_stress_cases s H) as [-> | [-> | ->]];
        unfold Gate5._macro_factor in Hfm;
        cbn [Py.lookup String.eqb Ascii.eqb Bool.eqb bind ret] in Hfm;
        inversion Hfm; unfold Py.min;
        destruct (Py.le ir 0.03); try destruct (Py.le ir 0.05); try destruct (Py.le ir 0.07);
        vm_compute; auto 10.
    + intro Hle. apply (macro_factor_mono ir ir' s fm fm' Hle Hfm Hfm').
  - intro H. unfold Gate5._macro_factor.
    unfold Py.mem, Gate5.VALID_CREDIT_STRESS in H. cbn [existsb] in H.
    rewrite !orb_false_iff in H. destruct H as (H1 & H2 & H3 & _).
    cbn [Py.lookup]. rewrite H1, H2, H3. cbn [bind]. eexists. reflexivity.
Qed.


Lemma mult_le_compat_nonneg (a a' b b' : Q) :
  (0 <= a')%Q -> (a' <= a)%Q -> (0 <= b')%Q -> (b' <= b)%Q -> (a' * b' <= a * b)%Q.
Proof. intros. nra. Qed.




(** X11. More risk never gives a larger position: on the computation path,
    raising the volatility, the drawdown, the interest rate or the
    correlation (the credit stress unchanged) never increases
    [maximum_position_size]. *)
Theorem X11_size_monotone (vol vol' dd dd' ir ir' corr corr' : Q) (cs : string) :
  Py.mem (Py.upper cs) Gate5.VALID_CREDIT_STRESS = true ->
  (ir' <= 1)%Q ->
  (vol <= vol')%Q -> (dd <= dd')%Q -> (ir <= ir')%Q -> (corr <= corr')%Q ->
  let r := Gate5.calculate_position_size (Some vol) (Some dd) (Some ir) (Some cs) (Some corr)
             false in
  let r' := Gate5.calculate_position_size (Some vol') (Some dd') (Some ir') (Some cs)
              (Some corr') false in
  exists size size',
    Envelope.field r "maximum_position_size" = VFloat size /\
    Envelope.field r' "maximum_position_size" = VFloat size' /\
    (size' <= size)%Q.
Proof.
  intros Hmem Hir' Hvol Hdd Hir Hcorr r r'.
  assert (Hir1 : (ir <= 1)%Q) by lra.
  destruct (calculate_position_size_valid vol dd ir corr cs Hmem Hir1)
    as (fm & b & Hfm & Hfm1 & Hfm2 & _ & _ & Hsize & _).
  destruct (calculate_position_size_valid vol' dd' ir' corr' cs Hmem Hir')
    as (fm' & b' & Hfm' & Hfm1' & Hfm2' & _ & _ & Hsize' & _).
  fold r in Hsize. fold r' in Hsize'.
  eexists; eexists. split; [exact Hsize|]. split; [exact Hsize'|].
  unfold ResponseUtils.round_float. apply round_mono.
  pose proof (macro_factor_mono ir ir' (Py.upper cs) fm fm' Hir Hfm Hfm') as Hm.
  pose proof (volatility_factor_mono vol vol' Hvol) as Hv.
  pose proof (drawdown_factor_mono dd dd' Hdd) as Hd.
  pose proof (correlation_factor_mono corr corr' Hcorr) as Hc.
  assert (Pv : (0.55 <= Gate5._volatility_factor vol')%Q)
    by (destruct (volatility_factor_values vol') as [E|[E|[E|E]]]; rewrite E; lra).
  assert (Pd : (0.55 <= Gate5._drawdown_factor dd')%Q)
    by (destruct (drawdown_factor_values dd') as [E|[E|[E|E]]]; rewrite E; lra).
  assert (Pc : (0.55 <= Gate5._correlation_factor corr')%Q)
    by (destruct (correlation_factor_values corr') as [E|[E|[E|E]]]; rewrite E; lra).
  set (fv := Gate5._volatility_factor vol) in *. set (fv' := Gate5._volatility_factor vol') in *.
  set (fd := Gate5._drawdown_factor dd) in *. set (fd' := Gate5._drawdown_factor dd') in *.
  set (fc := Gate5._correlation_factor corr) in *.
  set (fc' := Gate5._correlation_factor corr') in *.
  assert (Hprod : (10.0 * fv' * fd' * fc' * fm' <= 10.0 * fv * fd * fc * fm)%Q).
  { apply mult_le_compat_nonneg; [|  |lra|exact Hm].
    - assert (0 <= 10.0 * fv' * fd')%Q by nra. nra.
    - apply mult_le_compat_nonneg; [|  |lra|exact Hc].
      + nra.
      + apply mult_le_compat_nonneg; [lra| |lra|exact Hd].
        apply mult_le_compat_nonneg; lra. }
  unfold Py.max, Py.min.
  repeat match goal with
         | |- context [Py.lt ?a ?b] => by_cases_lt a b
         | |- context [Py.gt ?a ?b] => by_cases_gt a b
         end; lra.
Qed.

Lemma first_at_minimum_names (factors : list (string * Q)) (m : Q) (precedence : list string)
    (b : string) :
  Gate5.first_at_minimum factors m precedence = ret b -> In b precedence \/ b = "MACRO".
Proof.
  induction precedence as [|key rest IH]; cbn [Gate5.first_at_minimum].
  - unfold ret. intro H. inversion H. right. reflexivity.
  - destruct (Py.lookup key factors) as [e|v]; cbn [bind]; [discriminate|].
    destruct (Qeq_bool v m).
    + unfold ret. intro H. inversion H. left. left. reflexivity.
    + intro H. destruct (IH H) as [Hin|Hm]; [left; right; exact Hin | right; exact Hm].
Qed.

(** X12. On the four factors the gate builds, [_binding_constraint] returns a
    name and [_mechanical_explanation] has a sentence for it.  Whatever
    mapping it is given, a name [_binding_constraint] returns is one of
    VOLATILITY, DRAWDOWN, CORRELATION, MACRO, so the explanation lookup never
    raises; on the empty mapping [_binding_constraint] raises
    [ValueError]. *)
Theorem X12_binding_constraint_explained (factors : list (string * Q)) (fv fd fc fm : Q) :
  (exists b e,
     Gate5._binding_constraint
       [ ("VOLATILITY", fv); ("DRAWDOWN", fd); ("CORRELATION", fc); ("MACRO", fm) ] = ret b /\
     Gate5._mechanical_explanation b = ret e) /\
  (exists msg, Gate5._binding_constraint [] = raise ValueError msg) /\
  (forall b, Gate5._binding_constraint factors = ret b ->
     In b [ "VOLATILITY"; "DRAWDOWN"; "CORRELATION"; "MACRO" ] /\
     exists e, Gate5._mechanical_explanation b = ret e).
Proof.
  split.
  { destruct (binding_constraint_first_minimum fv fd fc fm) as (b & Hb & Hmin).
    destruct (mechanical_explanation_defined b) as (e & He).
    { unfold first_minimum in Hmin. intuition. }
    exists b, e. split; [exact Hb | exact He]. }
  split; [eexists; reflexivity|].
  intros b H. unfold Gate5._binding_constraint in H.
  destruct (Py.min_of (map snd factors)) as [e|m]; cbn [bind] in H; [discriminate|].
  apply first_at_minimum_names in H.
  assert (Hin : In b [ "VOLATILITY"; "DRAWDOWN"; "CORRELATION"; "MACRO" ]).
  { destruct H as [H | ->]; [exact H | cbn; auto]. }
  split; [exact Hin|].
  apply mechanical_explanation_defined. cbn [In] in Hin. intuition.
Qed.

Lemma try_block_status (vol dd ir : option Q) (cs : option string) (corr : option Q)
    (r : dict) :
  Gate5.try_block vol dd ir cs corr = inr r ->
  (Envelope.status r = VStr "SKIPPED" /\
   Py.get (Envelope.diagnostics r) "binding_constraint" = VStr "DATA_AVAILABILITY" /\
   Envelope.missing_list r = [] /\ Envelope.confidence r = VInt 0) \/
  (Envelope.status r = VStr "OK" /\
   Py.get (Envelope.diagnostics r) "binding_constraint" = VNone /\
   Envelope.missing_list r = [] /\ Envelope.confidence r = VInt 75).
Proof.
  unfold Gate5.try_block. intro H.
  destruct (negb _); [inversion H; left; repeat split|].
  destruct (PyRt.float_opt ir) as [e|x]; cbn [bind] in H; [discriminate|].
  destruct (Py.gt x 1.0); [inversion H; left; repeat split|].
  repeat match type of H with
         | bind ?m _ = inr _ => destruct m; cbn [bind] in H; [discriminate H|]
         end.
  inversion H. right. repeat split.
Qed.

(** X13. [calculate_position_size] answers SKIPPED or OK and never ERROR, so
    the orchestrator's fatal check never fires on it.  The diagnostics tell
    the cases apart: with [upstream_reject] the binding constraint is
    NOT_APPLICABLE and no input is listed as missing, even when inputs are
    absent; any other SKIPPED answer has DATA_AVAILABILITY and lists exactly
    the null arguments, in the order of the signature; an OK answer has no
    binding constraint and confidence 75. *)
Theorem X13_sizing_never_fatal (vol dd ir : option Q) (cs : option string) (corr : option Q)
    (upstream_reject : bool) :
  let r := Gate5.calculate_position_size vol dd ir cs corr upstream_reject in
  let binding := Py.get (Envelope.diagnostics r) "binding_constraint" in
  let nulls := ResponseUtils.missing_required_fields
                 [ ("volatility", Py.of_float vol); ("max_drawdown", Py.of_float dd);
                   ("interest_rate", Py.of_float ir); ("credit_stress", Py.of_str cs);
                   ("correlation_index", Py.of_float corr) ] in
  Orchestrator._is_fatal r = false /\
  (Envelope.status r = VStr "SKIPPED" \/ Envelope.status r = VStr "OK") /\
  (upstream_reject = true ->
     binding = VStr "NOT_APPLICABLE" /\ Envelope.missing_list r = []) /\
  (upstream_reject = false -> Envelope.status r = VStr "SKIPPED" ->
     binding = VStr "DATA_AVAILABILITY" /\ Envelope.missing_inputs r = Py.str_list nulls /\
     Envelope.confidence r = VInt 0) /\
  (Envelope.status r = VStr "OK" ->
     binding = VNone /\ Envelope.missing_list r = [] /\ Envelope.confidence r = VInt 75).
Proof.
  intros r binding nulls. unfold binding, nulls, r.
  destruct upstream_reject.
  { repeat split; try reflexivity; try discriminate. left; reflexivity. }
  destruct vol as [vol|], dd as [dd|], ir as [ir|], cs as [cs|], corr as [corr|];
    try (repeat split; try reflexivity; try discriminate; left; reflexivity).
  unfold Gate5.calculate_position_size.
  cbn [Py.of_float Py.of_str ResponseUtils.missing_required_fields filter map snd fst Py.is_none].
  destruct (Gate5.try_block (Some vol) (Some dd) (Some ir) (Some cs) (Some corr)) as [e|r0] eqn:Et;
    cbn [try_except].
  - exfalso. revert Et. unfold Gate5.try_block.
    cbn [PyRt.str Py.of_str PyRt.float_opt bind ret].
    destruct (Py.mem (Py.upper cs) Gate5.VALID_CREDIT_STRESS) eqn:Emem; cbn [negb];
      [|discriminate].
    destruct (Py.gt ir 1.0) eqn:Egt; [discriminate|].
    assert (Hir : (ir <= 1)%Q) by (apply gt_false in Egt; lra).
    destruct (macro_factor_defined ir (Py.upper cs) Emem) as (fm & Hfm & _).
    destruct (binding_constraint_first_minimum (Gate5._volatility_factor vol)
                (Gate5._drawdown_factor dd) (Gate5._correlation_factor corr) fm)
      as (b & Hb & Hmin).
    destruct (mechanical_explanation_defined b (first_minimum_name _ _ _ _ _ Hmin)) as (x & He).
    rewrite Hfm, bind_ret. cbv beta. rewrite Hb, bind_ret. cbv beta.
    rewrite He, bind_ret. cbv beta. discriminate.
  - destruct (try_block_status _ _ _ _ _ _ Et) as [(Hs & Hb & Hm & Hc) | (Hs & Hb & Hm & Hc)].
    + split; [unfold Orchestrator._is_fatal; fold (Envelope.status r0); rewrite Hs; reflexivity|].
      split; [left; exact Hs|]. split; [discriminate|]. split.
      * intros _ _. split; [exact Hb|]. split; [|exact Hc].
        unfold Envelope.missing_list in Hm.
        revert Et. unfold Gate5.try_block.
        destruct (negb _); [intro Et; inversion Et; reflexivity|].
        destruct (PyRt.float_opt (Some ir)) as [e|x]; cbn [bind]; [discriminate|].
        destruct (Py.gt x 1.0); [intro Et; inversion Et; reflexivity|].
        intro Et.
        repeat match type of Et with
               | bind ?m _ = inr _ => destruct m; cbn [bind] in Et; [discriminate Et|]
               end.
        inversion Et; subst r0. discriminate Hs.
      * intro H. rewrite Hs in H. discriminate.
    + split; [unfold Orchestrator._is_fatal; fold (Envelope.status r0); rewrite Hs; reflexivity|].
      split; [right; exact Hs|]. split; [discriminate|]. split.
      * intros _ H. rewrite Hs in H. discriminate.
      * intros _. split; [exact Hb|]. split; [exact Hm|exact Hc].
Qed.

End Gate5Extra.

(** X14. The sizing agent of gate 5 cannot change the numbers: with any
    other agent the envelope has the same status, gate, confidence,
    one-liner and diagnostics, and the same value under every data key
    except [agent_overlay]. *)
Theorem X14_sizing_agent_non_interference (R : Runtime) (supervisor : dict -> dict)
    (agent : Q -> string -> list (string * Q) -> Q -> Q -> Q -> string -> Q -> option dict)
    (vol dd ir : option Q) (cs : option string) (corr : option Q) (upstream_reject : bool) :
  let r := Gate5.calculate_position_size (R := R) vol dd ir cs corr upstream_reject in
  let r' := Gate5.calculate_position_size (R := with_advisors R supervisor agent)
              vol dd ir cs corr upstream_reject in
  Py.get r' "status" = Py.get r "status" /\
  Py.get r' "gate" = Py.get r "gate" /\
  Py.get r' "confidence" = Py.get r "confidence" /\
  Py.get r' "one_liner" = Py.get r "one_liner" /\
  Py.get r' "diagnostics" = Py.get r "diagnostics" /\
  (forall k, k <> "agent_overlay" -> Envelope.field r' k = Envelope.field r k).
Proof.
  intros r r'. unfold r, r'.
  destruct upstream_reject; [repeat split; reflexivity|].
  destruct vol as [vol|], dd as [dd|], ir as [ir|], cs as [cs|], corr as [corr|];
    try (repeat split; reflexivity).
  unfold Gate5.calculate_position_size.
  cbn [Py.of_float Py.of_str ResponseUtils.missing_required_fields filter map snd fst Py.is_none].
  unfold Gate5.try_block.
  cbn [PyRt.str Py.of_str PyRt.float_opt bind ret].
  destruct (Py.mem (Py.upper cs) Gate5.VALID_CREDIT_STRESS) eqn:Emem; cbn [negb];
    [|repeat split; reflexivity].
  destruct (Py.gt ir 1.0) eqn:Egt; [repeat split; reflexivity|].
  destruct (macro_factor_defined ir (Py.upper cs) Emem) as (fm & Hfm & _).
  destruct (binding_constraint_first_minimum (Gate5._volatility_factor vol)
              (Gate5._drawdown_factor dd) (Gate5._correlation_factor corr) fm)
    as (b & Hb & Hmin).
  destruct (mechanical_explanation_defined b (first_minimum_name _ _ _ _ _ Hmin))
    as (x & He).
  rewrite Hfm, !bind_ret. cbv beta. rewrite Hb, !bind_ret. cbv beta.
  rewrite He, !bind_ret. cbv beta.
  unfold ret. cbn [try_except].
  unfold Gate5._run_sizing_agent. cbn [sizing_agent with_advisors].
  destruct (sizing_agent _ _ _ _ _ _ _ _) as [[|kv o]|];
    destruct (agent _ _ _ _ _ _ _ _) as [[|kv' o']|]; cbn [Py.truthy];
    (split; [reflexivity|]; split; [reflexivity|]; split; [reflexivity|];
     split; [reflexivity|]; split; [reflexivity|];
     intros k Hk; rewrite !field_ok_response, ?get_set_other by exact Hk; reflexivity).
Qed.

(** ** More on gate 6 *)

Section Gate6Extra.
Context {R : Runtime}.

Lemma deterministic_confidence_value (m : option Q) (risk market : string) (missing : bool) :
  let c := Gate6._deterministic_confidence m risk market missing in
  c = 50
      + (if match m with Some x => Py.lt x (-1.0) | None => false end then 20 else 0)
      + (if String.eqb risk "LOW" then 10 else 0)
      - (if String.eqb market "HEADWIND" then 10 else 0)
      - (if missing then 10 else 0) /\
  30 <= c <= 80 /\ c mod 10 = 0.
Proof.
  unfold Gate6._deterministic_confidence.
  destruct m as [x|]; [destruct (Py.lt x (-1.0))|];
    destruct (String.eqb risk "LOW"), (String.eqb market "HEADWIND"), missing;
    cbn; repeat split; lia.
Qed.

Lemma clamp_confidence_id (c : Z) : 0 <= c <= 100 -> ResponseUtils.clamp_confidence c = c.
Proof. unfold ResponseUtils.clamp_confidence. lia. Qed.

Lemma try_block_sizing (d2 d3 d4 d5 : dict) (diag2 diag3 diag4 diag5 : pyval)
    (s5 : string) (g1 : pyval) :
  match Py.get d2 "margin_of_safety" with
  | VNone | VBool _ | VInt _ | VFloat _ => True
  | _ => False
  end ->
  Forall (fun d => Py.is_dict d = true) [diag2; diag3; diag4; diag5] ->
  (g1 = VNone \/ Py.is_dict g1 = true) ->
  let skipped :=
    orb (String.eqb s5 "SKIPPED")
        (String.eqb (Py.upper (PyRt.str (Py.get_or d5 "status" (VStr "")))) "SKIPPED") in
  let size := Py.get d5 "maximum_position_size" in
  let c := Gate6._deterministic_confidence
             (match Py.get d2 "margin_of_safety" with
              | VBool b => Some (if b then 1%Q else 0%Q)
              | VInt z => Some (inject_Z z)
              | VFloat q => Some q
              | _ => None
              end)
             (Py.upper (PyRt.str (Py.get_or d4 "risk_level" (VStr "UNDETERMINED"))))
             (Py.upper (PyRt.str (Py.get_or d3 "classification" (VStr "NO_RELEVANT_DATA_FOUND"))))
             (existsb Signals.reports_missing [diag2; diag3; diag4; diag5]) in
  exists result verdict label,
    Gate6.try_block d2 d3 d4 d5 diag2 diag3 diag4 diag5 s5 g1 =
      ret (ResponseUtils.ok_response Gate6.GATE_NAME result Gate6.inputs_used c
             (verdict ++ " — " ++ label) None None) /\
    first_match (Py.truthy (Py.or_ (Py.get d2 "pass") (Py.get d2 "passes")))
      (Py.upper (PyRt.str (Py.get_or d4 "risk_level" (VStr "UNDETERMINED")))) verdict label /\
    Py.get result "verdict" = VStr verdict /\
    Py.get result "confidence" = VInt c /\
    Py.get result "confidence_score" =
      VFloat (ResponseUtils.round_float (inject_Z c / 100.0) 2) /\
    Py.contains_key result "max_position_size" =
      andb (String.eqb verdict "INVEST") (andb (negb skipped) (Py.is_int_or_float size)) /\
    (Py.contains_key result "max_position_size" = true ->
       exists q, PyRt.float size = ret q /\
                 Py.get result "max_position_size" = VFloat (ResponseUtils.round_float q 1)) /\
    (match Py.get result "gate_summary" with
     | VDict summary => Py.get summary "gate5_position_sizing"
     | _ => VNone
     end =
     if skipped then VStr "SKIPPED — Valuation gate failed — position sizing not applicable."
     else if Py.is_int_or_float size
          then match PyRt.float size with
               | inr q => VStr (format_float "" (ResponseUtils.round_float q 1) ++ "% NAV")
               | inl _ => VNone
               end
          else VStr "N/A").
Proof.
  intros Hm Hd Hg1 skipped0 size0 c0.
  unfold Gate6.try_block.
  set (vp := Py.truthy (Py.or_ (Py.get d2 "pass") (Py.get d2 "passes"))).
  set (risk := Py.upper (PyRt.str (Py.get_or d4 "risk_level" (VStr "UNDETERMINED")))) in *.
  set (market := Py.upper (PyRt.str (Py.get_or d3 "classification" (VStr "NO_RELEVANT_DATA_FOUND")))) in *.
  set (band := Py.upper (PyRt.str (Py.get_or d2 "valuation_band" (VStr "UNKNOWN")))).
  fold skipped0.
  set (mos := match Py.get d2 "margin_of_safety" with
              | VBool b => Some (if b then 1%Q else 0%Q)
              | VInt z => Some (inject_Z z)
              | VFloat q => Some q
              | _ => None
              end) in *.
  assert (Hmos :
    (if Py.is_none (Py.get d2 "margin_of_safety") then ret None
     else bind (PyRt.float (Py.get d2 "margin_of_safety")) (fun m => ret (Some m))) = ret mos).
  { unfold mos. destruct (Py.get d2 "margin_of_safety"); try contradiction; reflexivity. }
  rewrite Hmos, bind_ret. cbv beta.
  destruct (if negb vp then ("REJECT", "Valuation discipline breached")
            else if String.eqb risk "HIGH" then ("REJECT", "Impairment risk elevated")
            else if String.eqb risk "UNDETERMINED" then ("WATCH", "Impairment unresolved")
            else if String.eqb risk "LOW" then ("INVEST", "Risk acceptable")
            else ("WATCH", "Risk moderate")) as [verdict label] eqn:Echain.
  assert (Hfm : first_match vp risk verdict label).
  { unfold first_match. destruct vp; cbn [negb] in Echain.
    - destruct (String.eqb risk "HIGH") eqn:E1;
        [apply String.eqb_eq in E1; inversion Echain; subst; right; left; auto|].
      destruct (String.eqb risk "UNDETERMINED") eqn:E2;
        [apply String.eqb_eq in E2; inversion Echain; subst; right; right; left; auto|].
      destruct (String.eqb risk "LOW") eqn:E3;
        [apply String.eqb_eq in E3; inversion Echain; subst; right; right; right; left; auto|].
      apply String.eqb_neq in E1, E2, E3. inversion Echain; subst.
      right; right; right; right. auto 10.
    - inversion Echain; subst. left. auto. }
  rewrite (any_missing_dicts _ Hd), bind_ret. cbv beta.
  fold c0.
  destruct (optional_attr_defined g1 "business_summary" Hg1) as [bs Hbs].
  destruct (optional_attr_defined g1 "business_complexity" Hg1) as [bc Hbc].
  rewrite Hbs, bind_ret. cbv beta. rewrite Hbc, bind_ret. cbv beta.
  destruct (executive_summary_defined verdict bs vp band mos risk
              (PyRt.str (Py.get_or d4 "reason" (Py.get_or d4 "reasoning" (VStr ""))))
              market (first_match_verdict _ _ _ _ Hfm)) as [summary Hsum].
  rewrite Hsum, bind_ret. cbv beta.
  destruct (investment_stance_defined verdict (first_match_verdict _ _ _ _ Hfm)) as [stance Hst].
  fold size0.
  destruct skipped0.
  - rewrite bind_ret. cbv beta. rewrite Hst, bind_ret. cbv beta.
    rewrite andb_false_r. cbn [negb andb]. rewrite bind_ret. cbv beta.
    eexists; exists verdict, label. split; [reflexivity|]. split; [exact Hfm|].
    split; [reflexivity|]. split; [reflexivity|]. split; [reflexivity|].
    split; [cbn [negb andb]; rewrite andb_false_r; reflexivity|].
    split; [discriminate|]. reflexivity.
  - cbn [negb andb]. destruct (Py.is_int_or_float size0) eqn:Enum.
    + destruct (float_of_number _ Enum) as [q Hq]. rewrite Hq, !bind_ret. cbv beta.
      rewrite Hst, bind_ret. cbv beta. rewrite andb_true_r.
      destruct (String.eqb verdict "INVEST") eqn:Ev; rewrite ?bind_ret; cbv beta.
      * eexists; exists verdict, label. rewrite Ev.
        split; [reflexivity|]. split; [exact Hfm|].
        split; [reflexivity|]. split; [reflexivity|]. split; [reflexivity|].
        split; [reflexivity|]. split; [|reflexivity].
        intros _. exists q. split; reflexivity.
      * eexists; exists verdict, label. rewrite Ev.
        split; [reflexivity|]. split; [exact Hfm|].
        split; [reflexivity|]. split; [reflexivity|]. split; [reflexivity|].
        split; [reflexivity|]. split; [discriminate|]. reflexivity.
    + rewrite bind_ret. cbv beta. rewrite Hst, bind_ret. cbv beta.
      rewrite andb_false_r. rewrite bind_ret. cbv beta.
      eexists; exists verdict, label. split; [reflexivity|]. split; [exact Hfm|].
      split; [reflexivity|]. split; [reflexivity|]. split; [reflexivity|].
      split; [rewrite andb_false_r; reflexivity|].
      split; [discriminate|]. reflexivity.
Qed.


Lemma aggregate_verdict_sizing (g2 g3 g4 g5 : dict) (g1 : pyval) :
  Signals.accepted g2 g3 g4 ->
  Signals.well_formed g2 g3 g4 g5 g1 ->
  let r := Gate6.aggregate_verdict g2 g3 g4 g5 g1 in
  let c := Gate6._deterministic_confidence (Signals.margin_value g2)
             (Signals.impairment_risk g4) (Signals.market_classification g3)
             (existsb Signals.reports_missing
                [ Signals.diag_part g2; Signals.diag_part g3;
                  Signals.diag_part g4; Signals.diag_part g5 ]) in
  exists verdict label,
    first_match (Signals.valuation_pass g2) (Signals.impairment_risk g4) verdict label /\
    Envelope.status r = VStr "OK" /\
    Envelope.field r "verdict" = VStr verdict /\
    Envelope.confidence r = VInt c /\
    Envelope.field r "confidence" = VInt c /\
    Envelope.field r "confidence_score" =
      VFloat (ResponseUtils.round_float (inject_Z c / 100.0) 2) /\
    Py.contains_key (Envelope.data r) "max_position_size" =
      andb (String.eqb verdict "INVEST")
           (andb (negb (SizingSignals.skipped g5))
                 (Py.is_int_or_float (SizingSignals.size g5))) /\
    (Py.contains_key (Envelope.data r) "max_position_size" = true ->
       exists q, PyRt.float (SizingSignals.size g5) = ret q /\
                 Envelope.field r "max_position_size"
                 = VFloat (ResponseUtils.round_float q 1)) /\
    SizingSignals.line r =
      (if SizingSignals.skipped g5
       then VStr "SKIPPED — Valuation gate failed — position sizing not applicable."
       else if Py.is_int_or_float (SizingSignals.size g5)
            then match PyRt.float (SizingSignals.size g5) with
                 | inr q => VStr (format_float "" (ResponseUtils.round_float q 1) ++ "% NAV")
                 | inl _ => VNone
                 end
            else VStr "N/A").
Proof.
  intros (H3 & H4 & Hp) (Hm & D2 & D3 & D4 & D5 & Hg1) r c.
  unfold r, Gate6.aggregate_verdict.
  rewrite (extract_parts_eta g2), (extract_parts_eta g3), (extract_parts_eta g4),
    (extract_parts_eta g5).
  cbv beta iota.
  unfold Signals.pass_field, Signals.passes_field in Hp.
  rewrite (missing_fields_none _ _ _ _ H3 H4 Hp).
  destruct (try_block_sizing (Signals.data_part g2) (Signals.data_part g3)
              (Signals.data_part g4) (Signals.data_part g5)
              (Signals.diag_part g2) (Signals.diag_part g3)
              (Signals.diag_part g4) (Signals.diag_part g5)
              (snd (Gate6._extract_gate_parts g5)) g1 Hm
              ltac:(repeat constructor; assumption) Hg1)
    as (result & verdict & label & Htry & Hfm & Hv & Hc & Hcs & Hk & Hsz & Hline).
  rewrite Htry. unfold ret. cbn [try_except].
  exists verdict, label. split; [exact Hfm|].
  unfold SizingSignals.line.
  rewrite status_ok_response, !field_ok_response.
  assert (Hdata : forall gate d iu cc ol bc mi,
            Envelope.data (ResponseUtils.ok_response gate d iu cc ol bc mi) = d)
    by reflexivity.
  rewrite Hdata.
  split; [reflexivity|]. split; [exact Hv|]. split.
  { unfold Envelope.confidence. cbn [ResponseUtils.ok_response Py.get Py.assoc String.eqb
                                     Ascii.eqb Bool.eqb].
    f_equal. apply clamp_confidence_id.
    destruct (deterministic_confidence_value (Signals.margin_value g2)
                (Signals.impairment_risk g4) (Signals.market_classification g3)
                (existsb Signals.reports_missing
                   [ Signals.diag_part g2; Signals.diag_part g3;
                     Signals.diag_part g4; Signals.diag_part g5 ])) as (_ & Hr & _).
    fold c in Hr. unfold c in *. lia. }
  split; [exact Hc|]. split; [exact Hcs|]. split; [exact Hk|]. split; [exact Hsz|].
  exact Hline.
Qed.

(** X15. On accepted inputs the confidence of the verdict is
    50, plus 20 for a margin of safety below -1, plus 10 for LOW impairment,
    less 10 for HEADWIND, less 10 for missing inputs; it is a multiple of ten
    between 30 and 80, so the clamp to [0, 100] never changes it; the
    envelope carries it both as its own confidence and in the data, and
    [confidence_score] is exactly a hundredth of it. *)
Theorem X15_verdict_confidence (g2 g3 g4 g5 : dict) (g1 : pyval) :
  Signals.accepted g2 g3 g4 ->
  Signals.well_formed g2 g3 g4 g5 g1 ->
  let r := Gate6.aggregate_verdict g2 g3 g4 g5 g1 in
  exists (c : Z) (score : Q),
    Envelope.confidence r = VInt c /\
    Envelope.field r "confidence" = VInt c /\
    Envelope.field r "confidence_score" = VFloat score /\
    (score == inject_Z c / 100)%Q /\
    c = 50
        + (if match Signals.margin_value g2 with
              | Some m => Py.lt m (-1.0)
              | None => false
              end then 20 else 0)
        + (if String.eqb (Signals.impairment_risk g4) "LOW" then 10 else 0)
        - (if String.eqb (Signals.market_classification g3) "HEADWIND" then 10 else 0)
        - (if existsb Signals.reports_missing
                [ Signals.diag_part g2; Signals.diag_part g3;
                  Signals.diag_part g4; Signals.diag_part g5 ] then 10 else 0) /\
    30 <= c <= 80 /\ c mod 10 = 0.
Proof.
  intros Hacc Hwf r.
  destruct (aggregate_verdict_sizing g2 g3 g4 g5 g1 Hacc Hwf)
    as (verdict & label & _ & _ & _ & Hc & Hd & Hs & _).
  fold r in Hc, Hd, Hs.
  destruct (deterministic_confidence_value (Signals.margin_value g2)
              (Signals.impairment_risk g4) (Signals.market_classification g3)
              (existsb Signals.reports_missing
                 [ Signals.diag_part g2; Signals.diag_part g3;
                   Signals.diag_part g4; Signals.diag_part g5 ])) as (Hv & Hr & Hmod).
  eexists; eexists. split; [exact Hc|]. split; [exact Hd|]. split; [exact Hs|].
  split; [|split; [exact Hv|split; [exact Hr|exact Hmod]]].
  unfold ResponseUtils.round_float.
  set (c := Gate6._deterministic_confidence _ _ _ _).
  assert (E : (inject_Z c / 100.0 * Py.pow10 2 == inject_Z c)%Q).
  { unfold Py.pow10. change (inject_Z (10 ^ Z.of_nat 2)) with 100%Q. field. }
  rewrite (round_fixed _ 2 c E). rewrite Qred_correct. field.
Qed.

(** X16. On accepted inputs the verdict data carry [max_position_size]
    exactly when the verdict is INVEST, the sizing gate was not skipped and
    its [maximum_position_size] is a number; the value is then that number
    rounded to one decimal.  A REJECT or WATCH verdict never carries a
    position size. *)
Theorem X16_position_size_only_on_invest (g2 g3 g4 g5 : dict) (g1 : pyval) :
  Signals.accepted g2 g3 g4 ->
  Signals.well_formed g2 g3 g4 g5 g1 ->
  let r := Gate6.aggregate_verdict g2 g3 g4 g5 g1 in
  (Py.contains_key (Envelope.data r) "max_position_size" = true <->
     Envelope.field r "verdict" = VStr "INVEST" /\
     SizingSignals.skipped g5 = false /\
     Py.is_int_or_float (SizingSignals.size g5) = true) /\
  (Py.contains_key (Envelope.data r) "max_position_size" = true ->
     exists q, PyRt.float (SizingSignals.size g5) = ret q /\
               Envelope.field r "max_position_size" = VFloat (ResponseUtils.round_float q 1)) /\
  (Py.contains_key (Envelope.data r) "max_position_size" = false ->
     Envelope.field r "max_position_size" = VNone).
Proof.
  intros Hacc Hwf r.
  destruct (aggregate_verdict_sizing g2 g3 g4 g5 g1 Hacc Hwf)
    as (verdict & label & _ & _ & Hv & _ & _ & _ & Hk & Hsz & _).
  fold r in Hv, Hk, Hsz.
  split; [|split; [exact Hsz|]].
  - rewrite Hk, Hv, !andb_true_iff, negb_true_iff, String.eqb_eq.
    split.
    + intros (-> & H1 & H2). repeat split; assumption.
    + intros (H & H1 & H2). inversion H. repeat split; assumption.
  - unfold Py.contains_key, Envelope.field, Py.get.
    destruct (Py.assoc "max_position_size" (Envelope.data r)); [discriminate|reflexivity].
Qed.

(** X17. The error for missing signals: the code FINAL_VERDICT_MISSING_INPUTS
    is returned exactly when the gate-3 classification is null, or the
    gate-4 risk level is null, or both pass fields of gate 2 are null.  The
    envelope then has status ERROR, empty data and confidence 0, and lists
    every missing signal at once, in the order gate 3, gate 4, gate 2. *)
Theorem X17_missing_signals (g2 g3 g4 g5 : dict) (g1 : pyval) :
  let r := Gate6.aggregate_verdict g2 g3 g4 g5 g1 in
  let missing :=
    ((if Py.is_none (Py.get (Signals.data_part g3) "classification")
      then [ "gate3_output.classification" ] else [])
     ++ (if Py.is_none (Py.get (Signals.data_part g4) "risk_level")
         then [ "gate4_output.risk_level" ] else [])
     ++ (if andb (Py.is_none (Signals.pass_field g2)) (Py.is_none (Signals.passes_field g2))
         then [ "gate2_output.pass" ] else []))%list in
  (Envelope.error_code r = VStr "FINAL_VERDICT_MISSING_INPUTS" <-> missing <> []) /\
  (missing <> [] ->
     Envelope.status r = VStr "ERROR" /\
     Py.get r "data" = VDict [] /\
     Envelope.confidence r = VInt 0 /\
     Envelope.missing_inputs r = Py.str_list missing /\
     Py.get r "one_liner" = VStr ("Missing required inputs: " ++ Py.join ", " missing)).
Proof.
  intros r missing. unfold r, missing, Gate6.aggregate_verdict.
  rewrite (extract_parts_eta g2), (extract_parts_eta g3), (extract_parts_eta g4),
    (extract_parts_eta g5).
  cbv beta iota.
  unfold Signals.pass_field, Signals.passes_field.
  set (p := Py.get (Signals.data_part g2) "pass").
  set (ps := Py.get (Signals.data_part g2) "passes").
  set (v3 := Py.get (Signals.data_part g3) "classification").
  set (v4 := Py.get (Signals.data_part g4) "risk_level").
  unfold ResponseUtils.missing_required_fields.
  destruct (Py.is_none p), (Py.is_none ps), (Py.is_none v3) eqn:E3, (Py.is_none v4) eqn:E4;
    cbn [andb Py.set String.eqb Ascii.eqb Bool.eqb filter snd fst map Py.is_none app];
    rewrite ?E3, ?E4; cbn [map fst app].
  all: try (split; [split; [intros _; discriminate | intros _; reflexivity]
                   | intros _; repeat split]; fail).
  all: split; [|intro H; exfalso; apply H; reflexivity].
  all: split; [|intro H; exfalso; apply H; reflexivity].
  all: match goal with
       | |- Envelope.error_code (try_except ?b ?h) = _ -> _ =>
           destruct b as [e|r0] eqn:Eb; cbn [try_except]
       end.
  all: try (cbn; intros H; discriminate H).
  all: unfold Gate6.try_block in Eb;
       repeat match type of Eb with
              | bind ?m _ = inr _ => destruct m; cbn [bind] in Eb; [discriminate Eb|]
              | (let '(_, _) := ?c in _) = inr _ => destruct c
              end;
       inversion Eb; cbn; intros H; discriminate H.
Qed.

End Gate6Extra.

(** ** More on the envelopes and the orchestrator *)

Section PipelineExtra.
Context {R : Runtime}.

Lemma extract_parts_ok (gate : string) (data : dict) (iu : list string) (c : Z)
    (ol : string) (bc : option string) (mi : option (list string)) :
  Gate6._extract_gate_parts (ResponseUtils.ok_response gate data iu c ol bc mi) =
  (data,
   VDict (ResponseUtils.build_diagnostics iu
            (Some (match mi with Some l => l | None => [] end)) bc),
   "OK").
Proof. reflexivity. Qed.

Lemma extract_parts_raw (payload : dict) :
  Py.is_dict (Py.get payload "data") = false ->
  Gate6._extract_gate_parts payload = (payload, VDict [], "OK").
Proof.
  intro H. unfold Gate6._extract_gate_parts.
  destruct (Py.get payload "data"); try reflexivity. discriminate.
Qed.

(** X18. [_extract_gate_parts] undoes [ok_response], and a raw data payload
    (one holding no mapping under [data]) is read as the data of an OK
    envelope without diagnostics; hence [aggregate_verdict] gives the same
    answer on raw payloads as on those payloads wrapped by [ok_response]
    with no missing inputs. *)
Theorem X18_raw_payloads_accepted (d2 d3 d4 d5 : dict) (g1 : pyval)
    (gate2 gate3 gate4 gate5 : string) (iu2 iu3 iu4 iu5 : list string)
    (c2 c3 c4 c5 : Z) (ol2 ol3 ol4 ol5 : string) (bc2 bc3 bc4 bc5 : option string) :
  Py.is_dict (Py.get d2 "data") = false ->
  Py.is_dict (Py.get d3 "data") = false ->
  Py.is_dict (Py.get d4 "data") = false ->
  Py.is_dict (Py.get d5 "data") = false ->
  Gate6._extract_gate_parts d2 = (d2, VDict [], "OK") /\
  fst (fst (Gate6._extract_gate_parts
              (ResponseUtils.ok_response gate2 d2 iu2 c2 ol2 bc2 None))) = d2 /\
  Gate6.aggregate_verdict
    (ResponseUtils.ok_response gate2 d2 iu2 c2 ol2 bc2 None)
    (ResponseUtils.ok_response gate3 d3 iu3 c3 ol3 bc3 None)
    (ResponseUtils.ok_response gate4 d4 iu4 c4 ol4 bc4 None)
    (ResponseUtils.ok_response gate5 d5 iu5 c5 ol5 bc5 None) g1
  = Gate6.aggregate_verdict d2 d3 d4 d5 g1.
Proof.
  intros H2 H3 H4 H5.
  split; [apply extract_parts_raw; exact H2|]. split; [reflexivity|].
  unfold Gate6.aggregate_verdict.
  rewrite !extract_parts_ok.
  rewrite (extract_parts_raw d2 H2), (extract_parts_raw d3 H3),
    (extract_parts_raw d4 H4), (extract_parts_raw d5 H5).
  cbv beta iota.
  destruct (ResponseUtils.missing_required_fields _); reflexivity.
Qed.

(** X19. The readers of the orchestrator on the four constructors:
    [_is_fatal] holds for [error_response] only and [_is_partial] for
    [partial_response] only; [_gate_confidence] returns the confidence
    clamped into [0, 100] for [ok_response] and [partial_response], and 0 for
    [error_response] and [skipped_response]. *)
Theorem X19_constructor_readers (gate code message reason one_liner : string) (data : dict)
    (inputs_used missing : list string) (missing_inputs : option (list string))
    (binding_constraint : option string) (confidence : Z) :
  let ok := ResponseUtils.ok_response gate data inputs_used confidence one_liner
              binding_constraint missing_inputs in
  let partial := ResponseUtils.partial_response gate data inputs_used missing confidence
                   one_liner binding_constraint in
  let error := ResponseUtils.error_response gate code message inputs_used missing_inputs
                 binding_constraint in
  let skipped := ResponseUtils.skipped_response gate data inputs_used reason missing_inputs
                   binding_constraint in
  (Orchestrator._is_fatal error = true /\ Orchestrator._is_fatal ok = false /\
   Orchestrator._is_fatal partial = false /\ Orchestrator._is_fatal skipped = false) /\
  (Orchestrator._is_partial partial = true /\ Orchestrator._is_partial ok = false /\
   Orchestrator._is_partial error = false /\ Orchestrator._is_partial skipped = false) /\
  (exists c,
     Orchestrator._gate_confidence ok = ret c /\
     Orchestrator._gate_confidence partial = ret c /\
     0 <= c <= 100 /\
     (0 <= confidence <= 100 -> c = confidence) /\
     (confidence < 0 -> c = 0) /\ (100 < confidence -> c = 100)) /\
  Orchestrator._gate_confidence error = ret 0 /\
  Orchestrator._gate_confidence skipped = ret 0.
Proof.
  intros ok partial error skipped.
  split; [repeat split|]. split; [repeat split|]. split; [|split; reflexivity].
  exists (ResponseUtils.clamp_confidence confidence).
  split; [reflexivity|]. split; [reflexivity|].
  unfold ResponseUtils.clamp_confidence. repeat split; intros; lia.
Qed.

Lemma constructed_diagnostics (r : dict) :
  constructed r -> Py.is_dict (Py.get_or r "diagnostics" (VDict [])) = true.
Proof. intros []; reflexivity. Qed.

(** X20. On envelopes built by the constructors [compute_pipeline_confidence]
    raises nothing; it returns 0 on the empty list and otherwise a multiple
    of ten between 30 and 80. *)
Theorem X20_pipeline_confidence_total (gate_results : list dict) :
  Forall constructed gate_results ->
  exists c,
    ResponseUtils.compute_pipeline_confidence gate_results = ret c /\
    (gate_results = [] -> c = 0) /\
    (gate_results <> [] -> 30 <= c <= 80 /\ c mod 10 = 0).
Proof.
  intro H. destruct gate_results as [|r rs].
  - exists 0. split; [reflexivity|]. split; [reflexivity|]. intro Hn. contradiction.
  - assert (Hd : Forall (fun r => Py.is_dict (Py.get_or r "diagnostics" (VDict [])) = true)
                   (r :: rs)).
    { eapply Forall_impl; [|exact H]. intros a Ha. apply constructed_diagnostics. exact Ha. }
    rewrite (pipeline_confidence_formula (r :: rs) ltac:(discriminate) Hd).
    eexists. split; [reflexivity|]. split; [discriminate|]. intros _.
    apply deterministic_confidence_value.
Qed.

End PipelineExtra.

Section OrchestratorExtra.
Context {R : Runtime} {C : Collaborators}.

(** X21. When identity resolution answers with an error envelope the
    pipeline stops there: the response is the one below, built from that
    envelope alone.  Its pipeline confidence is 50 (40 when the envelope
    lists missing inputs), not 0, and the gate confidence of identity is 0. *)
Theorem X21_halt_at_identity (company_input code message : string) (inputs_used : list string)
    (missing_inputs : option (list string)) (binding_constraint : option string) :
  resolve_identity company_input =
    ResponseUtils.error_response Gate0.GATE_NAME code message inputs_used missing_inputs
      binding_constraint ->
  Orchestrator.run_pipeline company_input = ret
    [ ("status", VStr "ERROR");
      ("failed_stage", VStr "identity");
      ("error", VDict [ ("code", VStr code); ("message", VStr message) ]);
      ("identity", VDict (ResponseUtils.error_response Gate0.GATE_NAME code message
                            inputs_used missing_inputs binding_constraint));
      ("pipeline", VDict
         [ ("confidence", VInt (match missing_inputs with
                                | Some (_ :: _) => 40
                                | _ => 50
                                end));
           ("gate_confidences", VDict [ ("identity", VInt 0) ]);
           ("notes", Py.str_list [ "Pipeline halted at identity" ]) ]);
      ("metadata", VDict
         [ ("timestamp", VStr ResponseUtils.utc_timestamp);
           ("inputs_used", Py.str_list [ "company_input" ]) ]) ].
Proof.
  intro H. unfold Orchestrator.run_pipeline. rewrite H.
  destruct missing_inputs as [[|x xs]|]; reflexivity.
Qed.

(** X22. The gate-1 block is non-blocking and only adds: whatever the
    business-context fetcher and gate 1 do, raising included, the envelopes
    collected so far are kept and at most the gate-1 envelope is appended,
    at most one note is added, the outputs change at most under the keys
    [sec_business_context] and [gate1], and gate-1 data reach the later
    gates only from a gate-1 envelope with status OK or PARTIAL. *)
Theorem X22_gate1_non_blocking (cik : pyval) (outputs : dict) (gate_results : list dict)
    (notes : list string) :
  let s := Orchestrator.gate1_block cik outputs gate_results notes in
  (exists extra,
     Orchestrator.g1_gate_results s = (gate_results ++ extra)%list /\
     (length extra <= 1)%nat /\
     (forall g, extra = [ g ] -> Py.get (Orchestrator.g1_outputs s) "gate1" = VDict g) /\
     (Orchestrator.g1_data s <> VNone ->
        exists g, extra = [ g ] /\
                  Orchestrator.status_in (Py.get g "status") [ "OK"; "PARTIAL" ] = true /\
                  Py.get g "data" = Orchestrator.g1_data s)) /\
  (exists more,
     Orchestrator.g1_notes s = (notes ++ more)%list /\ (length more <= 1)%nat /\
     (more <> [] -> Orchestrator.g1_data s = VNone)) /\
  (forall k, k <> "sec_business_context" -> k <> "gate1" ->
     Py.get (Orchestrator.g1_outputs s) k = Py.get outputs k).
Proof.
  intro s. unfold s, Orchestrator.gate1_block.
  assert (Hitem : forall (d : dict) k v, Py.item d k = inr v -> Py.get d k = v).
  { intros d k v. unfold Py.item, Py.get. destruct (Py.assoc k d); [|discriminate].
    unfold ret. intro E. now inversion E. }
  destruct (fetch_sec_business_context cik) as [e|biz].
  { cbn. split; [exists []; rewrite app_nil_r; repeat split; auto; try discriminate;
                 intro Hn; contradiction|].
    split; [eexists; repeat split; auto|]. intros k _ _. reflexivity. }
  destruct (Py.item biz "status") as [e|st].
  { cbn. split; [exists []; rewrite app_nil_r; repeat split; auto; try discriminate;
                 intro Hn; contradiction|].
    split; [eexists; repeat split; auto|].
    intros k Hk _. apply get_set_other. exact Hk. }
  destruct (Orchestrator.status_in st [ "OK"; "PARTIAL" ]).
  2:{ cbn. split; [exists []; rewrite app_nil_r; repeat split; auto; try discriminate;
                   intro Hn; contradiction|].
      split; [eexists; repeat split; auto|].
      intros k Hk _. apply get_set_other. exact Hk. }
  match goal with
  | |- context [match ?b with inl _ => _ | inr _ => _ end] => destruct b as [e|g1r]
  end.
  { cbn. split; [exists []; rewrite app_nil_r; repeat split; auto; try discriminate;
                 intro Hn; contradiction|].
    split; [eexists; repeat split; auto|].
    intros k Hk _. apply get_set_other. exact Hk. }
  assert (Hout : forall k, k <> "sec_business_context" -> k <> "gate1" ->
            Py.get (Py.set (Py.set outputs "sec_business_context" (VDict biz)) "gate1"
                      (VDict g1r)) k = Py.get outputs k).
  { intros k H1 H2. rewrite !get_set_other by assumption. reflexivity. }
  assert (Hg1 : forall d v, Py.get (Py.set d "gate1" v) "gate1" = v).
  { intros d v. unfold Py.get. induction d as [|[k0 v0] d IH]; cbn [Py.set Py.assoc].
    - reflexivity.
    - destruct (String.eqb "gate1" k0) eqn:E; cbn [Py.assoc]; rewrite ?E; [reflexivity|exact IH]. }
  destruct (Py.item g1r "status") as [e|st1] eqn:Est.
  { cbn. split; [exists [g1r]; repeat split; auto; try (intro Hn; contradiction);
                 intros g Hg; inversion Hg; subst; apply Hg1|].
    split; [eexists; repeat split; auto|]. exact Hout. }
  destruct (Orchestrator.status_in st1 [ "OK"; "PARTIAL" ]) eqn:Ein.
  2:{ cbn. split; [exists [g1r]; repeat split; auto; try (intro Hn; contradiction);
                   intros g Hg; inversion Hg; subst; apply Hg1|].
      split; [exists []; rewrite app_nil_r; repeat split; auto; intro Hn; contradiction|].
      exact Hout. }
  destruct (Py.item g1r "data") as [e|d] eqn:Ed.
  { cbn. split; [exists [g1r]; repeat split; auto; try (intro Hn; contradiction);
                 intros g Hg; inversion Hg; subst; apply Hg1|].
    split; [eexists; repeat split; auto|]. exact Hout. }
  cbn. split.
  - exists [g1r]. split; [reflexivity|]. split; [auto|]. split.
    + intros g Hg; inversion Hg; subst; apply Hg1.
    + intros _. exists g1r. split; [reflexivity|]. split.
      * rewrite (Hitem _ _ _ Est). exact Ein.
      * apply Hitem. exact Ed.
  - split; [exists []; rewrite app_nil_r; repeat split; auto; intro Hn; contradiction|].
    exact Hout.
Qed.

End OrchestratorExtra.

(** ** A failed valuation, from gate 2 to the verdict *)

Section ChainExtra.
Context {R : Runtime}.

(** The shape of a valuation envelope on the computation path, as the
    verdict gate reads it. *)
Lemma valuation_envelope_signals (mp ni td ca so : Q) (fcf : option Q) :
  (0 < so)%Q ->
  let g2 := Gate2.calculate_valuation (Some mp) (Some ni) fcf (Some td) (Some ca) (Some so) in
  exists (d : dict) (b : bool),
    Py.get g2 "data" = VDict d /\
    Signals.data_part g2 = d /\
    Py.get d "pass" = VBool b /\ Py.get d "passes" = VBool b /\
    Envelope.field g2 "pass" = VBool b /\
    match Py.get d "margin_of_safety" with
    | VNone | VBool _ | VInt _ | VFloat _ => True
    | _ => False
    end /\
    Py.is_dict (Signals.diag_part g2) = true.
Proof.
  intros Hso g2.
  destruct (compute_locals_value mp ni td ca so fcf Hso) as (l & log & Hl & _).
  unfold g2, Gate2.calculate_valuation.
  rewrite (calculate_valuation_valid mp ni td ca so fcf l log Hso Hl). cbn [fst].
  eexists; exists (Gate2.passes l).
  split; [reflexivity|]. split; [reflexivity|].
  destruct (build_data_fields mp l
              (VDict (Gate2._run_valuation_supervisor (Gate2.build_data mp l))))
    as (F1 & _ & F3 & F4 & _).
  split; [exact F3|]. split; [exact F4|]. split; [rewrite field_ok_response; exact F3|].
  split; [|reflexivity].
  rewrite F1. destruct (Gate2.margin_of_safety l); exact I.
Qed.

(** X23. A failed valuation runs through the later stages as follows: the
    orchestrator's check asks for sizing to be suppressed, the sizing gate
    then answers SKIPPED whatever its other inputs are, and the verdict gate
    answers REJECT with the label of the valuation rule, carries no position
    size and reports the sizing line as skipped. *)
Theorem X23_failed_valuation_chain (mp ni td ca so : Q) (fcf : option Q)
    (vol dd ir : option Q) (cs : option string) (corr : option Q)
    (g3 g4 : dict) (g1 : pyval) :
  (0 < so)%Q ->
  Envelope.field
    (Gate2.calculate_valuation (Some mp) (Some ni) fcf (Some td) (Some ca) (Some so))
    "pass" = VBool false ->
  Py.get (Signals.data_part g3) "classification" <> VNone ->
  Py.get (Signals.data_part g4) "risk_level" <> VNone ->
  Py.is_dict (Signals.diag_part g3) = true ->
  Py.is_dict (Signals.diag_part g4) = true ->
  (g1 = VNone \/ Py.is_dict g1 = true) ->
  let g2 := Gate2.calculate_valuation (Some mp) (Some ni) fcf (Some td) (Some ca) (Some so) in
  let g5 := Gate5.calculate_position_size vol dd ir cs corr true in
  let final := Gate6.aggregate_verdict g2 g3 g4 g5 g1 in
  Orchestrator._should_suppress_sizing g2 g4 = ret true /\
  Envelope.status g5 = VStr "SKIPPED" /\
  Envelope.status final = VStr "OK" /\
  Envelope.field final "verdict" = VStr "REJECT" /\
  Envelope.field final "setup_label" = VStr "Valuation discipline breached" /\
  Py.contains_key (Envelope.data final) "max_position_size" = false /\
  SizingSignals.line final =
    VStr "SKIPPED — Valuation gate failed — position sizing not applicable.".
Proof.
  intros Hso Hfail H3 H4 D3 D4 Hg1 g2 g5 final.
  destruct (valuation_envelope_signals mp ni td ca so fcf Hso)
    as (d & b & Hd & Hdp & Hp & Hps & Hf & Hm & Hdiag).
  fold g2 in Hd, Hdp, Hf, Hdiag, Hfail.
  rewrite Hf in Hfail. inversion Hfail; subst b. clear Hfail.
  assert (Hvp : Signals.valuation_pass g2 = false).
  { unfold Signals.valuation_pass, Signals.pass_field, Signals.passes_field.
    rewrite Hdp, Hp, Hps. reflexivity. }
  assert (Hacc : Signals.accepted g2 g3 g4).
  { split; [exact H3|]. split; [exact H4|].
    unfold Signals.pass_field. rewrite Hdp, Hp. intros [H _]. discriminate. }
  assert (Hwf : Signals.well_formed g2 g3 g4 g5 g1).
  { unfold Signals.well_formed. rewrite Hdp.
    split; [exact Hm|]. split; [exact Hdiag|]. split; [exact D3|]. split; [exact D4|].
    split; [reflexivity|exact Hg1]. }
  split.
  { rewrite (should_suppress_sizing_value g2 g4 d Hd), Hp, Hps. reflexivity. }
  split; [reflexivity|].
  destruct (aggregate_verdict_accepted g2 g3 g4 g5 g1 Hacc Hwf)
    as (verdict & label & Hfm & Hs & Hv & Hl & _).
  destruct (aggregate_verdict_sizing g2 g3 g4 g5 g1 Hacc Hwf)
    as (verdict' & label' & _ & _ & Hv' & _ & _ & _ & Hk & _ & Hline).
  fold final in Hs, Hv, Hl, Hv', Hk, Hline.
  rewrite Hvp in Hfm. unfold first_match in Hfm.
  destruct Hfm as [(_ & -> & ->)|[(F & _)|[(F & _)|[(F & _)|(F & _)]]]]; try discriminate.
  split; [exact Hs|]. split; [exact Hv|]. split; [exact Hl|].
  assert (Hsk : SizingSignals.skipped g5 = true) by reflexivity.
  rewrite Hsk in Hk, Hline. cbn [negb andb] in Hk. rewrite andb_false_r in Hk.
  split; [exact Hk | exact Hline].
Qed.

End ChainExtra.

(** ** The credit-stress bands of the FRED fetcher *)

Section MacroBands.

Lemma credit_stress_band_cases (nfci : Q) :
  (Fred._credit_stress_band nfci = "LOW" /\ Fred._credit_stress_regime nfci = "EASY" /\
   (nfci < 0)%Q) \/
  (Fred._credit_stress_band nfci = "MEDIUM" /\ Fred._credit_stress_regime nfci = "NEUTRAL" /\
   (0 <= nfci)%Q /\ (nfci < 0.75)%Q) \/
  (Fred._credit_stress_band nfci = "HIGH" /\ Fred._credit_stress_regime nfci = "TIGHT" /\
   (0.75 <= nfci)%Q).
Proof.
  unfold Fred._credit_stress_band, Fred._credit_stress_regime.
  by_cases_ge nfci 0.75%Q.
  - right; right. repeat split; lra.
  - by_cases_ge nfci 0.0%Q.
    + right; left. repeat split; lra.
    + left. repeat split; lra.
Qed.

(** X24. The band [fetch_fred_data] derives from the NFCI index is LOW below 0,
    MEDIUM from 0 up to but excluding 0.75 and HIGH from 0.75 on, with the
    regime labels EASY, NEUTRAL, TIGHT in step with it.  Every band is a
    credit-stress value gates 4 and 5 accept, so the macro factor of gate 5
    is defined on it, and a higher index never gives a larger macro
    factor. *)
Theorem X24_fred_band_feeds_gates (nfci nfci' ir : Q) :
  let band := Fred._credit_stress_band nfci in
  let regime := Fred._credit_stress_regime nfci in
  ((band = "LOW" /\ regime = "EASY" /\ (nfci < 0)%Q) \/
   (band = "MEDIUM" /\ regime = "NEUTRAL" /\ (0 <= nfci)%Q /\ (nfci < 0.75)%Q) \/
   (band = "HIGH" /\ regime = "TIGHT" /\ (0.75 <= nfci)%Q)) /\
  Py.mem (Py.upper band) Gate5.VALID_CREDIT_STRESS = true /\
  Py.mem (Py.upper band) Impairment.VALID_CREDIT_STRESS = true /\
  exists fm fm',
    Gate5._macro_factor ir band = ret fm /\
    Gate5._macro_factor ir (Fred._credit_stress_band nfci') = ret fm' /\
    ((nfci <= nfci')%Q -> (fm' <= fm)%Q).
Proof.
  intros band regime. unfold band, regime.
  split; [apply credit_stress_band_cases|].
  destruct (credit_stress_band_cases nfci) as [(E & _ & H)|[(E & _ & H & H')|(E & _ & H)]];
    rewrite E; (split; [reflexivity|]); (split; [reflexivity|]);
    destruct (credit_stress_band_cases nfci') as [(E' & _ & G)|[(E' & _ & G & G')|(E' & _ & G)]];
    rewrite E'; unfold Gate5._macro_factor;
    cbn [Py.lookup String.eqb Ascii.eqb Bool.eqb bind ret];
    eexists; eexists; (split; [reflexivity|]); (split; [reflexivity|]);
    intro Hle; try lra; unfold Py.min;
    by_cases_le ir 0.03%Q; try by_cases_le ir 0.05%Q; try by_cases_le ir 0.07%Q;
    repeat match goal with
           | |- context [Py.lt ?a ?b] => by_cases_lt a b
           end; lra.
Qed.

End MacroBands.

(** ** Gate 4 *)

Section ImpairmentExtra.
Context {R : Runtime} {L : Llm}.

Lemma undetermined_answer (inputs : list string) (reason : string)
    (missing : option (list string)) :
  impairment_answer (Impairment._undetermined_response inputs reason missing).
Proof.
  split; [reflexivity|]. split; [reflexivity|].
  exists "UNDETERMINED", "NONE", 0.
  split; [reflexivity|]. split; [reflexivity|]. split; [reflexivity|].
  split; [reflexivity|]. split; [reflexivity|].
  split; [intros _; left; reflexivity | intro F; contradiction F; reflexivity].
Qed.

Lemma risk_level_cases (s : string) :
  Py.mem s Impairment.VALID_RISK_LEVELS = true ->
  s = "LOW" \/ s = "MEDIUM" \/ s = "HIGH" \/ s = "UNDETERMINED".
Proof.
  unfold Py.mem, Impairment.VALID_RISK_LEVELS. cbn [existsb].
  rewrite !orb_true_iff, !String.eqb_eq. intuition discriminate.
Qed.

Lemma impairment_try_block_answer (ni fcf ca td nd ie ic so ir : option Q) (cs : string)
    (csi : option Q) (bc : option string) (all_missing : list string) (partial : bool)
    (r : dict) :
  Impairment.try_block ni fcf ca td nd ie ic so ir cs csi bc all_missing partial = inr r ->
  impairment_answer r.
Proof.
  unfold Impairment.try_block.
  destruct (impairment_model _) as [e|payload]; cbn [bind]; [discriminate|].
  destruct payload as [|?|?|?|?|?|d]; cbn [Py.attr_get bind raise ret]; try discriminate.
  set (level := Py.upper (PyText.strip (PyRt.str (Py.get_or d "risk_level" (VStr ""))))).
  set (driver := Py.upper (PyText.strip (PyRt.str (Py.get_or d "risk_driver" (VStr ""))))).
  set (reasoning := PyText.strip (PyRt.str (Py.get_or d "reasoning" (VStr "")))).
  destruct (Py.mem level Impairment.VALID_RISK_LEVELS) eqn:Elevel; cbn [negb].
  2:{ intro H. inversion H. apply undetermined_answer. }
  destruct (String.eqb reasoning "") eqn:Ereason.
  { intro H. inversion H. apply undetermined_answer. }
  destruct (Impairment._reasoning_meets_constraints reasoning) as [valid msg].
  set (driver' := if negb (Py.mem driver Impairment.VALID_RISK_DRIVERS) then "NONE" else driver).
  assert (Hdriver : Py.mem driver' Impairment.VALID_RISK_DRIVERS = true).
  { unfold driver'. destruct (Py.mem driver Impairment.VALID_RISK_DRIVERS) eqn:E;
      cbn [negb]; [exact E | reflexivity]. }
  intro H.
  assert (Hr : exists c data bcn mi,
            r = ResponseUtils.ok_response Impairment.GATE_NAME data Impairment.inputs_used c
                  (level ++ " impairment risk — driver: " ++ driver') bcn mi /\
            Py.get data "risk_level" = VStr level /\
            Py.get data "risk_driver" = VStr driver' /\
            ((level = "UNDETERMINED" /\ (c = 0 \/ c = 20)) \/
             (level <> "UNDETERMINED" /\ 40 <= c <= 85))).
  { destruct (risk_level_cases level Elevel) as [E|[E|[E|E]]]; rewrite E in H |- *;
      cbn [String.eqb Ascii.eqb Bool.eqb] in H;
      destruct partial, valid; inversion H;
      (eexists; eexists; eexists; eexists;
       split; [reflexivity|]; split; [reflexivity|]; split; [reflexivity|]);
      first [ left; split; [reflexivity|]; vm_compute; auto; fail
            | right; split; [discriminate|]; vm_compute; split; discriminate ]. }
  destruct Hr as (c & data & bcn & mi & -> & Hl & Hd & Hc).
  split; [reflexivity|]. split; [reflexivity|].
  exists level, driver', (ResponseUtils.clamp_confidence c).
  rewrite !field_ok_response.
  split; [exact Hl|]. split; [exact Elevel|]. split; [exact Hd|]. split; [exact Hdriver|].
  split; [reflexivity|].
  assert (Hcl : ResponseUtils.clamp_confidence c = c).
  { apply clamp_confidence_id. destruct Hc as [(_ & [->| ->])|(_ & Hc)]; lia. }
  rewrite Hcl.
  destruct Hc as [(Hu & Hc)|(Hu & Hc)].
  - split; [intros _; exact Hc | intro F; contradiction].
  - split; [intro F; contradiction | intros _; exact Hc].
Qed.

Lemma assess_impairment_risk_answer (ni fcf ca td nd ie ic so ir : option Q)
    (cs : option string) (csi : option Q) (bc : option string) :
  exists r,
    Impairment.assess_impairment_risk ni fcf ca td nd ie ic so ir cs csi bc = ret r /\
    impairment_answer r.
Proof.
  unfold Impairment.assess_impairment_risk.
  destruct ca as [ca|], td as [td|], ir as [ir|], cs as [cs|];
    cbn [Py.of_float Py.of_str filter map snd fst Py.is_none];
    try (eexists; split; [reflexivity | apply undetermined_answer]).
  destruct (andb (Py.is_none (Py.of_float ie)) (Py.is_none (Py.of_float ic))).
  { eexists; split; [reflexivity | apply undetermined_answer]. }
  destruct (negb (Py.mem _ Impairment.VALID_CREDIT_STRESS)).
  { eexists; split; [reflexivity | apply undetermined_answer]. }
  cbn [PyRt.float_opt bind ret].
  destruct (Py.gt ir 1.0).
  { eexists; split; [reflexivity | apply undetermined_answer]. }
  destruct (negb google_api_key).
  { eexists; split; [reflexivity | apply undetermined_answer]. }
  eexists; split; [reflexivity|].
  destruct (Impairment.try_block _ _ _ _ _ _ _ _ _ _ _ _ _ _) as [e|r] eqn:Et;
    cbn [try_except].
  - apply undetermined_answer.
  - apply (impairment_try_block_answer _ _ _ _ _ _ _ _ _ _ _ _ _ _ _ Et).
Qed.

Lemma mem_In (x : string) (l : list string) : Py.mem x l = true <-> In x l.
Proof.
  unfold Py.mem. rewrite existsb_exists. split.
  - intros (y & Hy & E). apply String.eqb_eq in E. subst. exact Hy.
  - intro H. exists x. split; [exact H | apply String.eqb_refl].
Qed.

(** X25. [assess_impairment_risk] returns on every input and for every
    behaviour of the model (an exception, a non-object answer, any strings):
    it raises nothing, its status is OK, so the orchestrator never halts on
    it, the reported risk level is one of LOW, MEDIUM, HIGH, UNDETERMINED and
    the driver one of LEVERAGE, REFINANCING, CASH_FLOW, NONE.  An
    UNDETERMINED answer has confidence 0 or 20, any other between 40 and
    85. *)
Theorem X25_impairment_never_fatal (ni fcf ca td nd ie ic so ir : option Q)
    (cs : option string) (csi : option Q) (bc : option string) :
  exists r level driver c,
    Impairment.assess_impairment_risk ni fcf ca td nd ie ic so ir cs csi bc = ret r /\
    Orchestrator._is_fatal r = false /\
    Envelope.status r = VStr "OK" /\
    Envelope.gate_name r = VStr "Gate 4 – Impairment Risk" /\
    Envelope.field r "risk_level" = VStr level /\
    In level [ "LOW"; "MEDIUM"; "HIGH"; "UNDETERMINED" ] /\
    Envelope.field r "risk_driver" = VStr driver /\
    In driver [ "LEVERAGE"; "REFINANCING"; "CASH_FLOW"; "NONE" ] /\
    Envelope.confidence r = VInt c /\
    (level = "UNDETERMINED" -> c = 0 \/ c = 20) /\
    (level <> "UNDETERMINED" -> 40 <= c <= 85).
Proof.
  destruct (assess_impairment_risk_answer ni fcf ca td nd ie ic so ir cs csi bc)
    as (r & Hr & Hs & Hg & level & driver & c & Hl & Hlm & Hd & Hdm & Hc & Hu & Hn).
  exists r, level, driver, c.
  split; [exact Hr|].
  split; [unfold Orchestrator._is_fatal; unfold Envelope.status in Hs; rewrite Hs; reflexivity|].
  split; [exact Hs|]. split; [exact Hg|]. split; [exact Hl|].
  split; [apply mem_In in Hlm; exact Hlm|]. split; [exact Hd|].
  split; [apply mem_In in Hdm; exact Hdm|]. split; [exact Hc|].
  split; [exact Hu | exact Hn].
Qed.

End ImpairmentExtra.

Section ImpairmentAbstention.
Context {R : Runtime}.

(** X26. When cash, total debt, the interest rate or the credit-stress band is
    null, or interest expense and interest coverage are both null,
    [assess_impairment_risk] answers without consulting the model: the
    answer is the same for any two models, it is UNDETERMINED with driver
    NONE and confidence 0, its binding constraint is DATA_AVAILABILITY, and
    its [missing_inputs] lists the null core inputs in the order cash,
    total_debt, interest_rate, credit_stress, or, when no core input is null,
    interest_expense and interest_coverage. *)
Theorem X26_impairment_abstains_on_missing_data (L1 L2 : Llm)
    (ni fcf ca td nd ie ic so ir : option Q) (cs : option string) (csi : option Q)
    (bc : option string) :
  (ca = None \/ td = None \/ ir = None \/ cs = None \/ (ie = None /\ ic = None)) ->
  let core :=
    ResponseUtils.missing_required_fields
      [ ("cash", Py.of_float ca); ("total_debt", Py.of_float td);
        ("interest_rate", Py.of_float ir); ("credit_stress", Py.of_str cs) ] in
  exists r,
    Impairment.assess_impairment_risk (L := L1) ni fcf ca td nd ie ic so ir cs csi bc = ret r /\
    Impairment.assess_impairment_risk (L := L2) ni fcf ca td nd ie ic so ir cs csi bc = ret r /\
    Envelope.status r = VStr "OK" /\
    Envelope.field r "risk_level" = VStr "UNDETERMINED" /\
    Envelope.field r "risk_driver" = VStr "NONE" /\
    Envelope.confidence r = VInt 0 /\
    Py.get (Envelope.diagnostics r) "binding_constraint" = VStr "DATA_AVAILABILITY" /\
    Envelope.missing_inputs r =
      Py.str_list (match core with
                   | [] => [ "interest_expense"; "interest_coverage" ]
                   | _ :: _ => core
                   end).
Proof.
  intros H core. unfold core, Impairment.assess_impairment_risk.
  destruct ca as [ca|], td as [td|], ir as [ir|], cs as [cs|];
    cbn [ResponseUtils.missing_required_fields Py.of_float Py.of_str filter map snd fst
         Py.is_none];
    try (eexists; repeat (split; [reflexivity|]); reflexivity).
  destruct H as [H|[H|[H|[H|(-> & ->)]]]]; try discriminate.
  eexists; repeat (split; [reflexivity|]); reflexivity.
Qed.

End ImpairmentAbstention.

(** ** Gate 3 *)

Section MarketStructureExtra.
Context {R : Runtime} {L : Llm}.

Lemma no_relevant_data_answer (inputs : list string) (reason : string)
    (missing : option (list string)) :
  market_answer (MarketStructure._no_relevant_data_response inputs reason missing).
Proof.
  split; [reflexivity|]. split; [reflexivity|]. split; [reflexivity|].
  exists "NO_RELEVANT_DATA_FOUND", 0.
  split; [reflexivity|]. split; [reflexivity|]. split; [reflexivity|].
  left. split; reflexivity.
Qed.

Lemma classification_cases (s : string) :
  Py.mem s MarketStructure.VALID_CLASSIFICATIONS = true ->
  s = "TAILWIND" \/ s = "NEUTRAL" \/ s = "HEADWIND" \/ s = "NO_RELEVANT_DATA_FOUND".
Proof.
  unfold Py.mem, MarketStructure.VALID_CLASSIFICATIONS. cbn [existsb].
  rewrite !orb_true_iff, !String.eqb_eq. intuition discriminate.
Qed.

Lemma market_try_block_answer (lp : option Q) (lv av : option Z) (vs : option Q)
    (pd fs : option string) (yes no : option Q) (ms : option string) (r : dict) :
  MarketStructure.try_block lp lv av vs pd fs yes no ms = inr r -> market_answer r.
Proof.
  unfold MarketStructure.try_block.
  destruct (market_structure_model _) as [e|payload]; cbn [bind]; [discriminate|].
  destruct payload as [|?|?|?|?|?|d]; cbn [Py.attr_get bind raise ret]; try discriminate.
  set (cls := Py.upper (PyText.strip (PyRt.str (Py.get_or d "classification" (VStr ""))))).
  set (label := PyText.strip (PyRt.str (Py.get_or d "setup_label" (VStr "")))).
  set (reasoning := PyText.strip (PyRt.str (Py.get_or d "reasoning" (VStr "")))).
  destruct (Py.mem cls MarketStructure.VALID_CLASSIFICATIONS) eqn:Ecls; cbn [negb].
  2:{ intro H. inversion H. apply no_relevant_data_answer. }
  destruct (String.eqb reasoning "") eqn:Ereason.
  { intro H. inversion H. apply no_relevant_data_answer. }
  set (label' := if String.eqb label "" then _ else label).
  set (reasoning' := if 3 <? MarketStructure._count_sentences reasoning then _ else reasoning).
  destruct (classification_cases cls Ecls) as [E|[E|[E|E]]]; rewrite E;
    cbn [String.eqb Ascii.eqb Bool.eqb].
  - destruct (MarketStructure._reasoning_has_sentence_level_references reasoning') eqn:Eref;
      intro H; inversion H; [|apply no_relevant_data_answer].
    split; [reflexivity|]. split; [reflexivity|]. split; [reflexivity|].
    exists "TAILWIND", 75.
    split; [reflexivity|]. split; [reflexivity|]. split; [reflexivity|].
    right; right. split; [left; reflexivity|]. split; [reflexivity|].
    exists reasoning'. split; [reflexivity | exact Eref].
  - intro H; inversion H.
    split; [reflexivity|]. split; [reflexivity|]. split; [reflexivity|].
    exists "NEUTRAL", 60.
    split; [reflexivity|]. split; [reflexivity|]. split; [reflexivity|].
    right; left. split; reflexivity.
  - destruct (MarketStructure._reasoning_has_sentence_level_references reasoning') eqn:Eref;
      intro H; inversion H; [|apply no_relevant_data_answer].
    split; [reflexivity|]. split; [reflexivity|]. split; [reflexivity|].
    exists "HEADWIND", 75.
    split; [reflexivity|]. split; [reflexivity|]. split; [reflexivity|].
    right; right. split; [right; reflexivity|]. split; [reflexivity|].
    exists reasoning'. split; [reflexivity | exact Eref].
  - intro H; inversion H.
    split; [reflexivity|]. split; [reflexivity|]. split; [reflexivity|].
    exists "NO_RELEVANT_DATA_FOUND", 0.
    split; [reflexivity|]. split; [reflexivity|]. split; [reflexivity|].
    left. split; reflexivity.
Qed.

Lemma analyze_market_structure_answer (lp : option Q) (lv av : option Z) (vs : option Q)
    (pd fs : option string) (yes no : option Q) (ms : option string) :
  market_answer (MarketStructure.analyze_market_structure lp lv av vs pd fs yes no ms).
Proof.
  unfold MarketStructure.analyze_market_structure.
  destruct (ResponseUtils.missing_required_fields _); [|apply no_relevant_data_answer].
  destruct (MarketStructure._is_no_data _ _ _ _ _ _); [apply no_relevant_data_answer|].
  destruct (negb google_api_key); [apply no_relevant_data_answer|].
  destruct (MarketStructure.try_block _ _ _ _ _ _ _ _ _) as [e|r] eqn:Et; cbn [try_except].
  - apply no_relevant_data_answer.
  - apply (market_try_block_answer _ _ _ _ _ _ _ _ _ _ Et).
Qed.

(** X27. [analyze_market_structure] answers OK on every input and for every
    behaviour of the model, so the orchestrator never halts on it.  The
    classification is one of the four allowed names and fixes the
    confidence: 0 for NO_RELEVANT_DATA_FOUND, 60 for NEUTRAL, 75 for TAILWIND
    and HEADWIND; the data block repeats that confidence.  A TAILWIND or
    HEADWIND answer leaves the gate only when every sentence of the reported
    analysis names one of the provided variables. *)
Theorem X27_market_structure_never_fatal (lp : option Q) (lv av : option Z) (vs : option Q)
    (pd fs : option string) (yes no : option Q) (ms : option string) :
  let r := MarketStructure.analyze_market_structure lp lv av vs pd fs yes no ms in
  Orchestrator._is_fatal r = false /\
  Envelope.status r = VStr "OK" /\
  Envelope.gate_name r = VStr "Gate 3 – Market Structure" /\
  exists classification c,
    Envelope.field r "classification" = VStr classification /\
    Envelope.confidence r = VInt c /\
    Envelope.field r "confidence" = VInt c /\
    ((classification = "NO_RELEVANT_DATA_FOUND" /\ c = 0) \/
     (classification = "NEUTRAL" /\ c = 60) \/
     ((classification = "TAILWIND" \/ classification = "HEADWIND") /\ c = 75 /\
      exists analysis,
        Envelope.field r "analysis" = VStr analysis /\
        MarketStructure._reasoning_has_sentence_level_references analysis = true)).
Proof.
  intro r.
  destruct (analyze_market_structure_answer lp lv av vs pd fs yes no ms)
    as (Hs & Hg & _ & H). fold r in Hs, Hg, H.
  split; [unfold Orchestrator._is_fatal; unfold Envelope.status in Hs; rewrite Hs; reflexivity|].
  split; [exact Hs|]. split; [exact Hg | exact H].
Qed.

End MarketStructureExtra.

Section MarketStructureAbstention.
Context {R : Runtime}.

Lemma or_empty_str (o : option string) (s : string) :
  o = Some s -> PyRt.str (Py.or_ (Py.of_str o) (VStr "")) = s.
Proof. intros ->. destruct s; reflexivity. Qed.

(** X28. The gate abstains without consulting the model when a required input
    is null, when the last or the average volume is 0, when the price
    direction is FLAT and the flow signal NEUTRAL in any letter case, or when
    both prediction-market prices are null: the answer is the same for any
    two models, it is NO_RELEVANT_DATA_FOUND with confidence 0, and its
    [missing_inputs] lists the null required inputs only, so absent
    prediction-market prices are never reported as missing. *)
Theorem X28_market_structure_abstains (L1 L2 : Llm) (lp : option Q) (lv av : option Z)
    (vs : option Q) (pd fs : option string) (yes no : option Q) (ms : option string) :
  (lp = None \/ lv = None \/ av = None \/ vs = None \/ pd = None \/ fs = None \/ ms = None \/
   av = Some 0 \/ lv = Some 0 \/
   (exists p f, pd = Some p /\ fs = Some f /\ Py.upper p = "FLAT" /\ Py.upper f = "NEUTRAL") \/
   (yes = None /\ no = None)) ->
  let r := MarketStructure.analyze_market_structure (L := L1) lp lv av vs pd fs yes no ms in
  MarketStructure.analyze_market_structure (L := L2) lp lv av vs pd fs yes no ms = r /\
  Envelope.status r = VStr "OK" /\
  Envelope.field r "classification" = VStr "NO_RELEVANT_DATA_FOUND" /\
  Envelope.confidence r = VInt 0 /\
  Envelope.missing_inputs r =
    Py.str_list
      (ResponseUtils.missing_required_fields
         [ ("last_price", Py.of_float lp); ("last_volume", MarketStructure.of_int lv);
           ("avg_volume", MarketStructure.of_int av); ("volume_spike", Py.of_float vs);
           ("price_direction", Py.of_str pd); ("flow_signal", Py.of_str fs);
           ("macro_signal", Py.of_str ms) ]).
Proof.
  intros H r. unfold r, MarketStructure.analyze_market_structure.
  destruct (ResponseUtils.missing_required_fields _) as [|m ms'] eqn:Em.
  2:{ repeat (split; [reflexivity|]). reflexivity. }
  assert (Hnd : MarketStructure._is_no_data av lv pd fs yes no = true).
  { destruct lp as [lp|], lv as [lv|], av as [av|], vs as [vs|], pd as [pd|], fs as [fs|],
             ms as [ms|]; try discriminate Em.
    clear Em. unfold MarketStructure._is_no_data.
    destruct H as [H|[H|[H|[H|[H|[H|[H|[H|[H|[H|H]]]]]]]]]]; try discriminate H.
    - inversion H. reflexivity.
    - inversion H. destruct (av =? 0); reflexivity.
    - destruct H as (p & f & Hp & Hf & Up & Uf).
      rewrite (or_empty_str (Some pd) p Hp), (or_empty_str (Some fs) f Hf), Up, Uf.
      destruct (av =? 0); [reflexivity|]. destruct (lv =? 0); reflexivity.
    - destruct H as (-> & ->).
      destruct (av =? 0); [reflexivity|]. destruct (lv =? 0); [reflexivity|].
      destruct (andb _ _); reflexivity. }
  rewrite Hnd. repeat (split; [reflexivity|]). reflexivity.
Qed.

End MarketStructureAbstention.

(** ** Gates 2 to 6 together *)

Section GateChain.
Context {R : Runtime} {L : Llm}.

Lemma constructed_parts (r : dict) :
  constructed r ->
  Py.is_dict (Signals.diag_part r) = true /\ Signals.data_part r = Envelope.data r.
Proof. intros []; split; reflexivity. Qed.

Lemma sizing_try_block_constructed (vol dd ir : option Q) (cs : option string)
    (corr : option Q) (r : dict) :
  Gate5.try_block vol dd ir cs corr = inr r -> constructed r.
Proof.
  unfold Gate5.try_block. intro H.
  destruct (negb _); [inversion H; constructor|].
  destruct (PyRt.float_opt ir) as [e|x]; cbn [bind] in H; [discriminate|].
  destruct (Py.gt x 1.0); [inversion H; constructor|].
  repeat match type of H with
         | bind ?m _ = inr _ => destruct m; cbn [bind] in H; [discriminate H|]
         end.
  inversion H. constructor.
Qed.

Lemma sizing_constructed (vol dd ir : option Q) (cs : option string) (corr : option Q)
    (upstream_reject : bool) :
  constructed (Gate5.calculate_position_size vol dd ir cs corr upstream_reject).
Proof.
  unfold Gate5.calculate_position_size.
  destruct upstream_reject; [constructor|].
  destruct (ResponseUtils.missing_required_fields _); [|constructor].
  destruct (Gate5.try_block vol dd ir cs corr) as [e|r] eqn:Et; cbn [try_except].
  - constructor.
  - apply (sizing_try_block_constructed _ _ _ _ _ _ Et).
Qed.

Lemma sizing_status_cases (vol dd ir : option Q) (cs : option string) (corr : option Q)
    (upstream_reject : bool) :
  let r := Gate5.calculate_position_size vol dd ir cs corr upstream_reject in
  Envelope.status r = VStr "SKIPPED" \/ Envelope.status r = VStr "OK".
Proof.
  unfold Gate5.calculate_position_size.
  destruct upstream_reject; [left; reflexivity|].
  destruct (ResponseUtils.missing_required_fields _); [|left; reflexivity].
  destruct (Gate5.try_block vol dd ir cs corr) as [e|r] eqn:Et; cbn [try_except].
  - left; reflexivity.
  - destruct (try_block_status _ _ _ _ _ _ Et) as [(H & _)|(H & _)]; [left|right]; exact H.
Qed.

Lemma market_try_block_constructed (lp : option Q) (lv av : option Z) (vs : option Q)
    (pd fs : option string) (yes no : option Q) (ms : option string) (r : dict) :
  MarketStructure.try_block lp lv av vs pd fs yes no ms = inr r -> constructed r.
Proof.
  unfold MarketStructure.try_block. intro H.
  destruct (market_structure_model _) as [e|payload]; cbn [bind] in H; [discriminate|].
  destruct payload as [|?|?|?|?|?|d]; cbn [Py.attr_get bind raise ret] in H; try discriminate.
  destruct (negb _); [inversion H; constructor|].
  destruct (String.eqb _ ""); [inversion H; constructor|].
  match type of H with
  | match ?g with _ => _ end = _ => destruct g
  end; inversion H; constructor.
Qed.

Lemma market_constructed (lp : option Q) (lv av : option Z) (vs : option Q)
    (pd fs : option string) (yes no : option Q) (ms : option string) :
  constructed (MarketStructure.analyze_market_structure lp lv av vs pd fs yes no ms).
Proof.
  unfold MarketStructure.analyze_market_structure.
  destruct (ResponseUtils.missing_required_fields _); [|constructor].
  destruct (MarketStructure._is_no_data _ _ _ _ _ _); [constructor|].
  destruct (negb google_api_key); [constructor|].
  destruct (MarketStructure.try_block _ _ _ _ _ _ _ _ _) as [e|r] eqn:Et; cbn [try_except].
  - constructor.
  - apply (market_try_block_constructed _ _ _ _ _ _ _ _ _ _ Et).
Qed.

Lemma impairment_try_block_constructed (ni fcf ca td nd ie ic so ir : option Q) (cs : string)
    (csi : option Q) (bc : option string) (all_missing : list string) (partial : bool)
    (r : dict) :
  Impairment.try_block ni fcf ca td nd ie ic so ir cs csi bc all_missing partial = inr r ->
  constructed r.
Proof.
  unfold Impairment.try_block. intro H.
  destruct (impairment_model _) as [e|payload]; cbn [bind] in H; [discriminate|].
  destruct payload as [|?|?|?|?|?|d]; cbn [Py.attr_get bind raise ret] in H; try discriminate.
  destruct (negb _); [inversion H; constructor|].
  destruct (String.eqb _ ""); [inversion H; constructor|].
  destruct (Impairment._reasoning_meets_constraints _) as [valid msg].
  destruct partial; inversion H; constructor.
Qed.

Lemma impairment_constructed (ni fcf ca td nd ie ic so ir : option Q)
    (cs : option string) (csi : option Q) (bc : option string) (r : dict) :
  Impairment.assess_impairment_risk ni fcf ca td nd ie ic so ir cs csi bc = ret r ->
  constructed r.
Proof.
  unfold Impairment.assess_impairment_risk. intro H.
  destruct (map fst _); [|inversion H; constructor].
  destruct (andb _ _); [inversion H; constructor|].
  destruct (negb (Py.mem _ _)); [inversion H; constructor|].
  destruct (PyRt.float_opt ir) as [e|x]; cbn [bind] in H; [discriminate|].
  destruct (Py.gt x 1.0); [inversion H; constructor|].
  destruct (negb google_api_key); [inversion H; constructor|].
  inversion H.
  destruct (Impairment.try_block _ _ _ _ _ _ _ _ _ _ _ _ _ _) as [e|r'] eqn:Et;
    cbn [try_except].
  - constructor.
  - apply (impairment_try_block_constructed _ _ _ _ _ _ _ _ _ _ _ _ _ _ _ Et).
Qed.

Lemma upper_risk_level (s : string) :
  Py.mem s Impairment.VALID_RISK_LEVELS = true -> Py.upper s = s.
Proof.
  intro H. destruct (risk_level_cases s H) as [->|[->|[->| ->]]]; reflexivity.
Qed.

(** X29. The gates fit together: on a valuation whose inputs are present with
    a positive share count, and for any inputs and model behaviour of gates
    3, 4 and 5, gate 4 returns, the orchestrator's suppression check returns
    the negation of the valuation's [pass], and [aggregate_verdict] on the
    four envelopes answers OK, never a missing-input or internal error.  The
    verdict is REJECT when the valuation fails or the impairment level is
    HIGH, INVEST when the valuation passes and the level is LOW, and WATCH
    otherwise; a position size is carried only by INVEST. *)
Theorem X29_gates_compose (mp ni td ca so : Q) (fcf : option Q)
    (lp : option Q) (lv av : option Z) (vs : option Q) (pd fs : option string)
    (yes no : option Q) (ms : option string)
    (nd ie ic ir : option Q) (cs : option string) (csi : option Q) (bc : option string)
    (vol dd corr : option Q) (g1 : pyval) :
  (0 < so)%Q ->
  (g1 = VNone \/ Py.is_dict g1 = true) ->
  let g2 := Gate2.calculate_valuation (Some mp) (Some ni) fcf (Some td) (Some ca) (Some so) in
  let g3 := MarketStructure.analyze_market_structure lp lv av vs pd fs yes no ms in
  exists (g4 : dict) (pass : bool) (level : string),
    Impairment.assess_impairment_risk (Some ni) fcf (Some ca) (Some td) nd ie ic (Some so)
      ir cs csi bc = ret g4 /\
    Envelope.field g2 "pass" = VBool pass /\
    Envelope.field g4 "risk_level" = VStr level /\
    Orchestrator._should_suppress_sizing g2 g4 = ret (negb pass) /\
    let g5 := Gate5.calculate_position_size vol dd ir cs corr (negb pass) in
    let final := Gate6.aggregate_verdict g2 g3 g4 g5 g1 in
    Envelope.status final = VStr "OK" /\
    Envelope.field final "verdict" =
      VStr (if negb pass then "REJECT"
            else if String.eqb level "HIGH" then "REJECT"
            else if String.eqb level "LOW" then "INVEST"
            else "WATCH") /\
    (Py.contains_key (Envelope.data final) "max_position_size" = true ->
     pass = true /\ level = "LOW" /\ Envelope.status g5 = VStr "OK").
Proof.
  intros Hso Hg1 g2 g3.
  destruct (valuation_envelope_signals mp ni td ca so fcf Hso)
    as (d & b & Hd & Hdp & Hp & Hps & Hf & Hm & Hdiag).
  fold g2 in Hd, Hdp, Hf, Hdiag.
  destruct (assess_impairment_risk_answer (Some ni) fcf (Some ca) (Some td) nd ie ic (Some so)
              ir cs csi bc)
    as (g4 & Hg4 & _ & _ & level & driver & c & Hl & Hlm & _).
  exists g4, b, level.
  split; [exact Hg4|]. split; [exact Hf|]. split; [exact Hl|].
  split.
  { rewrite (should_suppress_sizing_value g2 g4 d Hd), Hp, Hps.
    destruct b; reflexivity. }
  intros g5 final.
  destruct (constructed_parts g3 (market_constructed lp lv av vs pd fs yes no ms))
    as (D3 & P3).
  destruct (constructed_parts g4 (impairment_constructed _ _ _ _ _ _ _ _ _ _ _ _ _ Hg4))
    as (D4 & P4).
  destruct (constructed_parts g5 (sizing_constructed vol dd ir cs corr (negb b)))
    as (D5 & P5).
  destruct (analyze_market_structure_answer lp lv av vs pd fs yes no ms)
    as (_ & _ & _ & cls & c3 & Hcls & _). fold g3 in Hcls.
  assert (Hvp : Signals.valuation_pass g2 = b).
  { unfold Signals.valuation_pass, Signals.pass_field, Signals.passes_field.
    rewrite Hdp, Hp, Hps. destruct b; reflexivity. }
  assert (Hrisk : Signals.impairment_risk g4 = level).
  { unfold Signals.impairment_risk. rewrite P4.
    unfold Envelope.field in Hl.
    rewrite (get_or_of_get _ _ _ _ Hl) by discriminate.
    cbn [PyRt.str]. apply upper_risk_level. exact Hlm. }
  assert (Hacc : Signals.accepted g2 g3 g4).
  { split; [rewrite P3; unfold Envelope.field in Hcls; rewrite Hcls; discriminate|].
    split; [rewrite P4; unfold Envelope.field in Hl; rewrite Hl; discriminate|].
    unfold Signals.pass_field. rewrite Hdp, Hp. intros [H _]. discriminate. }
  assert (Hwf : Signals.well_formed g2 g3 g4 g5 g1).
  { unfold Signals.well_formed. rewrite Hdp.
    split; [exact Hm|]. split; [exact Hdiag|]. split; [exact D3|]. split; [exact D4|].
    split; [exact D5 | exact Hg1]. }
  destruct (aggregate_verdict_sizing g2 g3 g4 g5 g1 Hacc Hwf)
    as (verdict & label & Hfm & Hs & Hv & _ & _ & _ & Hk & _).
  fold final in Hs, Hv, Hk.
  rewrite Hvp, Hrisk in Hfm.
  split; [exact Hs|].
  assert (Hverdict : verdict = (if negb b then "REJECT"
                                else if String.eqb level "HIGH" then "REJECT"
                                else if String.eqb level "LOW" then "INVEST"
                                else "WATCH")).
  { unfold first_match in Hfm.
    destruct Hfm as [(-> & -> & _)|[(-> & -> & -> & _)|[(-> & -> & -> & _)|
                     [(-> & -> & -> & _)|(-> & N1 & N2 & N3 & -> & _)]]]]; try reflexivity.
    cbn [negb].
    destruct (String.eqb_spec level "HIGH") as [E|_]; [contradiction|].
    destruct (String.eqb_spec level "LOW") as [E|_]; [contradiction|]. reflexivity. }
  split; [rewrite Hv, Hverdict; reflexivity|].
  intro Hkey. rewrite Hkey in Hk. symmetry in Hk.
  apply andb_true_iff in Hk. destruct Hk as (Hinv & Hk).
  apply andb_true_iff in Hk. destruct Hk as (Hnsk & Hnum).
  apply String.eqb_eq in Hinv. rewrite Hinv in Hverdict.
  destruct b; cbn [negb] in Hverdict; [|discriminate].
  destruct (String.eqb_spec level "HIGH") as [E|_]; [discriminate|].
  destruct (String.eqb_spec level "LOW") as [E|_]; [|discriminate].
  split; [reflexivity|]. split; [exact E|].
  cbn [negb] in g5.
  destruct (sizing_status_cases vol dd ir cs corr false) as [Hsk|Hok]; [|exact Hok].
  exfalso. unfold SizingSignals.skipped in Hnsk.
  unfold g5 in Hnsk.
  apply negb_true_iff in Hnsk. apply orb_false_iff in Hnsk. destruct Hnsk as (Hnsk & _).
  revert Hnsk Hsk. generalize (sizing_constructed vol dd ir cs corr false).
  intros []; cbn; intros; discriminate.
Qed.

End GateChain.

(** ** Gate 1 *)

Section BusinessContextExtra.
Context {R : Runtime} {L : Llm}.

Lemma defaulted_member (s dflt : string) (l : list string) :
  In dflt l -> In (if negb (Py.mem s l) then dflt else s) l.
Proof.
  intro H. destruct (Py.mem s l) eqn:E; cbn [negb]; [apply mem_In; exact E | exact H].
Qed.

Lemma context_try_block_answer (company_name sic_description : string)
    (bd rf et sic : option string) (filings : bool) (missing : list string) (r : dict) :
  BusinessContext.try_block company_name sic_description bd rf et sic filings missing
    = inr r ->
  context_error r \/ context_answer r filings missing.
Proof.
  unfold BusinessContext.try_block.
  destruct (business_context_model _) as [e|payload]; cbn [bind]; [discriminate|].
  destruct payload as [|?|?|?|?|?|d]; cbn [Py.attr_get bind raise ret]; try discriminate.
  set (summary := PyText.strip (PyRt.str (Py.get_or d "business_summary" (VStr "")))).
  set (exposure := Py.upper (PyText.strip (PyRt.str (Py.get_or d "geographic_exposure" (VStr ""))))).
  set (complexity := Py.upper (PyText.strip (PyRt.str (Py.get_or d "business_complexity" (VStr ""))))).
  destruct (String.eqb_spec summary "") as [E|E].
  { intro H. inversion H. left. repeat split. }
  set (complexity' := if negb (Py.mem complexity BusinessContext.VALID_COMPLEXITY)
                      then "MEDIUM" else complexity).
  set (exposure' := if negb (Py.mem exposure [ "DOMESTIC"; "INTERNATIONAL"; "GLOBAL" ])
                    then "INTERNATIONAL" else exposure).
  assert (Hc : In complexity' [ "LOW"; "MEDIUM"; "HIGH" ]).
  { apply (defaulted_member complexity "MEDIUM" BusinessContext.VALID_COMPLEXITY).
    right; left; reflexivity. }
  assert (He : In exposure' [ "DOMESTIC"; "INTERNATIONAL"; "GLOBAL" ]).
  { apply defaulted_member. right; left; reflexivity. }
  intro H. right. exists summary, complexity', exposure'.
  destruct filings; cbn [negb] in H; inversion H.
  - repeat (split; [first [reflexivity | assumption]|]).
    split; [destruct missing; reflexivity|]. split; reflexivity.
  - repeat (split; [first [reflexivity | assumption]|]). split; reflexivity.
Qed.

(** X30. [analyze_business_context] either answers ERROR, with confidence 0
    and empty data, or reports a non-empty summary, a complexity among LOW,
    MEDIUM, HIGH and a geographic exposure among DOMESTIC, INTERNATIONAL,
    GLOBAL whatever the model wrote in those fields.  Such an answer is
    PARTIAL with confidence 40 when neither the business description nor the
    risk factors are given, and OK with confidence 85 when at least one is;
    in both cases [missing_inputs] lists the sections not given, so an OK
    answer can report a missing input.  An empty company name gives the
    ERROR code BUSINESS_CONTEXT_MISSING_COMPANY_NAME with [company_name]
    listed as missing, and a non-empty name without an API key the code
    BUSINESS_CONTEXT_LLM_KEY_MISSING with nothing listed, whatever the
    model. *)
Theorem X30_business_context_outcomes (company_name sic_description : string)
    (business_description risk_factors entity_type sic : option string) :
  let r := BusinessContext.analyze_business_context company_name sic_description
             business_description risk_factors entity_type sic in
  let has_description := BusinessContext.given business_description in
  let has_risks := BusinessContext.given risk_factors in
  let missing :=
    ((if has_description then [] else [ "business_description" ])
     ++ (if has_risks then [] else [ "risk_factors" ]))%list in
  Envelope.gate_name r = VStr "Gate 1 – Business Context" /\
  ((Envelope.status r = VStr "ERROR" /\ Envelope.confidence r = VInt 0 /\
    Envelope.data r = []) \/
   (company_name <> "" /\ google_api_key = true /\
    exists summary complexity exposure,
      Envelope.field r "business_summary" = VStr summary /\ summary <> "" /\
      Envelope.field r "business_complexity" = VStr complexity /\
      In complexity [ "LOW"; "MEDIUM"; "HIGH" ] /\
      Envelope.field r "geographic_exposure" = VStr exposure /\
      In exposure [ "DOMESTIC"; "INTERNATIONAL"; "GLOBAL" ] /\
      Envelope.missing_inputs r = Py.str_list missing /\
      Envelope.status r = VStr (if orb has_description has_risks then "OK" else "PARTIAL") /\
      Envelope.confidence r = VInt (if orb has_description has_risks then 85 else 40))) /\
  (company_name = "" ->
   Envelope.error_code r = VStr "BUSINESS_CONTEXT_MISSING_COMPANY_NAME" /\
   Envelope.missing_inputs r = Py.str_list [ "company_name" ]) /\
  (company_name <> "" -> google_api_key = false ->
   Envelope.error_code r = VStr "BUSINESS_CONTEXT_LLM_KEY_MISSING" /\
   Envelope.missing_inputs r = Py.str_list []).
Proof.
  intros r has_description has_risks missing.
  unfold r, BusinessContext.analyze_business_context.
  destruct (String.eqb_spec company_name "") as [E|E].
  { split; [reflexivity|]. split; [left; repeat split|].
    split; [intros _; split; reflexivity | intro F; contradiction]. }
  destruct google_api_key eqn:Ekey; cbn [negb].
  2:{ split; [reflexivity|]. split; [left; repeat split|].
      split; [intro F; contradiction | intros _ _; split; reflexivity]. }
  fold has_description has_risks.
  assert (Hm : ((if negb has_description then [ "business_description" ] else [])
                ++ (if negb has_risks then [ "risk_factors" ] else []))%list = missing).
  { unfold missing. destruct has_description, has_risks; reflexivity. }
  rewrite Hm.
  destruct (BusinessContext.try_block _ _ _ _ _ _ _ _) as [e|r0] eqn:Et; cbn [try_except].
  - split; [reflexivity|]. split; [left; repeat split|].
    split; [intro F; contradiction | intros _ F; discriminate].
  - assert (Hg : Envelope.gate_name r0 = VStr "Gate 1 – Business Context").
    { revert Et. unfold BusinessContext.try_block.
      destruct (business_context_model _) as [e|payload]; cbn [bind]; [discriminate|].
      destruct payload as [|?|?|?|?|?|d]; cbn [Py.attr_get bind raise ret];
        try discriminate.
      destruct (String.eqb _ ""); [intro H; inversion H; reflexivity|].
      destruct (orb has_description has_risks); cbn [negb]; intro H; inversion H;
        reflexivity. }
    split; [exact Hg|].
    split.
    + destruct (context_try_block_answer _ _ _ _ _ _ _ _ _ Et) as [H|H].
      * left. exact H.
      * right. split; [exact E|]. split; [reflexivity|]. exact H.
    + split; [intro F; contradiction | intros _ F; discriminate].
Qed.

End BusinessContextExtra.

(** ** The theorems with hypotheses, at concrete inputs *)



Lemma X6_net_cash_policy_witness :
  (-20 <= 0)%Q /\
  fst (Gate2.valuation_policy (R := Concrete.runtime) (-20)) =
    (Gate2.VALUATION_MULTIPLE (R := Concrete.runtime) + 2.0)%Q /\
  (0.20 <= snd (Gate2.valuation_policy (R := Concrete.runtime) (-20)))%Q.
Proof.
  assert (H1 : (-20 <= 0)%Q) by (vm_compute; discriminate).
  split; [exact H1|].
  destruct (X6_net_cash_policy (R := Concrete.runtime) (-20) H1) as (Hm & Hfloor & _).
  split; [exact Hm | exact Hfloor].
Defined.

Lemma X8_factor_bands_witness :
  (0.20 <= 0.50)%Q /\
  (Gate5._volatility_factor 0.50 <= Gate5._volatility_factor 0.20)%Q /\
  (Gate5._drawdown_factor 0.50 <= Gate5._drawdown_factor 0.20)%Q /\
  (Gate5._correlation_factor 0.50 <= Gate5._correlation_factor 0.20)%Q.
Proof.
  assert (H1 : (0.20 <= 0.50)%Q) by (vm_compute; discriminate).
  split; [exact H1|].
  destruct (X8_factor_bands 0.20 0.50 H1) as (Hv & Hd & Hc & _).
  split; [exact Hv|]. split; [exact Hd | exact Hc].
Defined.


Lemma X11_size_monotone_witness :
  Py.mem (Py.upper "LOW") Gate5.VALID_CREDIT_STRESS = true /\
  (0.08 <= 1)%Q /\ (0.25 <= 0.60)%Q /\ (0.20 <= 0.50)%Q /\ (0.04 <= 0.08)%Q /\ (0.5 <= 0.9)%Q /\
  exists size size',
    Envelope.field
      (Gate5.calculate_position_size (R := Concrete.runtime)
         (Some 0.25%Q) (Some 0.20%Q) (Some 0.04%Q) (Some "LOW") (Some 0.5%Q) false)
      "maximum_position_size" = VFloat size /\
    Envelope.field
      (Gate5.calculate_position_size (R := Concrete.runtime)
         (Some 0.60%Q) (Some 0.50%Q) (Some 0.08%Q) (Some "LOW") (Some 0.9%Q) false)
      "maximum_position_size" = VFloat size' /\
    (size' <= size)%Q.
Proof.
  assert (H1 : Py.mem (Py.upper "LOW") Gate5.VALID_CREDIT_STRESS = true) by reflexivity.
  assert (H2 : (0.08 <= 1)%Q) by (vm_compute; discriminate).
  assert (H3 : (0.25 <= 0.60)%Q) by (vm_compute; discriminate).
  assert (H4 : (0.20 <= 0.50)%Q) by (vm_compute; discriminate).
  assert (H5 : (0.04 <= 0.08)%Q) by (vm_compute; discriminate).
  assert (H6 : (0.5 <= 0.9)%Q) by (vm_compute; discriminate).
  split; [exact H1|]. split; [exact H2|]. split; [exact H3|]. split; [exact H4|].
  split; [exact H5|]. split; [exact H6|].
  exact (X11_size_monotone (R := Concrete.runtime) 0.25 0.60 0.20 0.50 0.04 0.08 0.5 0.9 "LOW"
           H1 H2 H3 H4 H5 H6).
Defined.

Lemma X15_verdict_confidence_witness :
  Signals.accepted (R := Concrete.runtime_llm)
    Concrete.gate2_envelope Concrete.gate3_envelope Concrete.gate4_envelope /\
  Signals.well_formed (R := Concrete.runtime_llm)
    Concrete.gate2_envelope Concrete.gate3_envelope Concrete.gate4_envelope
    Concrete.gate5_envelope (Py.get Concrete.gate1_envelope "data") /\
  exists c : Z,
    Envelope.confidence Concrete.final_envelope = VInt c /\
    Envelope.field Concrete.final_envelope "confidence" = VInt c /\
    30 <= c <= 80.
Proof.
  split; [exact concrete_accepted|]. split; [exact concrete_well_formed|].
  destruct (X15_verdict_confidence (R := Concrete.runtime_llm) _ _ _ _ _
              concrete_accepted concrete_well_formed)
    as (c & score & Hc & Hd & _ & _ & _ & Hrange & _).
  exists c. split; [exact Hc|]. split; [exact Hd | exact Hrange].
Defined.

Lemma X16_position_size_only_on_invest_witness :
  Signals.accepted (R := Concrete.runtime_llm)
    Concrete.gate2_envelope Concrete.gate3_envelope Concrete.gate4_envelope /\
  Signals.well_formed (R := Concrete.runtime_llm)
    Concrete.gate2_envelope Concrete.gate3_envelope Concrete.gate4_envelope
    Concrete.gate5_envelope (Py.get Concrete.gate1_envelope "data") /\
  Py.contains_key (Envelope.data Concrete.final_envelope) "max_position_size" = true.
Proof.
  split; [exact concrete_accepted|]. split; [exact concrete_well_formed|].
  destruct (X16_position_size_only_on_invest (R := Concrete.runtime_llm) _ _ _ _ _
              concrete_accepted concrete_well_formed)
    as (Hiff & _).
  apply Hiff. split; [|split]; vm_compute; reflexivity.
Defined.

Lemma X18_raw_payloads_accepted_witness :
  let d2 : dict := [ ("pass", VBool true); ("margin_of_safety", VFloat 0.4) ] in
  let d3 : dict := [ ("classification", VStr "NEUTRAL") ] in
  let d4 : dict := [ ("risk_level", VStr "LOW") ] in
  let d5 : dict := [ ("maximum_position_size", VFloat 5) ] in
  Py.is_dict (Py.get d2 "data") = false /\
  Py.is_dict (Py.get d3 "data") = false /\
  Py.is_dict (Py.get d4 "data") = false /\
  Py.is_dict (Py.get d5 "data") = false /\
  Gate6.aggregate_verdict (R := Concrete.runtime)
    (ResponseUtils.ok_response "Gate 2 – Valuation" d2 [] 85 "PASS" None None)
    (ResponseUtils.ok_response "Gate 3 – Market Structure" d3 [] 60 "NEUTRAL" None None)
    (ResponseUtils.ok_response "Gate 4 – Impairment Risk" d4 [] 80 "LOW" None None)
    (ResponseUtils.ok_response "Gate 5 – Position Sizing" d5 [] 75 "5% NAV" None None) VNone
  = Gate6.aggregate_verdict (R := Concrete.runtime) d2 d3 d4 d5 VNone.
Proof.
  intros d2 d3 d4 d5.
  assert (H2 : Py.is_dict (Py.get d2 "data") = false) by reflexivity.
  assert (H3 : Py.is_dict (Py.get d3 "data") = false) by reflexivity.
  assert (H4 : Py.is_dict (Py.get d4 "data") = false) by reflexivity.
  assert (H5 : Py.is_dict (Py.get d5 "data") = false) by reflexivity.
  split; [exact H2|]. split; [exact H3|]. split; [exact H4|]. split; [exact H5|].
  apply (X18_raw_payloads_accepted (R := Concrete.runtime) d2 d3 d4 d5 VNone
           "Gate 2 – Valuation" "Gate 3 – Market Structure" "Gate 4 – Impairment Risk"
           "Gate 5 – Position Sizing" [] [] [] [] 85 60 80 75 "PASS" "NEUTRAL" "LOW" "5% NAV"
           None None None None H2 H3 H4 H5).
Defined.

Lemma X20_pipeline_confidence_total_witness :
  Forall constructed [ Concrete.gate3_envelope; Concrete.gate4_envelope ] /\
  exists c,
    ResponseUtils.compute_pipeline_confidence (R := Concrete.runtime)
      [ Concrete.gate3_envelope; Concrete.gate4_envelope ] = ret c /\
    30 <= c <= 80.
Proof.
  assert (H : Forall constructed [ Concrete.gate3_envelope; Concrete.gate4_envelope ]).
  { repeat constructor. }
  split; [exact H|].
  destruct (X20_pipeline_confidence_total (R := Concrete.runtime) _ H) as (c & Hc & _ & Hrange).
  exists c. split; [exact Hc|]. apply Hrange. discriminate.
Defined.

Lemma X21_halt_at_identity_witness :
  resolve_identity (Collaborators := Halted.collaborators) "ZZZZ" =
    ResponseUtils.error_response Gate0.GATE_NAME "IDENTITY_NOT_FOUND"
      "No company found matching 'ZZZZ'" [ "company_input" ] None (Some "DATA_AVAILABILITY") /\
  Concrete.pipeline_confidence_of
    (Orchestrator.run_pipeline (R := Concrete.runtime) (C := Halted.collaborators) "ZZZZ")
  = Some (VInt 50).
Proof.
  assert (H : resolve_identity (Collaborators := Halted.collaborators) "ZZZZ" =
              ResponseUtils.error_response Gate0.GATE_NAME "IDENTITY_NOT_FOUND"
                "No company found matching 'ZZZZ'" [ "company_input" ] None
                (Some "DATA_AVAILABILITY")) by reflexivity.
  split; [exact H|].
  rewrite (X21_halt_at_identity (R := Concrete.runtime) (C := Halted.collaborators)
             "ZZZZ" _ _ _ _ _ H).
  reflexivity.
Defined.

Lemma X23_failed_valuation_chain_witness :
  let g2 := Gate2.calculate_valuation (R := Concrete.runtime)
              (Some 200%Q) (Some 100%Q) (Some 80%Q) (Some 50%Q) (Some 70%Q) (Some 10%Q) in
  let g5 := Gate5.calculate_position_size (R := Concrete.runtime)
              (Some 0.25%Q) (Some 0.20%Q) (Some 0.04%Q) (Some "LOW") (Some 0.5%Q) true in
  (0 < 10)%Q /\
  Envelope.field g2 "pass" = VBool false /\
  Envelope.status g5 = VStr "SKIPPED" /\
  Envelope.field
    (Gate6.aggregate_verdict (R := Concrete.runtime) g2 Concrete.gate3_envelope
       Concrete.gate4_envelope g5 VNone) "verdict" = VStr "REJECT".
Proof.
  intros g2 g5.
  assert (H1 : (0 < 10)%Q) by reflexivity.
  assert (H2 : Envelope.field g2 "pass" = VBool false) by (vm_compute; reflexivity).
  split; [exact H1|]. split; [exact H2|].
  assert (H3 : Py.get (Signals.data_part (R := Concrete.runtime) Concrete.gate3_envelope)
                 "classification" <> VNone) by (vm_compute; discriminate).
  assert (H4 : Py.get (Signals.data_part (R := Concrete.runtime) Concrete.gate4_envelope)
                 "risk_level" <> VNone) by (vm_compute; discriminate).
  destruct (X23_failed_valuation_chain (R := Concrete.runtime) 200 100 50 70 10 (Some 80%Q)
              (Some 0.25%Q) (Some 0.20%Q) (Some 0.04%Q) (Some "LOW") (Some 0.5%Q)
              Concrete.gate3_envelope Concrete.gate4_envelope VNone
              H1 H2 H3 H4 eq_refl eq_refl (or_introl eq_refl))
    as (_ & Hskip & _ & Hverdict & _).
  split; [exact Hskip | exact Hverdict].
Defined.

Lemma X26_impairment_abstains_on_missing_data_witness :
  (Some 70%Q = None \/ Some 50%Q = None \/ Some 0.04%Q = None \/ Some "LOW" = None \/
   (@None Q = None /\ @None Q = None)) /\
  exists r,
    Impairment.assess_impairment_risk (R := Concrete.runtime) (L := Scripted.silent)
      (Some 100%Q) (Some 80%Q) (Some 70%Q) (Some 50%Q) (Some (-20)%Q) None None (Some 10%Q)
      (Some 0.04%Q) (Some "LOW") (Some (-0.5)%Q) None = ret r /\
    Impairment.assess_impairment_risk (R := Concrete.runtime)
      (L := Scripted.answering Scripted.payload)
      (Some 100%Q) (Some 80%Q) (Some 70%Q) (Some 50%Q) (Some (-20)%Q) None None (Some 10%Q)
      (Some 0.04%Q) (Some "LOW") (Some (-0.5)%Q) None = ret r /\
    Envelope.field r "risk_level" = VStr "UNDETERMINED" /\
    Envelope.missing_inputs r = Py.str_list [ "interest_expense"; "interest_coverage" ].
Proof.
  assert (H : Some 70%Q = None \/ Some 50%Q = None \/ Some 0.04%Q = None \/
              Some "LOW" = None \/ (@None Q = None /\ @None Q = None)).
  { right; right; right; right. split; reflexivity. }
  split; [exact H|].
  destruct (X26_impairment_abstains_on_missing_data (R := Concrete.runtime) Scripted.silent
              (Scripted.answering Scripted.payload)
              (Some 100%Q) (Some 80%Q) (Some 70%Q) (Some 50%Q) (Some (-20)%Q) None None
              (Some 10%Q) (Some 0.04%Q) (Some "LOW") (Some (-0.5)%Q) None H)
    as (r & H1 & H2 & _ & Hl & _ & _ & _ & Hm).
  exists r. split; [exact H1|]. split; [exact H2|]. split; [exact Hl | exact Hm].
Defined.

Lemma X28_market_structure_abstains_witness :
  let silent :=
    MarketStructure.analyze_market_structure (R := Concrete.runtime) (L := Scripted.silent)
      (Some 5%Q) (Some 1000) (Some 900) (Some 1.11%Q) (Some "UP") (Some "BUY") None None
      (Some "NEUTRAL") in
  let answering :=
    MarketStructure.analyze_market_structure (R := Concrete.runtime)
      (L := Scripted.answering Scripted.payload)
      (Some 5%Q) (Some 1000) (Some 900) (Some 1.11%Q) (Some "UP") (Some "BUY") None None
      (Some "NEUTRAL") in
  (@None Q = None /\ @None Q = None) /\
  answering = silent /\
  Envelope.field silent "classification" = VStr "NO_RELEVANT_DATA_FOUND" /\
  Envelope.missing_inputs silent = Py.str_list [].
Proof.
  intros silent answering.
  assert (H : @None Q = None /\ @None Q = None) by (split; reflexivity).
  split; [exact H|].
  destruct (X28_market_structure_abstains (R := Concrete.runtime) Scripted.silent
              (Scripted.answering Scripted.payload)
              (Some 5%Q) (Some 1000) (Some 900) (Some 1.11%Q) (Some "UP") (Some "BUY")
              None None (Some "NEUTRAL")
              (or_intror (or_intror (or_intror (or_intror (or_intror (or_intror (or_intror
                 (or_intror (or_intror (or_intror H)))))))))))
    as (Hsame & _ & Hcls & _ & Hmissing).
  split; [exact Hsame|]. split; [exact Hcls | exact Hmissing].
Defined.

Lemma X29_gates_compose_witness :
  (0 < 10)%Q /\
  (@VNone = VNone \/ Py.is_dict VNone = true) /\
  exists (g4 : dict) (pass : bool) (level : string),
    Impairment.assess_impairment_risk (R := Concrete.runtime)
      (L := Scripted.answering Scripted.payload)
      (Some 100%Q) (Some 80%Q) (Some 70%Q) (Some 50%Q) (Some (-20)%Q) (Some 5%Q) (Some 20%Q)
      (Some 10%Q) (Some 0.04%Q) (Some "LOW") (Some (-0.5)%Q) None = ret g4 /\
    Envelope.field
      (Gate2.calculate_valuation (R := Concrete.runtime)
         (Some 5%Q) (Some 100%Q) (Some 80%Q) (Some 50%Q) (Some 70%Q) (Some 10%Q))
      "pass" = VBool pass /\
    Envelope.field g4 "risk_level" = VStr level /\
    Envelope.status
      (Gate6.aggregate_verdict (R := Concrete.runtime)
         (Gate2.calculate_valuation (R := Concrete.runtime)
            (Some 5%Q) (Some 100%Q) (Some 80%Q) (Some 50%Q) (Some 70%Q) (Some 10%Q))
         (MarketStructure.analyze_market_structure (R := Concrete.runtime)
            (L := Scripted.answering Scripted.payload)
            (Some 5%Q) (Some 1000) (Some 900) (Some 1.11%Q) (Some "UP") (Some "BUY")
            (Some 0.6%Q) (Some 0.4%Q) (Some "NEUTRAL"))
         g4
         (Gate5.calculate_position_size (R := Concrete.runtime)
            (Some 0.25%Q) (Some 0.20%Q) (Some 0.04%Q) (Some "LOW") (Some 0.5%Q) (negb pass))
         VNone) = VStr "OK".
Proof.
  assert (H1 : (0 < 10)%Q) by reflexivity.
  assert (H2 : @VNone = VNone \/ Py.is_dict VNone = true) by (left; reflexivity).
  split; [exact H1|]. split; [exact H2|].
  destruct (X29_gates_compose (R := Concrete.runtime) (L := Scripted.answering Scripted.payload)
              5 100 50 70 10 (Some 80%Q)
              (Some 5%Q) (Some 1000) (Some 900) (Some 1.11%Q) (Some "UP") (Some "BUY")
              (Some 0.6%Q) (Some 0.4%Q) (Some "NEUTRAL")
              (Some (-20)%Q) (Some 5%Q) (Some 20%Q) (Some 0.04%Q) (Some "LOW") (Some (-0.5)%Q)
              None (Some 0.25%Q) (Some 0.20%Q) (Some 0.5%Q) VNone H1 H2)
    as (g4 & pass & level & Hg4 & Hpass & Hlevel & _ & Hstatus & _).
  exists g4, pass, level.
  split; [exact Hg4|]. split; [exact Hpass|]. split; [exact Hlevel | exact Hstatus].
Defined.
